(** * Apache Jira scraper: a shallow embedding of [jira_scraper.py]

    The development follows the classes of the module:
    - [DataTransformer]   ([safe_get], [transform_issue],
                           [_determine_training_task]),
    - [CheckpointManager] ([_load_checkpoint], [save_checkpoint],
                           [get_project_progress], [update_project_progress]),
    - [JiraAPIClient]     ([_rate_limit], [_make_request]),
    - [JiraScraper]       ([scrape_project], [run]).

    Python values are the values [json.load] and [response.json()] produce.
    A Python call either returns or raises, which is the [res] monad below. *)

From Stdlib Require Import ZArith QArith List String Ascii Bool Arith Lia.
Import ListNotations.

Close Scope Q_scope.
Open Scope nat_scope.
Open Scope string_scope.
Set Warnings "-register-all".

(* ===================================================================== *)
(** ** Python values and exceptions                                        *)
(* ===================================================================== *)

(** The values of parsed JSON.  A dictionary is an association list in
    insertion order; lookup takes the first binding of a key.  JSON numbers
    are the integers (a number with a fraction is not represented). *)
Inductive pyval : Type :=
| PNone
| PBool (b : bool)
| PInt (z : Z)
| PStr (s : string)
| PList (l : list pyval)
| PDict (d : list (string * pyval)).

Inductive exn : Type :=
| AttributeError
| TypeError
| KeyError
| ValueError
| OverflowError
| UnicodeDecodeError.

Inductive res (A : Type) : Type :=
| Ok (a : A)
| Raise (e : exn).
Arguments Ok {A} a.
Arguments Raise {A} e.

Definition bind {A B : Type} (c : res A) (k : A -> res B) : res B :=
  match c with
  | Ok a => k a
  | Raise e => Raise e
  end.

Notation "x <- c ;; k" := (bind c (fun x => k))
  (at level 61, c at next level, right associativity).

Definition returns {A : Type} (c : res A) : bool :=
  match c with Ok _ => true | Raise _ => false end.

Fixpoint mapM {A B : Type} (f : A -> res B) (l : list A) : res (list B) :=
  match l with
  | [] => Ok []
  | x :: rest => y <- f x ;; ys <- mapM f rest ;; Ok (y :: ys)
  end.

(** [bool(v)]: the truth value Python gives a JSON value. *)
Definition truthy (v : pyval) : bool :=
  match v with
  | PNone => false
  | PBool b => b
  | PInt z => negb (z =? 0)%Z
  | PStr s => negb (s =? EmptyString)
  | PList l => match l with [] => false | _ => true end
  | PDict d => match d with [] => false | _ => true end
  end.

Definition is_dict (v : pyval) : bool :=
  match v with PDict _ => true | _ => false end.

Definition is_str (v : pyval) : bool :=
  match v with PStr _ => true | _ => false end.

(** Values with [__len__]: [str], [list] and [dict]. *)
Definition is_sized (v : pyval) : bool :=
  match v with PStr _ | PList _ | PDict _ => true | _ => false end.

(* ===================================================================== *)
(** ** Dictionaries                                                        *)
(* ===================================================================== *)

Module Dict.

Fixpoint get (d : list (string * pyval)) (k : string) : option pyval :=
  match d with
  | [] => None
  | (k', v) :: rest => if k' =? k then Some v else get rest k
  end.

(** [d[k] = v]: an existing key keeps its place, a new one goes last. *)
Fixpoint set (d : list (string * pyval)) (k : string) (v : pyval)
  : list (string * pyval) :=
  match d with
  | [] => [(k, v)]
  | (k', v') :: rest =>
      if k' =? k then (k', v) :: rest else (k', v') :: set rest k v
  end.

Definition get_default (d : list (string * pyval)) (k : string)
           (default : pyval) : pyval :=
  match get d k with Some v => v | None => default end.

End Dict.

(** [v.get(k, default)]: only a [dict] has the method. *)
Definition py_get (v : pyval) (k : string) (default : pyval) : res pyval :=
  match v with
  | PDict d => Ok (Dict.get_default d k default)
  | _ => Raise AttributeError
  end.

(** [len(v)] *)
Definition py_len (v : pyval) : res nat :=
  match v with
  | PStr s => Ok (String.length s)
  | PList l => Ok (List.length l)
  | PDict d => Ok (List.length d)
  | _ => Raise TypeError
  end.

(** [for x in v]: the items the iteration yields. *)
Definition py_iter (v : pyval) : res (list pyval) :=
  match v with
  | PList l => Ok l
  | PDict d => Ok (map (fun kv => PStr (fst kv)) d)
  | PStr s =>
      Ok (map (fun c => PStr (String c EmptyString)) (list_ascii_of_string s))
  | _ => Raise TypeError
  end.

(* ===================================================================== *)
(** ** Strings                                                             *)
(* ===================================================================== *)

(** A character is a code point below 256.  [str.lower] maps the capital
    letters A-Z, and the capitals of the Latin-1 block (192-222 but the
    multiplication sign 215), to the letter 32 places on. *)
Definition lower_char (c : ascii) : ascii :=
  let n := nat_of_ascii c in
  if (((65 <=? n) && (n <=? 90))
      || ((192 <=? n) && (n <=? 222) && negb (n =? 215)))%nat
  then ascii_of_nat (n + 32) else c.

Fixpoint lower (s : string) : string :=
  match s with
  | EmptyString => EmptyString
  | String c rest => String (lower_char c) (lower rest)
  end.

(** [s.split('-')[0]]: what comes before the first dash. *)
Fixpoint split_dash_head (s : string) : string :=
  match s with
  | EmptyString => EmptyString
  | String c rest =>
      if Ascii.eqb c "-"%char then EmptyString
      else String c (split_dash_head rest)
  end.

Definition py_lower (v : pyval) : res string :=
  match v with
  | PStr s => Ok (lower s)
  | _ => Raise AttributeError
  end.

(* ===================================================================== *)
(** ** DataTransformer                                                     *)
(* ===================================================================== *)

Inductive training_task : Type :=
| question_answering
| summarization
| classification
| general.

Definition task_name (t : training_task) : string :=
  match t with
  | question_answering => "question_answering"
  | summarization => "summarization"
  | classification => "classification"
  | general => "general"
  end.

Record JiraIssue : Type := mkJiraIssue {
  issue_id : pyval;
  project : string;
  title : pyval;
  description : pyval;
  status : pyval;
  priority : pyval;
  issue_type : pyval;
  reporter : pyval;
  assignee : pyval;
  created_date : pyval;
  updated_date : pyval;
  resolved_date : pyval;
  labels : pyval;
  components : list pyval;
  comments : list pyval;
  task : training_task
}.

(** [safe_get(data, *keys, default=...)] *)
Fixpoint safe_get (data : pyval) (keys : list string) (default : pyval)
  : pyval :=
  match keys with
  | [] => if truthy data then data else default
  | key :: rest =>
      match data with
      | PDict d => safe_get (Dict.get_default d key (PDict [])) rest default
      | _ => default
      end
  end.

Definition clear_types : list string :=
  ["bug"; "improvement"; "new feature"; "task"].

Definition _determine_training_task
           (issue_type description : pyval) (comments : list pyval)
  : res training_task :=
  t <- py_lower issue_type ;;
  if (t =? "bug") && (2 <? List.length comments)%nat
  then Ok question_answering
  else
    n <- py_len description ;;
    if (500 <? n)%nat then Ok summarization
    else
      t' <- py_lower issue_type ;;
      if existsb (String.eqb t') clear_types then Ok classification
      else Ok general.

(** [issue_id.split('-')[0] if issue_id else ''] *)
Definition project_of (issue_id : pyval) : res string :=
  if truthy issue_id then
    match issue_id with
    | PStr s => Ok (split_dash_head s)
    | _ => Raise AttributeError
    end
  else Ok EmptyString.

Definition transform_issue (issue_data : pyval) (comments : list pyval)
  : res JiraIssue :=
  fields <- py_get issue_data "fields" (PDict []) ;;
  issue_id <- py_get issue_data "key" (PStr EmptyString) ;;
  project <- project_of issue_id ;;
  let title := safe_get fields ["summary"] (PStr "No Title") in
  let description := safe_get fields ["description"] (PStr "No Description") in
  let status := safe_get fields ["status"; "name"] (PStr "Unknown") in
  let priority := safe_get fields ["priority"; "name"] (PStr "Unknown") in
  let issue_type := safe_get fields ["issuetype"; "name"] (PStr "Unknown") in
  let reporter :=
    safe_get fields ["reporter"; "displayName"] (PStr "Unknown") in
  let assignee := safe_get fields ["assignee"; "displayName"] PNone in
  created_date <- py_get fields "created" (PStr EmptyString) ;;
  updated_date <- py_get fields "updated" (PStr EmptyString) ;;
  resolved_date <- py_get fields "resolutiondate" PNone ;;
  labels <- py_get fields "labels" (PList []) ;;
  raw_components <- py_get fields "components" (PList []) ;;
  items <- py_iter raw_components ;;
  components <- mapM (fun c => py_get c "name" (PStr EmptyString)) items ;;
  training_task <- _determine_training_task issue_type description comments ;;
  Ok (mkJiraIssue issue_id project title description status priority
                  issue_type reporter assignee created_date updated_date
                  resolved_date labels components comments training_task).

(* ===================================================================== *)
(** ** Stateful code: a state and exception monad                          *)
(* ===================================================================== *)

(** A method runs on the state of its object and either returns or raises;
    the state it leaves is the state at that moment. *)
Definition M (S A : Type) : Type := S -> res A * S.

Definition ret {S A : Type} (a : A) : M S A := fun s => (Ok a, s).

Definition raise {S A : Type} (e : exn) : M S A := fun s => (Raise e, s).

Definition lift {S A : Type} (r : res A) : M S A := fun s => (r, s).

Definition bindM {S A B : Type} (c : M S A) (k : A -> M S B) : M S B :=
  fun s =>
    match c s with
    | (Ok a, s') => k a s'
    | (Raise e, s') => (Raise e, s')
    end.

Definition gets {S A : Type} (f : S -> A) : M S A := fun s => (Ok (f s), s).

Definition modify {S : Type} (f : S -> S) : M S unit :=
  fun s => (Ok tt, f s).

(** [try: c  except Exception: h] *)
Definition try_except {S A : Type} (c : M S A) (h : exn -> M S A) : M S A :=
  fun s =>
    match c s with
    | (Raise e, s') => h e s'
    | r => r
    end.

Notation "x <~ c ;; k" := (bindM c (fun x => k))
  (at level 61, c at next level, right associativity).

Fixpoint forM_ {S A : Type} (l : list A) (body : A -> M S unit) : M S unit :=
  match l with
  | [] => ret tt
  | x :: rest => _ <~ body x ;; forM_ rest body
  end.

(* ===================================================================== *)
(** ** CheckpointManager                                                   *)
(* ===================================================================== *)

(** The checkpoint file, as [_load_checkpoint] meets it.  [json.dump]
    followed by [json.load] gives the value back, so a file that was
    written holds a value. *)
Inductive file : Type :=
| Missing                 (* [checkpoint_file.exists()] is false *)
| Stored (v : pyval)      (* [json.load] returns [v] *)
| Corrupted               (* [json.load] raises [JSONDecodeError] *)
| Undecodable.            (* the read raises [UnicodeDecodeError] *)

Inductive log_record : Type :=
| LogInfo (msg : string)
| LogWarning (msg : string)
| LogError (msg : string).

Record CheckpointManager : Type := mkCheckpointManager {
  state : pyval;
  checkpoint_file : file
}.

Definition empty_checkpoint : pyval := PDict [("projects", PDict [])].

(** [_load_checkpoint]: the value it returns, or the exception that
    escapes, and what it logs. *)
Definition _load_checkpoint (f : file) : res pyval * list log_record :=
  match f with
  | Missing => (Ok empty_checkpoint, [])
  | Stored v => (Ok v, [LogInfo "Loaded checkpoint"])
  | Corrupted =>
      (Ok empty_checkpoint,
       [LogInfo "Loaded checkpoint";
        LogWarning "Corrupted checkpoint, starting fresh"])
  | Undecodable => (Raise UnicodeDecodeError, [LogInfo "Loaded checkpoint"])
  end.

(** [CheckpointManager(checkpoint_file)] *)
Definition new_CheckpointManager (f : file) : res CheckpointManager :=
  st <- fst (_load_checkpoint f) ;;
  Ok (mkCheckpointManager st f).

(** [v[k]] for a string [k]. *)
Definition py_getitem (v : pyval) (k : string) : res pyval :=
  match v with
  | PDict d =>
      match Dict.get d k with
      | Some x => Ok x
      | None => Raise KeyError
      end
  | _ => Raise TypeError
  end.

(** [v[k] = x] for a string [k]. *)
Definition py_setitem (v : pyval) (k : string) (x : pyval) : res pyval :=
  match v with
  | PDict d => Ok (PDict (Dict.set d k x))
  | _ => Raise TypeError
  end.

Definition save_checkpoint : M CheckpointManager unit :=
  modify (fun m => mkCheckpointManager (state m) (Stored (state m))).

Definition get_project_progress (project : string)
  : M CheckpointManager pyval :=
  st <~ gets state ;;
  projects <~ lift (py_getitem st "projects") ;;
  lift (py_get projects project (PInt 0)).

(** [self.state['projects'][project] = start_at] changes the inner
    dictionary where it is: the state is the old one with that entry of
    ['projects'] set. *)
Definition update_project_progress (project : string) (start_at : pyval)
  : M CheckpointManager unit :=
  st <~ gets state ;;
  projects <~ lift (py_getitem st "projects") ;;
  projects' <~ lift (py_setitem projects project start_at) ;;
  st' <~ lift (py_setitem st "projects" projects') ;;
  _ <~ modify (fun m => mkCheckpointManager st' (checkpoint_file m)) ;;
  save_checkpoint.

(** The state the module documents: [{'projects': {...}}]. *)
Definition well_formed (st : pyval) : bool :=
  match st with
  | PDict d =>
      match Dict.get d "projects" with
      | Some (PDict _) => true
      | _ => false
      end
  | _ => false
  end.

(** The files on which the store works: none, an unparseable one, or one
    that holds a state of the documented form. *)
Definition usable (f : file) : bool :=
  match f with
  | Missing | Corrupted => true
  | Stored v => well_formed v
  | Undecodable => false
  end.

(** What the file says about a project, if anything. *)
Definition persisted (f : file) (project : string) : option pyval :=
  match f with
  | Stored (PDict d) =>
      match Dict.get d "projects" with
      | Some (PDict ps) => Dict.get ps project
      | _ => None
      end
  | _ => None
  end.

(* ===================================================================== *)
(** ** JiraAPIClient                                                       *)
(* ===================================================================== *)

(** The [Retry-After] header of a response, as [int(...)] takes it. *)
Inductive header : Type :=
| HeaderAbsent              (* [headers.get] gives the default 60 *)
| HeaderInt (z : Z)         (* [int] of the text is [z] *)
| HeaderText.               (* [int] of the text raises [ValueError] *)

(** What one [session.get] gives: a response, whose body [response.json()]
    reads as [json]; a timeout; or another transport error. *)
Inductive reply : Type :=
| Response (status_code : Z) (retry_after : header) (json : pyval)
| Timeout
| RequestException.

Inductive sleep_reason : Type :=
| ForRateLimit
| ForRetryAfter
| ForBackoff.

(** What a run does, in the order it does it. *)
Inductive event : Type :=
| RateLimit                           (* entry of [_rate_limit] *)
| Sleep (why : sleep_reason) (d : Q)  (* [time.sleep(d)] *)
| Get (n : nat).                      (* the [n]-th [session.get] *)

(** The client ([rate_limit_delay], [last_request_time]) and what it acts
    on: the clock, the number of requests sent, and the events so far. *)
Record JiraAPIClient : Type := mkJiraAPIClient {
  rate_limit_delay : Q;
  last_request_time : Q;
  now : Q;
  requests : nat;
  trace : list event
}.

(** The server: its [n]-th reply, and the time the request took. *)
Definition server : Type := nat -> Q * reply.

Definition Qltb (x y : Q) : bool := negb (Qle_bool y x).

(** [time.sleep(d)] for a [d] within what [time.sleep] takes: a negative
    [d] raises [ValueError].  The back-off [2 ** attempt] is within it up
    to the attempt 33; a delay that comes from the server goes through
    [sleep_retry_after]. *)
Definition time_sleep (why : sleep_reason) (d : Q) : M JiraAPIClient unit :=
  if Qltb d 0 then raise ValueError
  else modify (fun c =>
    mkJiraAPIClient (rate_limit_delay c) (last_request_time c)
                    (now c + d)%Q (requests c) (trace c ++ [Sleep why d])).

Definition log_event (e : event) : M JiraAPIClient unit :=
  modify (fun c =>
    mkJiraAPIClient (rate_limit_delay c) (last_request_time c)
                    (now c) (requests c) (trace c ++ [e])).

(** [_rate_limit].  The clock and the delays are rationals here, where the
    code has the floats of [time.time()]: the order and the number of the
    steps are those of the code, the length of a wait is so only up to the
    rounding of floats. *)
Definition _rate_limit : M JiraAPIClient unit :=
  _ <~ log_event RateLimit ;;
  elapsed <~ gets (fun c => (now c - last_request_time c)%Q) ;;
  delay <~ gets rate_limit_delay ;;
  _ <~ (if Qltb elapsed delay
        then time_sleep ForRateLimit (delay - elapsed)%Q
        else ret tt) ;;
  modify (fun c =>
    mkJiraAPIClient (rate_limit_delay c) (now c)
                    (now c) (requests c) (trace c)).

Definition session_get (srv : server) : M JiraAPIClient reply :=
  fun c =>
    let '(latency, r) := srv (requests c) in
    (Ok r,
     mkJiraAPIClient (rate_limit_delay c) (last_request_time c)
                     (now c + latency)%Q (S (requests c))
                     (trace c ++ [Get (requests c)])).

(** [int(response.headers.get('Retry-After', 60))] *)
Definition int_retry_after (h : header) : res Z :=
  match h with
  | HeaderAbsent => Ok 60%Z
  | HeaderInt z => Ok z
  | HeaderText => Raise ValueError
  end.

(** The largest number of seconds [time.sleep] takes: beyond it, on
    either side of 0, the conversion of the argument to the C time raises
    [OverflowError], before the sign is looked at. *)
Definition sleep_limit : Z := 9223372036.

(** [time.sleep(retry_after)]: the delay is the integer the server
    sent. *)
Definition sleep_retry_after (d : Z) : M JiraAPIClient unit :=
  if (sleep_limit <? Z.abs d)%Z then raise OverflowError
  else time_sleep ForRetryAfter (inject_Z d).

(** [2 ** attempt] *)
Definition backoff (attempt : nat) : Q := inject_Z (2 ^ Z.of_nat attempt).

(** The body of [for attempt in range(max_retries)], with [remaining]
    iterations to go; falling out of the loop gives [None]. *)
Fixpoint retry_loop (srv : server) (max_retries : Z)
         (remaining attempt : nat) : M JiraAPIClient pyval :=
  match remaining with
  | O => ret PNone
  | S remaining' =>
      r <~ session_get srv ;;
      match r with
      | Response status_code retry_after json =>
          if (status_code =? 429)%Z then
            d <~ lift (int_retry_after retry_after) ;;
            _ <~ sleep_retry_after d ;;
            retry_loop srv max_retries remaining' (S attempt)
          else if (status_code >=? 500)%Z then
            _ <~ time_sleep ForBackoff (backoff attempt) ;;
            retry_loop srv max_retries remaining' (S attempt)
          else if (status_code =? 200)%Z then ret json
          else ret PNone
      | Timeout =>
          _ <~ time_sleep ForBackoff (backoff attempt) ;;
          retry_loop srv max_retries remaining' (S attempt)
      | RequestException =>
          if (Z.of_nat attempt =? max_retries - 1)%Z then ret PNone
          else
            _ <~ time_sleep ForBackoff (backoff attempt) ;;
            retry_loop srv max_retries remaining' (S attempt)
      end
  end.

Definition _make_request (srv : server) (max_retries : Z)
  : M JiraAPIClient pyval :=
  _ <~ _rate_limit ;;
  retry_loop srv max_retries (Z.to_nat max_retries) 0.

(** Observations on a trace. *)
Definition backoff_delays (t : list event) : list Q :=
  flat_map (fun e => match e with Sleep ForBackoff d => [d] | _ => [] end) t.

Definition retry_after_delays (t : list event) : list Q :=
  flat_map (fun e => match e with Sleep ForRetryAfter d => [d] | _ => [] end) t.

Definition count_gets (t : list event) : nat :=
  List.length (filter (fun e => match e with Get _ => true | _ => false end) t).

Definition count_rate_limits (t : list event) : nat :=
  List.length
    (filter (fun e => match e with RateLimit => true | _ => false end) t).

(** Every [Get] comes right after a rate-limit step: the entry of
    [_rate_limit], or the sleep [_rate_limit] made. *)
Fixpoint rate_limited_before_each_get (guarded : bool) (t : list event)
  : bool :=
  match t with
  | [] => true
  | RateLimit :: rest => rate_limited_before_each_get true rest
  | Sleep ForRateLimit _ :: rest => rate_limited_before_each_get guarded rest
  | Sleep _ _ :: rest => rate_limited_before_each_get false rest
  | Get _ :: rest => guarded && rate_limited_before_each_get false rest
  end.

Definition fresh_client (delay : Q) (t0 : Q) : JiraAPIClient :=
  mkJiraAPIClient delay 0 t0 0 [].

(* ===================================================================== *)
(** ** JiraScraper                                                         *)
(* ===================================================================== *)

(** What a run does to its files, in the order it does it. *)
Inductive effect : Type :=
| Written (issue : JiraIssue)
    (* [f.write(...)]: a line handed to the output file object, which
       buffers it *)
| Saved (project : string) (start_at : pyval)
    (* [update_project_progress] returned: the checkpoint file is
       rewritten *)
| Closed.
    (* the block of [with open(...) as f] is left: the output file is
       flushed and closed *)

(** The scraper: its checkpoint manager, the lines appended to the output
    file of the project, the counters of [stats], the [start_at] of
    every [search_issues] call made, in order, and what was done to the
    files, in order. *)
Record JiraScraper : Type := mkJiraScraper {
  checkpoint_manager : CheckpointManager;
  output : list JiraIssue;
  total_issues : nat;
  total_comments : nat;
  errors : nat;
  searches : list pyval;
  journal : list effect
}.

(** The API client as the scraper sees it: what the [n]-th call of
    [search_issues] returns ([None] is [PNone]), and what
    [get_issue_comments] does on a key. *)
Record api : Type := mkApi {
  search_reply : nat -> pyval;
  get_issue_comments : pyval -> res (list pyval)
}.

Definition on_checkpoint {A : Type} (c : M CheckpointManager A)
  : M JiraScraper A :=
  fun s =>
    let '(r, m) := c (checkpoint_manager s) in
    (r, mkJiraScraper m (output s) (total_issues s) (total_comments s)
                      (errors s) (searches s) (journal s)).

Definition note (e : effect) : M JiraScraper unit :=
  modify (fun s =>
    mkJiraScraper (checkpoint_manager s) (output s) (total_issues s)
                  (total_comments s) (errors s) (searches s)
                  (journal s ++ [e])).

Definition add_error : M JiraScraper unit :=
  modify (fun s =>
    mkJiraScraper (checkpoint_manager s) (output s) (total_issues s)
                  (total_comments s) (S (errors s)) (searches s)
                  (journal s)).

Definition add_comments (n : nat) : M JiraScraper unit :=
  modify (fun s =>
    mkJiraScraper (checkpoint_manager s) (output s) (total_issues s)
                  (total_comments s + n) (errors s) (searches s)
                  (journal s)).

(** [f.write(json.dumps(issue.to_dict())); stats['total_issues'] += 1] *)
Definition write_issue (issue : JiraIssue) : M JiraScraper unit :=
  modify (fun s =>
    mkJiraScraper (checkpoint_manager s) (output s ++ [issue])
                  (S (total_issues s)) (total_comments s) (errors s)
                  (searches s) (journal s ++ [Written issue])).

Definition search_issues (jira : api) (start_at : pyval)
  : M JiraScraper pyval :=
  fun s =>
    (Ok (search_reply jira (List.length (searches s))),
     mkJiraScraper (checkpoint_manager s) (output s) (total_issues s)
                   (total_comments s) (errors s) (searches s ++ [start_at])
                   (journal s)).

(** Keys of [comments_map]: a [list] or a [dict] cannot be hashed, and
    [True == 1], [False == 0] as keys. *)
Definition hashable (v : pyval) : bool :=
  match v with PList _ | PDict _ => false | _ => true end.

Definition key_eqb (a b : pyval) : bool :=
  match a, b with
  | PNone, PNone => true
  | PStr x, PStr y => x =? y
  | PInt x, PInt y => (x =? y)%Z
  | PBool x, PBool y => Bool.eqb x y
  | PBool x, PInt y | PInt y, PBool x => ((if x then 1 else 0) =? y)%Z
  | _, _ => false
  end.

Definition comments_map : Type := list (pyval * list pyval).

Fixpoint cm_set (cm : comments_map) (key : pyval) (v : list pyval)
  : comments_map :=
  match cm with
  | [] => [(key, v)]
  | (k, v') :: rest =>
      if key_eqb k key then (k, v) :: rest else (k, v') :: cm_set rest key v
  end.

Fixpoint cm_find (cm : comments_map) (key : pyval) : option (list pyval) :=
  match cm with
  | [] => None
  | (k, v) :: rest => if key_eqb k key then Some v else cm_find rest key
  end.

(** [comments_map[key] = v] *)
Definition cm_setitem (cm : comments_map) (key : pyval) (v : list pyval)
  : res comments_map :=
  if hashable key then Ok (cm_set cm key v) else Raise TypeError.

(** [comments_map.get(key, [])] *)
Definition cm_get (cm : comments_map) (key : pyval) : res (list pyval) :=
  if hashable key
  then Ok (match cm_find cm key with Some v => v | None => [] end)
  else Raise TypeError.

(** One future of the pool, when its result is taken. *)
Definition collect (jira : api) (cm : comments_map) (key : pyval)
  : M JiraScraper comments_map :=
  try_except
    (comments <~ lift (get_issue_comments jira key) ;;
     cm' <~ lift (cm_setitem cm key comments) ;;
     _ <~ add_comments (List.length comments) ;;
     ret cm')
    (fun _ =>
       cm' <~ lift (cm_setitem cm key []) ;;
       _ <~ add_error ;;
       ret cm').

(** The futures are taken in the order of the page. *)
Fixpoint fetch_comments (jira : api) (keys : list pyval) (cm : comments_map)
  : M JiraScraper comments_map :=
  match keys with
  | [] => ret cm
  | key :: rest => cm' <~ collect jira cm key ;; fetch_comments jira rest cm'
  end.

Definition process_issue (cm : comments_map) (issue_data : pyval)
  : M JiraScraper unit :=
  try_except
    (issue_key <~ lift (py_get issue_data "key" (PStr "UNKNOWN")) ;;
     comments <~ lift (cm_get cm issue_key) ;;
     issue <~ lift (transform_issue issue_data comments) ;;
     write_issue issue)
    (fun _ => add_error).

(** [start_at += n]: the sum is an [int], or the operands do not add. *)
Definition py_iadd (v : pyval) (n : nat) : res Z :=
  match v with
  | PInt z => Ok (z + Z.of_nat n)%Z
  | PBool b => Ok ((if b then 1 else 0) + Z.of_nat n)%Z
  | _ => Raise TypeError
  end.

(** [a >= b] for an [int] [a]. *)
Definition int_ge (a : Z) (b : pyval) : res bool :=
  match b with
  | PInt y => Ok (a >=? y)%Z
  | PBool y => Ok (a >=? (if y then 1 else 0))%Z
  | _ => Raise TypeError
  end.

Inductive flow : Type :=
| Break
| Continue (start_at : pyval).

(** One turn of [while True]. *)
Definition scrape_page (jira : api) (project : string) (start_at : pyval)
  : M JiraScraper flow :=
  response <~ search_issues jira start_at ;;
  if negb (truthy response) then
    _ <~ add_error ;; ret Break
  else
    issues <~ lift (py_get response "issues" (PList [])) ;;
    total <~ lift (py_get response "total" (PInt 0)) ;;
    if negb (truthy issues) then ret Break
    else
      items <~ lift (py_iter issues) ;;
      issue_keys <~
        lift (mapM (fun issue => py_get issue "key" (PStr "UNKNOWN")) items) ;;
      cm <~ fetch_comments jira issue_keys [] ;;
      _ <~ forM_ items (process_issue cm) ;;
      n <~ lift (py_len issues) ;;
      start_at' <~ lift (py_iadd start_at n) ;;
      _ <~ on_checkpoint (update_project_progress project (PInt start_at')) ;;
      _ <~ note (Saved project (PInt start_at')) ;;
      stop <~ lift (int_ge start_at' total) ;;
      if stop then ret Break else ret (Continue (PInt start_at')).

Inductive outcome : Type :=
| Completed
| OutOfFuel.

(** [while True], for at most [fuel] pages. *)
Fixpoint pagination (jira : api) (project : string) (fuel : nat)
         (start_at : pyval) : M JiraScraper outcome :=
  match fuel with
  | O => ret OutOfFuel
  | S fuel' =>
      f <~ scrape_page jira project start_at ;;
      match f with
      | Break => ret Completed
      | Continue start_at' => pagination jira project fuel' start_at'
      end
  end.

(** [with open(output_file, 'a') as f: ...]: when the block is left, at
    its end or by an exception, the file is closed; while the loop is
    still going it is open. *)
Definition with_output_file (block : M JiraScraper outcome)
  : M JiraScraper outcome :=
  fun s =>
    match block s with
    | (Ok OutOfFuel, s') => (Ok OutOfFuel, s')
    | (r, s') => (r, snd (note Closed s'))
    end.

Definition scrape_project (jira : api) (project : string) (fuel : nat)
  : M JiraScraper outcome :=
  start_at <~ on_checkpoint (get_project_progress project) ;;
  with_output_file (pagination jira project fuel start_at).

Definition new_JiraScraper (m : CheckpointManager) : JiraScraper :=
  mkJiraScraper m [] 0 0 0 [] [].

(* ===================================================================== *)
(** ** Vocabulary of the statements                                        *)
(* ===================================================================== *)

(** *** Case-insensitive comparison, letter by letter *)

Definition is_lower_letter (w : ascii) : bool :=
  let n := nat_of_ascii w in ((97 <=? n) && (n <=? 122))%nat.

Definition capital_of (w : ascii) : ascii :=
  if is_lower_letter w then ascii_of_nat (nat_of_ascii w - 32) else w.

(** A word of small letters and spaces. *)
Fixpoint plain_word (word : string) : bool :=
  match word with
  | EmptyString => true
  | String w rest =>
      (is_lower_letter w || Ascii.eqb w " "%char) && plain_word rest
  end.

(** [s] is [word] up to the case of its letters. *)
Fixpoint same_word_ignoring_case (word s : string) : bool :=
  match word, s with
  | EmptyString, EmptyString => true
  | String w word', String c s' =>
      (Ascii.eqb c w || Ascii.eqb c (capital_of w))
      && same_word_ignoring_case word' s'
  | _, _ => false
  end.

Definition all_chars : list ascii := map ascii_of_nat (seq 0 256).

(** *** Raw items *)

(** Where a path of keys leads in nested dictionaries, if anywhere. *)
Fixpoint lookup_path (v : pyval) (path : list string) : option pyval :=
  match path with
  | [] => Some v
  | k :: rest =>
      match v with
      | PDict d =>
          match Dict.get d k with
          | Some x => lookup_path x rest
          | None => None
          end
      | _ => None
      end
  end.

(** A raw item with nothing of the wrong type where [transform_issue]
    calls a method: ['key'] absent, falsy or a string; ['fields'] absent or
    a dictionary; ['components'] absent or a list of dictionaries; the type
    name that [safe_get] finds a string, the description it finds a string,
    list or dictionary. *)
Definition shaped (item : list (string * pyval)) : bool :=
  match Dict.get item "key" with
  | None => true
  | Some k => is_str k || negb (truthy k)
  end
  &&
  match Dict.get_default item "fields" (PDict []) with
  | PDict f =>
      match Dict.get f "components" with
      | None => true
      | Some (PList cs) => forallb is_dict cs
      | Some _ => false
      end
      && is_str (safe_get (PDict f) ["issuetype"; "name"] (PStr "Unknown"))
      && is_sized (safe_get (PDict f) ["description"] (PStr "No Description"))
  | _ => false
  end.

(** The record of an item that has nothing. *)
Definition all_defaults (comments : list pyval) : JiraIssue :=
  mkJiraIssue (PStr EmptyString) EmptyString (PStr "No Title")
              (PStr "No Description") (PStr "Unknown") (PStr "Unknown")
              (PStr "Unknown") (PStr "Unknown") PNone (PStr EmptyString)
              (PStr EmptyString) PNone (PList []) [] comments general.

(** *** Pages *)

(** [response] is a search result with the items [items] and the total
    [total]. *)
Definition is_page (response : pyval) (items : list pyval) (total : Z)
  : Prop :=
  exists r, response = PDict r
            /\ Dict.get r "issues" = Some (PList items)
            /\ Dict.get_default r "total" (PInt 0) = PInt total.

(** [response] is a search result without items. *)
Definition is_empty_page (response : pyval) : Prop :=
  exists r, response = PDict r
            /\ truthy response = true
            /\ truthy (Dict.get_default r "issues" (PList [])) = false.

(** Every item is a dictionary whose key can be hashed. *)
Definition page_ok (items : list pyval) : bool :=
  forallb (fun issue =>
             match issue with
             | PDict d => hashable (Dict.get_default d "key" (PStr "UNKNOWN"))
             | _ => false
             end) items.

Definition key_of (issue : pyval) : pyval :=
  match issue with
  | PDict d => Dict.get_default d "key" (PStr "UNKNOWN")
  | _ => PNone
  end.

(** The comments map the pool leaves for the keys. *)
Fixpoint comments_for (jira : api) (keys : list pyval) (cm : comments_map)
  : comments_map :=
  match keys with
  | [] => cm
  | key :: rest =>
      comments_for jira rest
        (cm_set cm key
           (match get_issue_comments jira key with
            | Ok comments => comments
            | Raise _ => []
            end))
  end.

(** The record written for an item, if its processing does not raise. *)
Definition record_of (cm : comments_map) (issue_data : pyval)
  : option JiraIssue :=
  match (issue_key <- py_get issue_data "key" (PStr "UNKNOWN") ;;
         comments <- cm_get cm issue_key ;;
         transform_issue issue_data comments) with
  | Ok issue => Some issue
  | Raise _ => None
  end.

Fixpoint records_of (cm : comments_map) (items : list pyval)
  : list JiraIssue :=
  match items with
  | [] => []
  | issue_data :: rest =>
      match record_of cm issue_data with
      | Some issue => issue :: records_of cm rest
      | None => records_of cm rest
      end
  end.

(** The replies from the [i]-th on are the pages [pages], each with items
    that can be processed and, counted from the offset [n], short of its
    total. *)
Fixpoint continuing (jira : api) (i : nat) (n : Z)
         (pages : list (list pyval * Z)) : Prop :=
  match pages with
  | [] => True
  | (items, total) :: rest =>
      is_page (search_reply jira i) items total
      /\ items <> []
      /\ page_ok items = true
      /\ (n + Z.of_nat (List.length items) < total)%Z
      /\ continuing jira (S i) (n + Z.of_nat (List.length items)) rest
  end.

(** The offsets of the searches: the first, then one more per page. *)
Fixpoint offsets (n : Z) (pages : list (list pyval * Z)) : list Z :=
  match pages with
  | [] => [n]
  | (items, _) :: rest => n :: offsets (n + Z.of_nat (List.length items)) rest
  end.

(** The offset after the pages. *)
Fixpoint final_offset (n : Z) (pages : list (list pyval * Z)) : Z :=
  match pages with
  | [] => n
  | (items, _) :: rest => final_offset (n + Z.of_nat (List.length items)) rest
  end.

(** Two states of the scraper with the same checkpoint, output, searches
    and count of issues: only the counters of comments and errors moved,
    and errors did not go down. *)
Definition same_progress (s s' : JiraScraper) : Prop :=
  checkpoint_manager s' = checkpoint_manager s
  /\ output s' = output s
  /\ searches s' = searches s
  /\ total_issues s' = total_issues s
  /\ errors s <= errors s'.

(** The reply on which the loop ends, at the offset [n]: no items, or a
    page that reaches its total. *)
Definition last_page (response : pyval) (n : Z) : Prop :=
  is_empty_page response
  \/ exists items total,
       is_page response items total
       /\ items <> []
       /\ page_ok items = true
       /\ (n + Z.of_nat (List.length items) >= total)%Z.

(** *** Replies and the states of a run *)

(** A reply the loop answers with an exponential back-off: status 500 or
    more. *)
Definition is_server_error (r : reply) : bool :=
  match r with
  | Response status_code _ _ => (500 <=? status_code)%Z
  | _ => false
  end.

(** A 429 whose [Retry-After] is absent, or an integer that [time.sleep]
    takes: from 0 to [sleep_limit]. *)
Definition is_rate_limited (r : reply) : bool :=
  match r with
  | Response status_code h _ =>
      (status_code =? 429)%Z
      && match h with
         | HeaderAbsent => true
         | HeaderInt z => (0 <=? z)%Z && (z <=? sleep_limit)%Z
         | HeaderText => false
         end
  | _ => false
  end.

(** The wait a 429 asks for: its header, or 60. *)
Definition retry_after_of (r : reply) : Q :=
  match r with
  | Response _ (HeaderInt z) _ => inject_Z z
  | _ => inject_Z 60
  end.

Definition after_get (latency : Q) (c : JiraAPIClient) : JiraAPIClient :=
  mkJiraAPIClient (rate_limit_delay c) (last_request_time c)
                  (now c + latency)%Q (S (requests c))
                  (trace c ++ [Get (requests c)]).

Definition after_sleep (why : sleep_reason) (d : Q) (c : JiraAPIClient)
  : JiraAPIClient :=
  mkJiraAPIClient (rate_limit_delay c) (last_request_time c)
                  (now c + d)%Q (requests c) (trace c ++ [Sleep why d]).

(** What [_rate_limit] does on [c]: its entry, and a sleep when less than
    the delay has passed since [last_request_time]. *)
Definition rate_limit_events (c : JiraAPIClient) : list event :=
  let elapsed := (now c - last_request_time c)%Q in
  if Qltb elapsed (rate_limit_delay c)
  then [RateLimit; Sleep ForRateLimit (rate_limit_delay c - elapsed)%Q]
  else [RateLimit].

(** The time at which [_rate_limit] returns on [c]. *)
Definition released (c : JiraAPIClient) : Q :=
  let elapsed := (now c - last_request_time c)%Q in
  if Qltb elapsed (rate_limit_delay c)
  then (now c + (rate_limit_delay c - elapsed))%Q
  else now c.

(** From [c] to [c'] no rate limit was applied: [last_request_time] and
    the delay are the same and the events added have no [RateLimit]. *)
Definition quiet (c c' : JiraAPIClient) : Prop :=
  last_request_time c' = last_request_time c
  /\ rate_limit_delay c' = rate_limit_delay c
  /\ exists added, trace c' = (trace c ++ added)%list
                   /\ count_rate_limits added = 0.

Definition quiet_run {A : Type} (m : M JiraAPIClient A) : Prop :=
  forall c, quiet c (snd (m c)).

(** A server that answers at once: first the replies [rs] in turn, then
    [r] for ever. *)
Definition scripted (rs : list reply) (r : reply) : server :=
  fun n => (0%Q, nth n rs r).

(** A run only adds to the searches made. *)
Definition extends (s s' : JiraScraper) : Prop :=
  exists added, searches s' = (searches s ++ added)%list.

Definition extending_run {A : Type} (m : M JiraScraper A) : Prop :=
  forall s, extends s (snd (m s)).

(** The lines handed to the output file and not yet flushed by the code:
    those written since the file was last closed, after the lines
    [held]. *)
Fixpoint pending (j : list effect) (held : list JiraIssue)
  : list JiraIssue :=
  match j with
  | [] => held
  | Written issue :: rest => pending rest (held ++ [issue])
  | Saved _ _ :: rest => pending rest held
  | Closed :: rest => pending rest []
  end.

(** A run that does nothing to the files. *)
Definition silent_run {A : Type} (m : M JiraScraper A) : Prop :=
  forall s, journal (snd (m s)) = journal s.

(** A search result, and an API that gives the replies [replies] in turn,
    then [None], and finds no comments. *)
Definition page_of (items : list pyval) (total : Z) : pyval :=
  PDict [("issues", PList items); ("total", PInt total)].

Definition scripted_api (replies : list pyval) : api :=
  mkApi (fun n => nth n replies PNone) (fun _ => Ok []).

(* ===================================================================== *)
(** ** JiraAPIClient: the two operations on [_make_request]               *)
(* ===================================================================== *)

(** [needle in hay] on strings: [needle] occurs in [hay]. *)
Fixpoint starts_with (needle hay : string) : bool :=
  match needle, hay with
  | EmptyString, _ => true
  | String a needle', String b hay' =>
      Ascii.eqb a b && starts_with needle' hay'
  | String _ _, EmptyString => false
  end.

Fixpoint occurs_in (needle hay : string) : bool :=
  starts_with needle hay
  || match hay with
     | EmptyString => false
     | String _ hay' => occurs_in needle hay'
     end.

(** [field in data] for a string [field]: a key of a [dict], an element of
    a [list], a part of a [str]; the other values are not containers. *)
Definition py_contains (field : string) (data : pyval) : res bool :=
  match data with
  | PDict d => Ok (match Dict.get d field with Some _ => true | None => false end)
  | PList l =>
      Ok (existsb (fun x => match x with
                            | PStr s => s =? field
                            | _ => false
                            end) l)
  | PStr s => Ok (occurs_in field s)
  | _ => Raise TypeError
  end.

Module Client.

(** One entry of the list [get_issue_comments] builds. *)
Definition comment_of (comment : pyval) : res pyval :=
  author <- py_get comment "author" (PDict []) ;;
  name <- py_get author "displayName" (PStr "Unknown") ;;
  created <- py_get comment "created" (PStr EmptyString) ;;
  body <- py_get comment "body" (PStr EmptyString) ;;
  Ok (PDict [("author", name); ("created", created); ("body", body)]).

(** What [get_issue_comments] makes of the data [_make_request] gave. *)
Definition comments_of (data : pyval) : res (list pyval) :=
  if negb (truthy data) then Ok []
  else
    present <- py_contains "comments" data ;;
    if negb present then Ok []
    else
      raw <- py_getitem data "comments" ;;
      items <- py_iter raw ;;
      mapM comment_of items.

(** [get_issue_comments(issue_key)]: the key is part of the URL only, and
    [max_retries] has its default 5. *)
Definition get_issue_comments (srv : server) (issue_key : pyval)
  : M JiraAPIClient (list pyval) :=
  data <~ _make_request srv 5 ;;
  lift (comments_of data).

End Client.

(** A reply that is retried after a back-off whatever the attempt: a
    server error or a timeout. *)
Definition is_backed_off (r : reply) : bool :=
  match r with
  | Timeout => true
  | _ => is_server_error r
  end.

(** The exception a [Retry-After] header makes the 429 branch raise, if
    any: [int] fails on a text that is not an integer, [time.sleep] on an
    integer beyond [sleep_limit] and on a negative one. *)
Definition retry_after_error (h : header) : option exn :=
  match h with
  | HeaderAbsent => None
  | HeaderText => Some ValueError
  | HeaderInt z =>
      if (sleep_limit <? Z.abs z)%Z then Some OverflowError
      else if (z <? 0)%Z then Some ValueError
      else None
  end.

(** A reply on which [_make_request] raises nothing: any but a 429 whose
    [Retry-After] cannot be read as an integer from 0 to [sleep_limit]. *)
Definition acceptable (r : reply) : bool :=
  match r with
  | Response status_code h _ =>
      negb (status_code =? 429)%Z || is_rate_limited r
  | _ => true
  end.

(** A status on which [_make_request] gives up at once. *)
Definition is_client_error (r : reply) : bool :=
  match r with
  | Response status_code _ _ =>
      negb (status_code =? 429)%Z && (status_code <? 500)%Z
      && negb (status_code =? 200)%Z
  | _ => false
  end.

(** A run makes at most [n] requests. *)
Definition at_most (n : nat) {A : Type} (m : M JiraAPIClient A) : Prop :=
  forall c, requests c <= requests (snd (m c))
            /\ requests (snd (m c)) <= requests c + n.

(** The reply to the request [n] is a 429 whose [Retry-After] raises
    [e]. *)
Definition refused (srv : server) (n : nat) (e : exn) : Prop :=
  exists h body,
    snd (srv n) = Response 429 h body /\ retry_after_error h = Some e.

(** A run raises only what the [Retry-After] of a 429 it received
    raises. *)
Definition only_retry_after_errors (srv : server) {A : Type}
           (m : M JiraAPIClient A) : Prop :=
  forall c e, fst (m c) = Raise e ->
              exists n, requests c <= n < requests (snd (m c))
                        /\ refused srv n e.

(** A comment [get_issue_comments] can read: a dictionary whose ['author'],
    when present, is a dictionary. *)
Definition readable_comment (comment : pyval) : bool :=
  match comment with
  | PDict d =>
      match Dict.get d "author" with
      | None => true
      | Some author => is_dict author
      end
  | _ => false
  end.

(** *** Sequences of checkpoint updates *)

(** The updates [us], one after the other, as the loop of
    [scrape_project] makes them. *)
Fixpoint run_updates (us : list (string * pyval)) : M CheckpointManager unit :=
  match us with
  | [] => ret tt
  | (project, start_at) :: rest =>
      _ <~ update_project_progress project start_at ;; run_updates rest
  end.

(** The last value the updates [us] give [project], if any. *)
Fixpoint last_write (us : list (string * pyval)) (project : string)
  : option pyval :=
  match us with
  | [] => None
  | (p, v) :: rest =>
      match last_write rest project with
      | Some x => Some x
      | None => if p =? project then Some v else None
      end
  end.

(** *** Raw items, exactly *)

(** What [for c in ...: c.get('name', '')] goes through without raising:
    a list of dictionaries, or an empty dictionary or string. *)
Definition components_ok (v : pyval) : bool :=
  match v with
  | PList cs => forallb is_dict cs
  | PDict d => match d with [] => true | _ => false end
  | PStr s => s =? EmptyString
  | _ => false
  end.

(** The raw items on which [transform_issue] returns, given the number of
    comments: those of [shaped] and the few more the code lets through. *)
Definition transformable (item : list (string * pyval)) (cs : list pyval)
  : bool :=
  match Dict.get item "key" with
  | None => true
  | Some k => is_str k || negb (truthy k)
  end
  &&
  match Dict.get_default item "fields" (PDict []) with
  | PDict f =>
      components_ok (Dict.get_default f "components" (PList []))
      && match safe_get (PDict f) ["issuetype"; "name"] (PStr "Unknown") with
         | PStr t =>
             ((lower t =? "bug") && (2 <? List.length cs)%nat)
             || is_sized (safe_get (PDict f) ["description"]
                                   (PStr "No Description"))
         | _ => false
         end
  | _ => false
  end.

Definition has_no_dash (s : string) : bool :=
  forallb (fun c => negb (Ascii.eqb c "-"%char)) (list_ascii_of_string s).

(** *** JiraScraper: [run], and what every run keeps *)

(** [run]: the projects in turn; an exception that leaves
    [scrape_project] is caught and counted.  While the loop of a project
    is still going after [fuel] pages, the projects after it are not
    started.  [output] holds the lines of all the files, in the order they
    were written. *)
Fixpoint run (jira : api) (projects : list string) (fuel : nat)
  : M JiraScraper outcome :=
  match projects with
  | [] => ret Completed
  | project :: rest =>
      o <~ try_except
             (scrape_project jira project fuel)
             (fun _ => _ <~ add_error ;; ret Completed) ;;
      match o with
      | Completed => run jira rest fuel
      | OutOfFuel => ret OutOfFuel
      end
  end.

(** From [s] to [s'] lines were only added to the output, each counted in
    [total_issues], and no counter went down. *)
Definition counted (s s' : JiraScraper) : Prop :=
  exists added,
    output s' = (output s ++ added)%list
    /\ total_issues s' = total_issues s + List.length added
    /\ errors s <= errors s'
    /\ total_comments s <= total_comments s'.

Definition counting_run {A : Type} (m : M JiraScraper A) : Prop :=
  forall s, counted s (snd (m s)).

(** A run that leaves the checkpoint manager alone. *)
Definition keeps_checkpoint {A : Type} (m : M JiraScraper A) : Prop :=
  forall s, checkpoint_manager (snd (m s)) = checkpoint_manager s.

(** The store is of the documented form and gives [project] the offset
    [z]. *)
Definition at_offset (project : string) (z : Z) (s : JiraScraper) : Prop :=
  well_formed (state (checkpoint_manager s)) = true
  /\ fst (get_project_progress project (checkpoint_manager s)) = Ok (PInt z).

(** From [s] at the offset [z], a step leaves the store in the documented
    form, the other projects as they were, the file untouched or equal to
    the state, and [project] at an offset [z'] not below [z], which is the
    one it goes on with. *)
Definition advances (project : string) (z : Z) (s : JiraScraper)
           (r : res flow) (s' : JiraScraper) : Prop :=
  (forall p, p <> project ->
             fst (get_project_progress p (checkpoint_manager s'))
             = fst (get_project_progress p (checkpoint_manager s)))
  /\ (checkpoint_manager s' = checkpoint_manager s
      \/ checkpoint_file (checkpoint_manager s')
         = Stored (state (checkpoint_manager s')))
  /\ exists z', (z <= z')%Z
                /\ at_offset project z' s'
                /\ forall v, r = Ok (Continue v) -> v = PInt z'.

Definition advancing (project : string) (z : Z) (m : M JiraScraper flow)
  : Prop :=
  forall s, at_offset project z s -> advances project z s (fst (m s)) (snd (m s)).



(** What [get_issue_comments] gives for a key, as the pool records it. *)
Definition fetched (jira : api) (key : pyval) : list pyval :=
  match get_issue_comments jira key with
  | Ok cs => cs
  | Raise _ => []
  end.

(** The number of keys whose fetch raises. *)
Definition failed_fetches (jira : api) (ks : list string) : nat :=
  List.length
    (filter (fun k => negb (returns (get_issue_comments jira (PStr k)))) ks).

(* ===================================================================== *)
(** ** The records as JSON, and the output validator                       *)
(* ===================================================================== *)

(** [issue.to_dict()]: the fields of the record, in their order. *)
Definition to_dict (r : JiraIssue) : pyval :=
  PDict [("issue_id", issue_id r);
         ("project", PStr (project r));
         ("title", title r);
         ("description", description r);
         ("status", status r);
         ("priority", priority r);
         ("issue_type", issue_type r);
         ("reporter", reporter r);
         ("assignee", assignee r);
         ("created_date", created_date r);
         ("updated_date", updated_date r);
         ("resolved_date", resolved_date r);
         ("labels", labels r);
         ("components", PList (components r));
         ("comments", PList (comments r));
         ("training_task", PStr (task_name (task r)))].

Module Validator.

(** A line of a file, as [json.loads(line.strip())] takes it. *)
Inductive line : Type :=
| Parsed (data : pyval)
| Unparseable.                (* [json.loads] raises [JSONDecodeError] *)

(** An entry of [stats['errors']]: the line and what was wrong with it. *)
Inductive error_entry : Type :=
| MissingFields (line_num : nat) (missing : list string)
| InvalidJSON (line_num : nat)
| UnexpectedError (line_num : nat).

(** A [Counter]: keys in the order they were first counted. *)
Definition counter : Type := list (pyval * nat).

Fixpoint incr (c : counter) (key : pyval) : counter :=
  match c with
  | [] => [(key, 1)]
  | (k, n) :: rest =>
      if key_eqb k key then (k, S n) :: rest else (k, n) :: incr rest key
  end.

(** [c[key] += 1] *)
Definition counter_add (c : counter) (key : pyval) : res counter :=
  if hashable key then Ok (incr c key) else Raise TypeError.

Definition counter_total (c : counter) : nat :=
  fold_right (fun kn acc => snd kn + acc) 0 c.

Record stats : Type := mkStats {
  total_lines : nat;
  valid_lines : nat;
  invalid_lines : nat;
  missing_fields : counter;
  training_tasks : counter;
  projects : counter;
  errors : list error_entry
}.

Definition required_fields : list string :=
  ["issue_id"; "project"; "title"; "description"; "status"; "priority";
   "issue_type"; "reporter"; "created_date"; "training_task"].

Definition empty_stats : stats := mkStats 0 0 0 [] [] [] [].

Definition count_line : M stats unit :=
  modify (fun st =>
    mkStats (S (total_lines st)) (valid_lines st) (invalid_lines st)
            (missing_fields st) (training_tasks st) (projects st)
            (errors st)).

Definition count_valid : M stats unit :=
  modify (fun st =>
    mkStats (total_lines st) (S (valid_lines st)) (invalid_lines st)
            (missing_fields st) (training_tasks st) (projects st)
            (errors st)).

(** [stats['invalid_lines'] += 1; stats['errors'].append(...)] *)
Definition count_invalid (e : error_entry) : M stats unit :=
  modify (fun st =>
    mkStats (total_lines st) (valid_lines st) (S (invalid_lines st))
            (missing_fields st) (training_tasks st) (projects st)
            (errors st ++ [e])).

Definition count_missing (field : string) : M stats unit :=
  modify (fun st =>
    mkStats (total_lines st) (valid_lines st) (invalid_lines st)
            (incr (missing_fields st) (PStr field)) (training_tasks st)
            (projects st) (errors st)).

Definition count_task (key : pyval) : M stats unit :=
  fun st =>
    match counter_add (training_tasks st) key with
    | Ok c =>
        (Ok tt,
         mkStats (total_lines st) (valid_lines st) (invalid_lines st)
                 (missing_fields st) c (projects st) (errors st))
    | Raise e => (Raise e, st)
    end.

Definition count_project (key : pyval) : M stats unit :=
  fun st =>
    match counter_add (projects st) key with
    | Ok c =>
        (Ok tt,
         mkStats (total_lines st) (valid_lines st) (invalid_lines st)
                 (missing_fields st) (training_tasks st) c (errors st))
    | Raise e => (Raise e, st)
    end.

(** [for field in stats['required_fields']: if field not in data: ...] *)
Fixpoint check_fields (fields : list string) (data : pyval)
         (missing : list string) : M stats (list string) :=
  match fields with
  | [] => ret missing
  | field :: rest =>
      present <~ lift (py_contains field data) ;;
      if present then check_fields rest data missing
      else
        _ <~ count_missing field ;;
        check_fields rest data (missing ++ [field])
  end.

(** The body of the [try] once the line is parsed. *)
Definition check_data (line_num : nat) (data : pyval) : M stats unit :=
  missing <~ check_fields required_fields data [] ;;
  match missing with
  | _ :: _ => count_invalid (MissingFields line_num missing)
  | [] =>
      _ <~ count_valid ;;
      task <~ lift (py_get data "training_task" (PStr "unknown")) ;;
      _ <~ count_task task ;;
      project <~ lift (py_get data "project" (PStr "unknown")) ;;
      count_project project
  end.

Definition check_line (line_num : nat) (l : line) : M stats unit :=
  _ <~ count_line ;;
  match l with
  | Unparseable => count_invalid (InvalidJSON line_num)
  | Parsed data =>
      try_except (check_data line_num data)
                 (fun _ => count_invalid (UnexpectedError line_num))
  end.

(** [for line_num, line in enumerate(f, 1)] *)
Fixpoint check_lines (line_num : nat) (lines : list line) : M stats unit :=
  match lines with
  | [] => ret tt
  | l :: rest =>
      _ <~ check_line line_num l ;; check_lines (S line_num) rest
  end.

(** [validate_jsonl_file]: [None] is a path that does not exist. *)
Definition validate_jsonl_file (file : option (list line)) : stats :=
  match file with
  | None => empty_stats
  | Some lines => snd (check_lines 1 lines empty_stats)
  end.

Record totals : Type := mkTotals {
  total_issues : nat;
  total_valid : nat;
  total_invalid : nat
}.

(** The loop of [validate_all_outputs] over the files found. *)
Fixpoint validate_files (files : list (list line)) (all_valid : bool)
         (t : totals) : bool * totals :=
  match files with
  | [] => (all_valid, t)
  | file :: rest =>
      let st := validate_jsonl_file (Some file) in
      validate_files rest
        (if (0 <? invalid_lines st)%nat then false else all_valid)
        (mkTotals (total_issues t + total_lines st)
                  (total_valid t + valid_lines st)
                  (total_invalid t + invalid_lines st))
  end.

(** [validate_all_outputs]: [None] is an output directory that does not
    exist; otherwise the [*.jsonl] files found in it. *)
Definition validate_all_outputs (dir : option (list (list line))) : bool :=
  match dir with
  | None => false
  | Some [] => false
  | Some files => fst (validate_files files true (mkTotals 0 0 0))
  end.

(** The facts on which [print_statistics] relies, and the accounts of the
    lines. *)
Definition accounted (st : stats) : Prop :=
  valid_lines st <= total_lines st
  /\ invalid_lines st <= total_lines st
  /\ total_lines st <= valid_lines st + invalid_lines st
  /\ List.length (errors st) = invalid_lines st
  /\ counter_total (training_tasks st) <= valid_lines st
  /\ counter_total (projects st) <= counter_total (training_tasks st).

(** A line that is unparseable, or an object whose task and project can
    be counted. *)
Definition is_object_line (l : line) : bool :=
  match l with
  | Unparseable => true
  | Parsed (PDict d) =>
      hashable (Dict.get_default d "training_task" (PStr "unknown"))
      && hashable (Dict.get_default d "project" (PStr "unknown"))
  | Parsed _ => false
  end.

End Validator.

(* ===================================================================== *)
(** ** config.py                                                           *)
(* ===================================================================== *)

Module Config.

(** The settings [validate_config] reads. *)
Record settings : Type := mkSettings {
  PROJECTS : list string;
  RATE_LIMIT_DELAY : Q;
  MAX_RETRIES : Z;
  REQUEST_TIMEOUT : Z
}.

(** The settings of the file. *)
Definition shipped : settings :=
  mkSettings ["KAFKA"; "BEAM"; "HARMONY"] 1 5 30.

(** The list [errors] that [validate_config] builds. *)
Definition config_errors (c : settings) : list string :=
  ((match PROJECTS c with
    | [] => ["PROJECTS cannot be empty"]
    | _ => []
    end)
   ++ (if Qltb (RATE_LIMIT_DELAY c) 0
       then ["RATE_LIMIT_DELAY must be positive"] else [])
   ++ (if (MAX_RETRIES c <? 1)%Z
       then ["MAX_RETRIES must be at least 1"] else [])
   ++ (if (REQUEST_TIMEOUT c <? 1)%Z
       then ["REQUEST_TIMEOUT must be at least 1"] else []))%list.

(** [validate_config()]: [True], or a [ValueError] for the errors found. *)
Definition validate_config (c : settings) : res bool :=
  match config_errors c with
  | [] => Ok true
  | _ :: _ => Raise ValueError
  end.

(** The number of settings out of range. *)
Definition broken (c : settings) : nat :=
  (match PROJECTS c with [] => 1 | _ => 0 end)
  + (if Qltb (RATE_LIMIT_DELAY c) 0 then 1 else 0)
  + (if (MAX_RETRIES c <? 1)%Z then 1 else 0)
  + (if (REQUEST_TIMEOUT c <? 1)%Z then 1 else 0).

End Config.

(** The records written for a page: those of its items whose processing
    does not raise, with the comments the pool found. *)
Definition page_records (jira : api) (items : list pyval) : list JiraIssue :=
  records_of (comments_for jira (map key_of items) []) items.

(* ===================================================================== *)
(** * Properties                                                           *)
(* ===================================================================== *)

(** ** Dictionaries *)

Lemma dict_get_set_eq d k v : Dict.get (Dict.set d k v) k = Some v.
Proof.
  induction d as [|[k' v'] rest IH]; simpl.
  - now rewrite String.eqb_refl.
  - destruct (k' =? k) eqn:E; simpl; rewrite E; auto.
Qed.

Lemma dict_get_set_ne d k k' v :
  k <> k' -> Dict.get (Dict.set d k v) k' = Dict.get d k'.
Proof.
  intros Hne. induction d as [|[k0 v0] rest IH]; simpl.
  - destruct (k =? k') eqn:E; auto.
    apply String.eqb_eq in E. contradiction.
  - destruct (k0 =? k) eqn:E; simpl.
    + apply String.eqb_eq in E. subst k0.
      destruct (k =? k') eqn:E'; auto.
      apply String.eqb_eq in E'. contradiction.
    + destruct (k0 =? k'); auto.
Qed.

(** ** Letters *)

Lemma all_chars_complete (c : ascii) : In c all_chars.
Proof.
  unfold all_chars. rewrite <- (ascii_nat_embedding c).
  apply in_map, in_seq. pose proof (nat_ascii_bounded c). lia.
Qed.

Lemma lower_char_plain (c w : ascii) :
  (is_lower_letter w || Ascii.eqb w " "%char) = true ->
  Ascii.eqb (lower_char c) w = Ascii.eqb c w || Ascii.eqb c (capital_of w).
Proof.
  intros Hw.
  assert (Hall : forallb (fun c' =>
            forallb (fun w' =>
              implb (is_lower_letter w' || Ascii.eqb w' " "%char)
                    (Bool.eqb (Ascii.eqb (lower_char c') w')
                              (Ascii.eqb c' w'
                               || Ascii.eqb c' (capital_of w'))))
              all_chars) all_chars = true) by (vm_compute; reflexivity).
  rewrite forallb_forall in Hall.
  specialize (Hall c (all_chars_complete c)).
  rewrite forallb_forall in Hall.
  specialize (Hall w (all_chars_complete w)).
  rewrite Hw in Hall. simpl in Hall.
  now apply Bool.eqb_prop in Hall.
Qed.

Lemma lower_is_word (word s : string) :
  plain_word word = true ->
  (lower s =? word) = same_word_ignoring_case word s.
Proof.
  revert s. induction word as [|w word IH]; intros s Hp.
  - destruct s; reflexivity.
  - simpl in Hp. apply andb_true_iff in Hp as [Hw Hp].
    destruct s as [|c s]; [reflexivity|].
    simpl. rewrite <- (IH s Hp), <- (lower_char_plain c w Hw).
    reflexivity.
Qed.

Lemma clear_type_ignoring_case (t : string) :
  existsb (String.eqb (lower t)) clear_types
  = existsb (fun w => same_word_ignoring_case w t) clear_types.
Proof.
  unfold clear_types. simpl.
  rewrite !lower_is_word by reflexivity. reflexivity.
Qed.

(** ** DataTransformer *)

Lemma determine_training_task_cases (t d : string) (cs : list pyval) :
  _determine_training_task (PStr t) (PStr d) cs
  = Ok (if same_word_ignoring_case "bug" t && (2 <? List.length cs)%nat
        then question_answering
        else if (500 <? String.length d)%nat then summarization
        else if existsb (fun w => same_word_ignoring_case w t) clear_types
        then classification
        else general).
Proof.
  unfold _determine_training_task. cbn [py_lower py_len bind].
  rewrite (lower_is_word "bug" t eq_refl).
  destruct (same_word_ignoring_case "bug" t && (2 <? List.length cs)%nat);
    [reflexivity|].
  destruct (500 <? String.length d)%nat; [reflexivity|].
  rewrite clear_type_ignoring_case.
  destruct (existsb _ clear_types); reflexivity.
Qed.

Ltac settle_rules :=
  repeat match goal with |- _ /\ _ => split end;
  try (intros; reflexivity);
  (split; [ let Heq := fresh "Heq" in
            intro Heq; try discriminate Heq; tauto
          | intro; try reflexivity; tauto ]).

(** C3. For an issue type [t], a description [d] and comments [cs], all
    well typed, [_determine_training_task] applies its four rules in order
    and the first that matches wins: 'question_answering' exactly when [t]
    is "bug" up to case and there are more than 2 comments; otherwise
    'summarization' exactly when [d] is longer than 500; otherwise
    'classification' exactly when [t] is, up to case, one of bug,
    improvement, new feature, task; otherwise 'general'.  So "Bug" with 3
    comments is 'question_answering' whatever the description. *)
Theorem training_task_priority (t d : string) (cs : list pyval) :
  let r := _determine_training_task (PStr t) (PStr d) cs in
  let qa := same_word_ignoring_case "bug" t = true /\ 2 < List.length cs in
  let long := 500 < String.length d in
  let clear :=
    exists w, In w ["bug"; "improvement"; "new feature"; "task"]
              /\ same_word_ignoring_case w t = true in
  (r = Ok question_answering <-> qa)
  /\ (r = Ok summarization <-> ~ qa /\ long)
  /\ (r = Ok classification <-> ~ qa /\ ~ long /\ clear)
  /\ (r = Ok general <-> ~ qa /\ ~ long /\ ~ clear)
  /\ (forall d' c1 c2 c3,
         _determine_training_task (PStr "Bug") (PStr d') [c1; c2; c3]
         = Ok question_answering).
Proof.
  intros r qa long clear.
  assert (Hqa : same_word_ignoring_case "bug" t && (2 <? List.length cs)%nat
                = true <-> qa).
  { unfold qa. rewrite andb_true_iff, Nat.ltb_lt. tauto. }
  assert (Hlong : (500 <? String.length d)%nat = true <-> long).
  { unfold long. apply Nat.ltb_lt. }
  assert (Hclear : existsb (fun w => same_word_ignoring_case w t) clear_types
                   = true <-> clear).
  { unfold clear. rewrite existsb_exists. reflexivity. }
  subst r. rewrite determine_training_task_cases.
  destruct (same_word_ignoring_case "bug" t && (2 <? List.length cs)%nat).
  { assert (qa) by (apply Hqa; reflexivity). settle_rules. }
  assert (~ qa) by (intros Hq; apply Hqa in Hq; discriminate).
  destruct (500 <? String.length d)%nat.
  { assert (long) by (apply Hlong; reflexivity). settle_rules. }
  assert (~ long) by (intros Hl; apply Hlong in Hl; discriminate).
  destruct (existsb (fun w => same_word_ignoring_case w t) clear_types).
  { assert (clear) by (apply Hclear; reflexivity). settle_rules. }
  assert (~ clear) by (intros Hc; apply Hclear in Hc; discriminate).
  settle_rules.
Qed.

Example training_task_documentation :
  _determine_training_task (PStr "Documentation") (PStr "0123456789") []
  = Ok general.
Proof. reflexivity. Qed.

Example training_task_new_feature :
  _determine_training_task (PStr "New Feature") (PStr "0123456789") []
  = Ok classification.
Proof. reflexivity. Qed.

Lemma safe_get_empty (keys : list string) (default : pyval) :
  safe_get (PDict []) keys default = default.
Proof. induction keys as [|k rest IH]; simpl; auto. Qed.

Lemma safe_get_missing (keys : list string) (data default : pyval) :
  lookup_path data keys = None -> safe_get data keys default = default.
Proof.
  revert data. induction keys as [|k rest IH]; intros data H; simpl in *.
  - discriminate.
  - destruct data; auto.
    unfold Dict.get_default. destruct (Dict.get d k); auto.
    apply safe_get_empty.
Qed.

Lemma get_default_missing d (k : string) (default : pyval) :
  lookup_path (PDict d) [k] = None -> Dict.get_default d k default = default.
Proof.
  simpl. unfold Dict.get_default. destruct (Dict.get d k); [discriminate|auto].
Qed.

Lemma component_names_return (cs : list pyval) :
  forallb is_dict cs = true ->
  exists names,
    mapM (fun c => py_get c "name" (PStr EmptyString)) cs = Ok names.
Proof.
  induction cs as [|c cs IH]; simpl; intros H.
  - eauto.
  - apply andb_true_iff in H as [Hc H].
    destruct (IH H) as [names Hn]. rewrite Hn.
    destruct c; try discriminate. simpl. eauto.
Qed.

Lemma determine_training_task_returns (ty de : pyval) (cs : list pyval) :
  is_str ty = true -> is_sized de = true ->
  exists k, _determine_training_task ty de cs = Ok k.
Proof.
  intros Hty Hde. destruct ty; try discriminate.
  unfold _determine_training_task. cbn [py_lower bind].
  destruct ((lower s =? "bug") && (2 <? List.length cs)%nat); [eauto|].
  destruct de; try discriminate; cbn [py_len bind];
    match goal with |- context [(500 <? ?n)%nat] =>
      destruct (500 <? n)%nat end; eauto;
    destruct (existsb (String.eqb (lower s)) clear_types); eauto.
Qed.

Lemma project_of_returns (item : list (string * pyval)) :
  match Dict.get item "key" with
  | None => true
  | Some k => is_str k || negb (truthy k)
  end = true ->
  exists p, project_of (Dict.get_default item "key" (PStr EmptyString)) = Ok p
            /\ (Dict.get item "key" = None -> p = EmptyString).
Proof.
  unfold Dict.get_default. destruct (Dict.get item "key") as [k|]; intros H.
  - unfold project_of. destruct (truthy k) eqn:Et.
    + destruct k; try discriminate. eexists; split; [reflexivity|discriminate].
    + eexists; split; [reflexivity|discriminate].
  - exists EmptyString. split; reflexivity.
Qed.

(** C8, as the code has it.  For a raw item that is a dictionary with
    nothing of the wrong type where [transform_issue] calls a method
    ([shaped]), [transform_issue] returns a record and raises nothing, and
    every field whose key is absent has its default: 'No Title',
    'No Description', 'Unknown', the empty string for the identifier, the
    project and the dates, the empty list for labels and components, [None]
    for the assignee and the resolution date.  The item with no key at all
    gives the record made of defaults only. *)
Theorem transform_issue_defaults
        (item : list (string * pyval)) (cs : list pyval)
        (Hshape : shaped item = true) :
  exists r,
    transform_issue (PDict item) cs = Ok r
    /\ comments r = cs
    /\ (let fields := Dict.get_default item "fields" (PDict []) in
        (Dict.get item "key" = None ->
         issue_id r = PStr EmptyString /\ project r = EmptyString)
        /\ (lookup_path fields ["summary"] = None ->
            title r = PStr "No Title")
        /\ (lookup_path fields ["description"] = None ->
            description r = PStr "No Description")
        /\ (lookup_path fields ["status"; "name"] = None ->
            status r = PStr "Unknown")
        /\ (lookup_path fields ["priority"; "name"] = None ->
            priority r = PStr "Unknown")
        /\ (lookup_path fields ["issuetype"; "name"] = None ->
            issue_type r = PStr "Unknown")
        /\ (lookup_path fields ["reporter"; "displayName"] = None ->
            reporter r = PStr "Unknown")
        /\ (lookup_path fields ["assignee"; "displayName"] = None ->
            assignee r = PNone)
        /\ (lookup_path fields ["created"] = None ->
            created_date r = PStr EmptyString)
        /\ (lookup_path fields ["updated"] = None ->
            updated_date r = PStr EmptyString)
        /\ (lookup_path fields ["resolutiondate"] = None ->
            resolved_date r = PNone)
        /\ (lookup_path fields ["labels"] = None -> labels r = PList [])
        /\ (lookup_path fields ["components"] = None -> components r = []))
    /\ transform_issue (PDict []) cs = Ok (all_defaults cs).
Proof.
  unfold shaped in Hshape. apply andb_true_iff in Hshape as [Hkey Hf].
  destruct (project_of_returns item Hkey) as [p [Hp Hp0]].
  destruct (Dict.get_default item "fields" (PDict [])) as [| | | | |f] eqn:Ef;
    try discriminate.
  apply andb_true_iff in Hf as [Hf Hde]. apply andb_true_iff in Hf as [Hco Hty].
  destruct (determine_training_task_returns _ _ cs Hty Hde) as [k Hk].
  assert (Hnames : exists names,
             (items <- py_iter (Dict.get_default f "components" (PList [])) ;;
              mapM (fun c => py_get c "name" (PStr EmptyString)) items)
             = Ok names
             /\ (Dict.get f "components" = None -> names = [])).
  { unfold Dict.get_default.
    destruct (Dict.get f "components") as [c|].
    - destruct c; try discriminate.
      destruct (component_names_return l Hco) as [names Hn].
      exists names. split; [exact Hn | discriminate].
    - exists []. split; reflexivity. }
  destruct Hnames as [names [Hn Hn0]].
  unfold transform_issue. cbn [py_get bind]. rewrite Ef, Hp.
  cbn [py_get bind].
  destruct (py_iter (Dict.get_default f "components" (PList [])))
    as [items|e] eqn:Ei; [|discriminate].
  cbn [bind] in Hn |- *. rewrite Hn. cbn [bind]. rewrite Hk. cbn [bind].
  eexists. split; [reflexivity|]. split; [reflexivity|]. split.
  - cbn [issue_id project title description status priority issue_type
         reporter assignee created_date updated_date resolved_date labels
         components].
    repeat match goal with |- _ /\ _ => split end;
      try (intros H; apply safe_get_missing; exact H);
      try (intros H; apply get_default_missing; exact H).
    + intros H. unfold Dict.get_default. rewrite H. split; auto.
    + intros H. apply Hn0. simpl in H.
      destruct (Dict.get f "components"); [discriminate | reflexivity].
  - reflexivity.
Qed.

Lemma transform_issue_defaults_witness :
  shaped [("key", PStr "KAFKA-1"); ("fields", PDict [])] = true
  /\ exists r,
       transform_issue (PDict [("key", PStr "KAFKA-1"); ("fields", PDict [])])
                       [] = Ok r
       /\ title r = PStr "No Title".
Proof.
  split; [reflexivity|].
  destruct (transform_issue_defaults
              [("key", PStr "KAFKA-1"); ("fields", PDict [])] [] eq_refl)
    as [r [Hr [_ [Hd _]]]].
  exists r. split; [exact Hr|].
  apply Hd. reflexivity.
Defined.

(** C8, as the specification has it, fails: an item whose ['fields'] is
    [null] makes [fields.get('created', '')] raise [AttributeError], which
    leaves [transform_issue]. *)
Lemma transform_issue_raises_on_null_fields :
  transform_issue (PDict [("key", PStr "KAFKA-1"); ("fields", PNone)]) []
  = Raise AttributeError.
Proof. reflexivity. Qed.

Example transform_issue_raises_on_numeric_key :
  transform_issue (PDict [("key", PInt 7); ("fields", PDict [])]) []
  = Raise AttributeError.
Proof. reflexivity. Qed.

Example transform_issue_null_labels_kept :
  exists r,
    transform_issue (PDict [("fields", PDict [("labels", PNone)])]) [] = Ok r
    /\ labels r = PNone.
Proof. eexists. split; reflexivity. Qed.

(** ** CheckpointManager *)

Lemma well_formed_inv (st : pyval) :
  well_formed st = true ->
  exists d ps, st = PDict d /\ Dict.get d "projects" = Some (PDict ps).
Proof.
  unfold well_formed. destruct st; try (intro; discriminate).
  destruct (Dict.get d "projects") as [p|] eqn:E; try (intro; discriminate).
  destruct p; try (intro; discriminate). eauto.
Qed.

Lemma progress_pure (m : CheckpointManager) (p : string) :
  snd (get_project_progress p m) = m.
Proof.
  unfold get_project_progress, bindM, gets, lift. simpl.
  destruct (py_getitem (state m) "projects"); reflexivity.
Qed.

Lemma progress_well_formed (m : CheckpointManager) (p : string) d ps :
  state m = PDict d -> Dict.get d "projects" = Some (PDict ps) ->
  get_project_progress p m = (Ok (Dict.get_default ps p (PInt 0)), m).
Proof.
  intros Hst Hps.
  unfold get_project_progress, bindM, gets, lift, py_getitem.
  rewrite Hst, Hps. reflexivity.
Qed.

Lemma update_well_formed (m : CheckpointManager) (s : string) (v : pyval)
      d ps :
  state m = PDict d -> Dict.get d "projects" = Some (PDict ps) ->
  let st' := PDict (Dict.set d "projects" (PDict (Dict.set ps s v))) in
  update_project_progress s v m
  = (Ok tt, mkCheckpointManager st' (Stored st')).
Proof.
  intros Hst Hps.
  unfold update_project_progress, save_checkpoint, bindM, gets, lift, modify,
    py_getitem, py_setitem.
  rewrite Hst, Hps. reflexivity.
Qed.

Lemma update_ill_formed (m : CheckpointManager) (s : string) (v : pyval) :
  well_formed (state m) = false ->
  exists e, update_project_progress s v m = (Raise e, m).
Proof.
  intros Hwf.
  unfold update_project_progress, save_checkpoint, bindM, gets, lift, modify,
    py_getitem, py_setitem.
  unfold well_formed in Hwf.
  destruct (state m) as [| | | | |d]; try (eexists; reflexivity).
  destruct (Dict.get d "projects") as [p|]; try (eexists; reflexivity).
  destruct p; try discriminate Hwf; eexists; reflexivity.
Qed.

Lemma usable_store_well_formed (f : file) (m : CheckpointManager) :
  usable f = true -> new_CheckpointManager f = Ok m ->
  well_formed (state m) = true.
Proof.
  destruct f as [|v| |]; cbn; intros Hf Hm; try discriminate;
    injection Hm as <-; auto.
Qed.

(** C6, as the code has it.  Round trip of the checkpoint: on a store
    whose state has the documented form [{'projects': {...}}],
    [update_project_progress s n] returns, and a fresh store that loads the
    file it wrote answers [n] to [get_project_progress s].  It holds for
    every integer [n], so for the non-negative ones. *)
Theorem checkpoint_round_trip
        (m : CheckpointManager) (s : string) (n : Z)
        (Hwf : well_formed (state m) = true) :
  exists m',
    update_project_progress s (PInt n) m = (Ok tt, m')
    /\ exists fresh,
         new_CheckpointManager (checkpoint_file m') = Ok fresh
         /\ get_project_progress s fresh = (Ok (PInt n), fresh).
Proof.
  destruct (well_formed_inv _ Hwf) as [d [ps [Hst Hps]]].
  eexists. split; [apply (update_well_formed m s (PInt n) d ps Hst Hps)|].
  eexists. split; [reflexivity|].
  erewrite progress_well_formed;
    [| reflexivity | apply dict_get_set_eq ].
  unfold Dict.get_default. rewrite dict_get_set_eq. reflexivity.
Qed.

Lemma checkpoint_round_trip_witness :
  well_formed empty_checkpoint = true
  /\ exists m',
       update_project_progress "KAFKA" (PInt 100)
         (mkCheckpointManager empty_checkpoint Missing) = (Ok tt, m')
       /\ exists fresh,
            new_CheckpointManager (checkpoint_file m') = Ok fresh
            /\ get_project_progress "KAFKA" fresh = (Ok (PInt 100), fresh).
Proof.
  split; [reflexivity|].
  apply (checkpoint_round_trip
           (mkCheckpointManager empty_checkpoint Missing) "KAFKA" 100).
  reflexivity.
Defined.

(** C6, as the specification has it, fails: a store built from a
    checkpoint file that holds the JSON object [{}] has no ['projects'];
    [update_project_progress] on it raises [KeyError] and leaves the file
    as it is, and a fresh store that loads the file does not answer the
    offset: its [get_project_progress] raises [KeyError] as well. *)
Lemma round_trip_fails_on_loaded_empty_object :
  exists m,
    new_CheckpointManager (Stored (PDict [])) = Ok m
    /\ update_project_progress "KAFKA" (PInt 5) m = (Raise KeyError, m)
    /\ checkpoint_file m = Stored (PDict [])
    /\ exists fresh,
         new_CheckpointManager (checkpoint_file m) = Ok fresh
         /\ fst (get_project_progress "KAFKA" fresh) = Raise KeyError.
Proof.
  eexists. split; [reflexivity|]. split; [reflexivity|].
  split; [reflexivity|]. eexists. split; reflexivity.
Qed.

(** C7, as the code has it.  When the checkpoint file is missing, is
    unparseable, or holds a state of the documented form, loading returns a
    state and raises nothing: the empty state [{'projects': {}}] for a
    missing file and, with a warning in the log, for an unparseable one.
    Every [get_project_progress] on the store so built returns what the file
    holds for the project, or 0, and fails on none. *)
Theorem load_checkpoint_usable (f : file) (Hf : usable f = true) :
  exists m,
    new_CheckpointManager f = Ok m
    /\ fst (_load_checkpoint f) = Ok (state m)
    /\ (f = Missing -> state m = empty_checkpoint)
    /\ (f = Corrupted ->
        state m = empty_checkpoint
        /\ In (LogWarning "Corrupted checkpoint, starting fresh")
              (snd (_load_checkpoint f)))
    /\ forall project,
         get_project_progress project m
         = (Ok (match persisted f project with
                | Some offset => offset
                | None => PInt 0
                end), m).
Proof.
  destruct f as [|v| |]; try discriminate.
  - eexists. repeat split; try discriminate.
  - simpl in Hf. destruct (well_formed_inv v Hf) as [d [ps [Hv Hps]]].
    subst v. exists (mkCheckpointManager (PDict d) (Stored (PDict d))).
    split; [reflexivity|].
    repeat split; try discriminate.
    intros project.
    rewrite (progress_well_formed
               (mkCheckpointManager (PDict d) (Stored (PDict d)))
               project d ps eq_refl Hps).
    simpl. rewrite Hps. reflexivity.
  - eexists. repeat split; try discriminate.
    simpl. auto.
Qed.

Lemma load_checkpoint_usable_witness :
  usable Corrupted = true
  /\ exists m,
       new_CheckpointManager Corrupted = Ok m
       /\ state m = empty_checkpoint
       /\ get_project_progress "KAFKA" m = (Ok (PInt 0), m).
Proof.
  split; [reflexivity|].
  destruct (load_checkpoint_usable Corrupted eq_refl)
    as [m [Hm [_ [_ [Hc Hp]]]]].
  exists m. split; [exact Hm|]. split; [apply Hc; reflexivity|].
  apply (Hp "KAFKA").
Defined.

(** C7, as the specification has it, fails: a checkpoint file that holds
    the JSON object [{}] is loaded as it is, and the first
    [get_project_progress] on it raises [KeyError]. *)
Lemma progress_fails_on_loaded_empty_object :
  exists m,
    new_CheckpointManager (Stored (PDict [])) = Ok m
    /\ state m = PDict []
    /\ fst (get_project_progress "KAFKA" m) = Raise KeyError.
Proof. eexists. repeat split. Qed.

Example load_returns_a_list :
  fst (_load_checkpoint (Stored (PList []))) = Ok (PList []).
Proof. reflexivity. Qed.

Example load_raises_on_undecodable :
  new_CheckpointManager Undecodable = Raise UnicodeDecodeError.
Proof. reflexivity. Qed.

(** C10. Frame of the checkpoint update.  [update_project_progress s v]
    leaves the answer of [get_project_progress] for every other project [s']
    as it was; when it returns, the file is the new state, and a fresh store
    that loads it gives [s'] the same answer; when it raises, the store is
    untouched; and where the file agreed with the state before, what it
    holds for [s'] is unchanged.  [get_project_progress] leaves the store as
    it is. *)
Theorem update_project_progress_frame
        (m : CheckpointManager) (s s' : string) (v : pyval)
        (Hother : s' <> s) :
  let r := fst (update_project_progress s v m) in
  let m' := snd (update_project_progress s v m) in
  fst (get_project_progress s' m') = fst (get_project_progress s' m)
  /\ (r = Ok tt ->
      checkpoint_file m' = Stored (state m')
      /\ exists fresh,
           new_CheckpointManager (checkpoint_file m') = Ok fresh
           /\ fst (get_project_progress s' fresh)
              = fst (get_project_progress s' m))
  /\ (forall e, r = Raise e -> m' = m)
  /\ (checkpoint_file m = Stored (state m) ->
      persisted (checkpoint_file m') s' = persisted (checkpoint_file m) s')
  /\ (forall p, snd (get_project_progress p m) = m)
  /\ (forall p, snd (get_project_progress p m') = m').
Proof.
  intros r m'. subst r m'.
  destruct (well_formed (state m)) eqn:Hwf.
  - destruct (well_formed_inv _ Hwf) as [d [ps [Hst Hps]]].
    rewrite (update_well_formed m s v d ps Hst Hps). cbn [fst snd].
    assert (Hnew : Dict.get (Dict.set d "projects" (PDict (Dict.set ps s v)))
                            "projects" = Some (PDict (Dict.set ps s v)))
      by apply dict_get_set_eq.
    assert (Hs' : Dict.get (Dict.set ps s v) s' = Dict.get ps s')
      by (apply dict_get_set_ne; congruence).
    assert (Hsame :
              fst (get_project_progress s'
                     (mkCheckpointManager
                        (PDict (Dict.set d "projects"
                                         (PDict (Dict.set ps s v))))
                        (Stored (PDict (Dict.set d "projects"
                                         (PDict (Dict.set ps s v)))))))
              = fst (get_project_progress s' m)).
    { erewrite progress_well_formed; [| reflexivity | exact Hnew].
      rewrite (progress_well_formed m s' d ps Hst Hps).
      cbn [fst]. unfold Dict.get_default. rewrite Hs'. reflexivity. }
    split; [exact Hsame|].
    split.
    { intros _. split; [reflexivity|].
      eexists. split; [reflexivity|]. exact Hsame. }
    split; [discriminate|].
    split.
    { intros Hfile. rewrite Hfile, Hst. cbn [checkpoint_file persisted].
      rewrite Hnew, Hps. exact Hs'. }
    split; intros p; apply progress_pure.
  - destruct (update_ill_formed m s v Hwf) as [e He].
    rewrite He. cbn [fst snd].
    split; [reflexivity|].
    split; [discriminate|].
    split; [reflexivity|].
    split; [reflexivity|].
    split; intros p; apply progress_pure.
Qed.

Lemma update_project_progress_frame_witness :
  "SPARK" <> "KAFKA"
  /\ fst (get_project_progress "SPARK"
            (snd (update_project_progress "KAFKA" (PInt 100)
                    (mkCheckpointManager
                       (PDict [("projects", PDict [("SPARK", PInt 200)])])
                       Missing))))
     = Ok (PInt 200).
Proof.
  assert (Hne : "SPARK" <> "KAFKA") by discriminate.
  split; [exact Hne|].
  destruct (update_project_progress_frame
              (mkCheckpointManager
                 (PDict [("projects", PDict [("SPARK", PInt 200)])]) Missing)
              "KAFKA" "SPARK" (PInt 100) Hne) as [H _].
  rewrite H. reflexivity.
Defined.

(** ** JiraAPIClient *)

Lemma backoff_nonneg (attempt : nat) : Qltb (backoff attempt) 0 = false.
Proof.
  unfold Qltb, backoff. apply negb_false_iff. apply Qle_bool_iff.
  unfold Qle. simpl. pose proof (Z.pow_nonneg 2 (Z.of_nat attempt)). lia.
Qed.

Lemma inject_Z_nonneg (z : Z) : (0 <= z)%Z -> Qltb (inject_Z z) 0 = false.
Proof.
  intros H. unfold Qltb. apply negb_false_iff. apply Qle_bool_iff.
  unfold Qle. simpl. lia.
Qed.

Lemma time_sleep_eq (why : sleep_reason) (d : Q) (c : JiraAPIClient) :
  Qltb d 0 = false -> time_sleep why d c = (Ok tt, after_sleep why d c).
Proof. intros H. unfold time_sleep. rewrite H. reflexivity. Qed.

Lemma sleep_retry_after_eq (d : Z) (c : JiraAPIClient) :
  (0 <= d <= sleep_limit)%Z ->
  sleep_retry_after d c = (Ok tt, after_sleep ForRetryAfter (inject_Z d) c).
Proof.
  intros H. unfold sleep_retry_after.
  replace (sleep_limit <? Z.abs d)%Z with false
    by (symmetry; apply Z.ltb_ge; lia).
  apply time_sleep_eq. apply inject_Z_nonneg. lia.
Qed.

Lemma session_get_eq (srv : server) (c : JiraAPIClient) latency r :
  srv (requests c) = (latency, r) ->
  session_get srv c = (Ok r, after_get latency c).
Proof. intros H. unfold session_get. rewrite H. reflexivity. Qed.

Lemma rate_limit_eq (c : JiraAPIClient) :
  _rate_limit c
  = (Ok tt,
     mkJiraAPIClient (rate_limit_delay c) (released c) (released c)
                     (requests c) (trace c ++ rate_limit_events c)).
Proof.
  unfold _rate_limit, bindM, log_event, gets, modify, released,
    rate_limit_events.
  cbn [rate_limit_delay last_request_time now requests trace].
  destruct (Qltb (now c - last_request_time c) (rate_limit_delay c)) eqn:E.
  - rewrite time_sleep_eq.
    + unfold after_sleep. cbn. rewrite <- app_assoc. reflexivity.
    + unfold Qltb in *. apply negb_false_iff. apply Qle_bool_iff.
      apply negb_true_iff in E.
      destruct (Qlt_le_dec (now c - last_request_time c) (rate_limit_delay c))
        as [Hlt|Hle].
      * cbn. apply Qlt_le_weak.
        rewrite <- (Qplus_opp_r (now c - last_request_time c)).
        apply Qplus_lt_l. exact Hlt.
      * apply Qle_bool_iff in Hle. cbn in Hle. congruence.
  - unfold ret. reflexivity.
Qed.

Lemma retry_step_server_error
      (srv : server) (max_retries : Z) (remaining attempt : nat)
      (c : JiraAPIClient) :
  is_server_error (snd (srv (requests c))) = true ->
  retry_loop srv max_retries (S remaining) attempt c
  = retry_loop srv max_retries remaining (S attempt)
      (after_sleep ForBackoff (backoff attempt)
                   (after_get (fst (srv (requests c))) c)).
Proof.
  intros H. destruct (srv (requests c)) as [latency r] eqn:Es.
  cbn [fst snd] in *. destruct r as [st h b| |]; try discriminate.
  cbn [is_server_error] in H. apply Z.leb_le in H.
  cbn [retry_loop]. unfold bindM at 1.
  rewrite (session_get_eq srv c latency _ Es).
  replace (st =? 429)%Z with false by (symmetry; apply Z.eqb_neq; lia).
  replace (st >=? 500)%Z with true by (symmetry; apply Z.geb_le; lia).
  unfold bindM at 1. rewrite time_sleep_eq by apply backoff_nonneg.
  reflexivity.
Qed.

Lemma retry_step_rate_limited
      (srv : server) (max_retries : Z) (remaining attempt : nat)
      (c : JiraAPIClient) :
  is_rate_limited (snd (srv (requests c))) = true ->
  retry_loop srv max_retries (S remaining) attempt c
  = retry_loop srv max_retries remaining (S attempt)
      (after_sleep ForRetryAfter (retry_after_of (snd (srv (requests c))))
                   (after_get (fst (srv (requests c))) c)).
Proof.
  intros H. destruct (srv (requests c)) as [latency r] eqn:Es.
  cbn [fst snd] in *. destruct r as [st h b| |]; try discriminate.
  cbn [is_rate_limited] in H. apply andb_true_iff in H as [Hst Hh].
  cbn [retry_loop]. unfold bindM at 1.
  rewrite (session_get_eq srv c latency _ Es). rewrite Hst.
  destruct h as [|z|]; try discriminate;
    cbn [int_retry_after retry_after_of] in *;
    unfold bindM at 1; unfold lift; unfold bindM at 1;
    rewrite sleep_retry_after_eq; try reflexivity.
  - unfold sleep_limit. lia.
  - apply andb_true_iff in Hh as [H0 H1].
    apply Z.leb_le in H0. apply Z.leb_le in H1. lia.
Qed.

Lemma retry_step_success
      (srv : server) (max_retries : Z) (remaining attempt : nat)
      (c : JiraAPIClient) h body :
  snd (srv (requests c)) = Response 200 h body ->
  retry_loop srv max_retries (S remaining) attempt c
  = (Ok body, after_get (fst (srv (requests c))) c).
Proof.
  intros H. destruct (srv (requests c)) as [latency r] eqn:Es.
  cbn [fst snd] in *. subst r.
  cbn [retry_loop]. unfold bindM at 1.
  rewrite (session_get_eq srv c latency _ Es). reflexivity.
Qed.

Lemma backoff_delays_app (t u : list event) :
  backoff_delays (t ++ u) = (backoff_delays t ++ backoff_delays u)%list.
Proof. apply flat_map_app. Qed.

Lemma retry_after_delays_app (t u : list event) :
  retry_after_delays (t ++ u)
  = (retry_after_delays t ++ retry_after_delays u)%list.
Proof. apply flat_map_app. Qed.

Lemma count_gets_app (t u : list event) :
  count_gets (t ++ u) = count_gets t + count_gets u.
Proof. unfold count_gets. rewrite filter_app, length_app. reflexivity. Qed.

Lemma count_rate_limits_app (t u : list event) :
  count_rate_limits (t ++ u) = count_rate_limits t + count_rate_limits u.
Proof.
  unfold count_rate_limits. rewrite filter_app, length_app. reflexivity.
Qed.

Lemma rate_limit_events_plain (c : JiraAPIClient) :
  backoff_delays (rate_limit_events c) = []
  /\ retry_after_delays (rate_limit_events c) = []
  /\ count_gets (rate_limit_events c) = 0
  /\ count_rate_limits (rate_limit_events c) = 1.
Proof.
  unfold rate_limit_events.
  destruct (Qltb (now c - last_request_time c) (rate_limit_delay c));
    repeat split.
Qed.

(** [k] server errors, then a 200, inside the loop. *)
Lemma retry_loop_errors_then_success
      (srv : server) (max_retries : Z) (k : nat) :
  forall (remaining attempt : nat) (c : JiraAPIClient) h body,
    k < remaining ->
    (forall i, i < k ->
               is_server_error (snd (srv (requests c + i))) = true) ->
    snd (srv (requests c + k)) = Response 200 h body ->
    exists c' added,
      retry_loop srv max_retries remaining attempt c = (Ok body, c')
      /\ trace c' = (trace c ++ added)%list
      /\ backoff_delays added = map backoff (seq attempt k)
      /\ retry_after_delays added = []
      /\ count_gets added = S k.
Proof.
  induction k as [|k IH]; intros remaining attempt c h body Hk Herr Hok;
    destruct remaining as [|remaining]; try lia.
  - rewrite Nat.add_0_r in Hok.
    rewrite (retry_step_success srv max_retries remaining attempt c h body Hok).
    exists (after_get (fst (srv (requests c))) c), [Get (requests c)].
    repeat split.
  - rewrite retry_step_server_error
      by (rewrite <- (Nat.add_0_r (requests c)); apply Herr; lia).
    set (c1 := after_sleep ForBackoff (backoff attempt)
                           (after_get (fst (srv (requests c))) c)).
    destruct (IH remaining (S attempt) c1 h body) as [c' [added H]].
    + lia.
    + intros i Hi. replace (requests c1 + i) with (requests c + S i)
        by (subst c1; cbn; lia).
      apply Herr. lia.
    + replace (requests c1 + k) with (requests c + S k)
        by (subst c1; cbn; lia).
      exact Hok.
    + destruct H as [Hrun [Htr [Hb [Hr Hg]]]].
      exists c', ([Get (requests c); Sleep ForBackoff (backoff attempt)]
                    ++ added)%list.
      split; [exact Hrun|]. split.
      { rewrite Htr. subst c1. cbn [after_sleep after_get trace].
        rewrite <- !app_assoc. reflexivity. }
      rewrite backoff_delays_app, retry_after_delays_app, count_gets_app.
      rewrite Hb, Hr, Hg. repeat split.
Qed.

(** Nothing but server errors: the loop uses every attempt. *)
Lemma retry_loop_errors_only (srv : server) (max_retries : Z) :
  forall (remaining attempt : nat) (c : JiraAPIClient),
    (forall i, i < remaining ->
               is_server_error (snd (srv (requests c + i))) = true) ->
    exists c' added,
      retry_loop srv max_retries remaining attempt c = (Ok PNone, c')
      /\ requests c' = requests c + remaining
      /\ trace c' = (trace c ++ added)%list
      /\ backoff_delays added = map backoff (seq attempt remaining)
      /\ count_gets added = remaining.
Proof.
  induction remaining as [|remaining IH]; intros attempt c Herr.
  - exists c, []. cbn. rewrite app_nil_r, Nat.add_0_r. repeat split.
  - rewrite retry_step_server_error
      by (rewrite <- (Nat.add_0_r (requests c)); apply Herr; lia).
    set (c1 := after_sleep ForBackoff (backoff attempt)
                           (after_get (fst (srv (requests c))) c)).
    destruct (IH (S attempt) c1) as [c' [added [Hrun [Hn [Htr [Hb Hg]]]]]].
    { intros i Hi. replace (requests c1 + i) with (requests c + S i)
        by (subst c1; cbn; lia).
      apply Herr. lia. }
    exists c', ([Get (requests c); Sleep ForBackoff (backoff attempt)]
                  ++ added)%list.
    split; [exact Hrun|]. split.
    { rewrite Hn. subst c1. cbn. lia. }
    split.
    { rewrite Htr. subst c1. cbn [after_sleep after_get trace].
      rewrite <- !app_assoc. reflexivity. }
    rewrite backoff_delays_app, count_gets_app, Hb, Hg. repeat split.
Qed.

Lemma make_request_eq (srv : server) (max_retries : Z) (c : JiraAPIClient) :
  _make_request srv max_retries c
  = retry_loop srv max_retries (Z.to_nat max_retries) 0
      (mkJiraAPIClient (rate_limit_delay c) (released c) (released c)
                       (requests c) (trace c ++ rate_limit_events c)).
Proof. unfold _make_request, bindM. rewrite rate_limit_eq. reflexivity. Qed.

(** C4. If the first [k] replies are server errors (status 500 or more)
    and the next is a 200, with [k] below [max_retries], [_make_request]
    returns the body of the 200 after exactly [k] back-off sleeps, of
    2^0, ..., 2^(k-1), and [k+1] requests.  If [max_retries] replies in a
    row are server errors, it returns [None] after exactly [max_retries]
    requests. *)
Theorem server_errors_then_success
        (srv : server) (max_retries : Z) (c : JiraAPIClient) (k : nat) :
  ((Z.of_nat k < max_retries)%Z ->
   (forall i, i < k ->
              is_server_error (snd (srv (requests c + i))) = true) ->
   forall h body,
     snd (srv (requests c + k)) = Response 200 h body ->
     exists c' added,
       _make_request srv max_retries c = (Ok body, c')
       /\ trace c' = (trace c ++ added)%list
       /\ backoff_delays added
          = map (fun i => inject_Z (2 ^ Z.of_nat i)) (seq 0 k)
       /\ count_gets added = S k)
  /\
  ((forall i, i < Z.to_nat max_retries ->
              is_server_error (snd (srv (requests c + i))) = true) ->
   exists c' added,
     _make_request srv max_retries c = (Ok PNone, c')
     /\ requests c' = requests c + Z.to_nat max_retries
     /\ trace c' = (trace c ++ added)%list
     /\ count_gets added = Z.to_nat max_retries).
Proof.
  destruct (rate_limit_events_plain c) as [Hb0 [Hr0 [Hg0 _]]].
  split.
  - intros Hk Herr h body Hok. rewrite make_request_eq.
    set (c1 := mkJiraAPIClient _ _ _ _ _).
    destruct (retry_loop_errors_then_success srv max_retries k
                (Z.to_nat max_retries) 0 c1 h body
                ltac:(lia) Herr Hok) as [c' [added [Hrun [Htr [Hb [_ Hg]]]]]].
    exists c', (rate_limit_events c ++ added)%list.
    split; [exact Hrun|]. split.
    { rewrite Htr. cbn [trace]. rewrite app_assoc. reflexivity. }
    rewrite backoff_delays_app, count_gets_app, Hb0, Hg0, Hb, Hg.
    split; reflexivity.
  - intros Herr. rewrite make_request_eq.
    set (c1 := mkJiraAPIClient _ _ _ _ _).
    destruct (retry_loop_errors_only srv max_retries
                (Z.to_nat max_retries) 0 c1 Herr)
      as [c' [added [Hrun [Hn [Htr [_ Hg]]]]]].
    exists c', (rate_limit_events c ++ added)%list.
    split; [exact Hrun|]. split; [exact Hn|]. split.
    { rewrite Htr. cbn [trace]. rewrite app_assoc. reflexivity. }
    rewrite count_gets_app, Hg0, Hg. reflexivity.
Qed.

Lemma server_errors_then_success_witness :
  exists c' added,
    _make_request
      (scripted [Response 500 HeaderAbsent PNone;
                 Response 500 HeaderAbsent PNone]
                (Response 200 HeaderAbsent (PDict [("success", PBool true)])))
      3 (fresh_client 1 100)
    = (Ok (PDict [("success", PBool true)]), c')
    /\ trace c' = added
    /\ backoff_delays added = [inject_Z 1; inject_Z 2]
    /\ count_gets added = 3.
Proof.
  destruct (server_errors_then_success
              (scripted [Response 500 HeaderAbsent PNone;
                         Response 500 HeaderAbsent PNone]
                        (Response 200 HeaderAbsent
                                  (PDict [("success", PBool true)])))
              3 (fresh_client 1 100) 2) as [H _].
  destruct (H ltac:(lia)) with (h := HeaderAbsent)
                               (body := PDict [("success", PBool true)])
    as [c' [added [Hrun [Htr [Hb Hg]]]]].
  - intros i Hi. destruct i as [|[|i]]; [reflexivity | reflexivity | lia].
  - reflexivity.
  - exists c', added. repeat split; assumption.
Defined.

(** Nothing but 429: the loop uses every attempt, as for server errors. *)
Lemma retry_loop_rate_limited_only (srv : server) (max_retries : Z) :
  forall (remaining attempt : nat) (c : JiraAPIClient),
    (forall i, i < remaining ->
               is_rate_limited (snd (srv (requests c + i))) = true) ->
    exists c' added,
      retry_loop srv max_retries remaining attempt c = (Ok PNone, c')
      /\ requests c' = requests c + remaining
      /\ trace c' = (trace c ++ added)%list
      /\ retry_after_delays added
         = map (fun i => retry_after_of (snd (srv (requests c + i))))
               (seq 0 remaining)
      /\ backoff_delays added = []
      /\ count_gets added = remaining.
Proof.
  induction remaining as [|remaining IH]; intros attempt c Hrl.
  - exists c, []. cbn. rewrite app_nil_r, Nat.add_0_r. repeat split.
  - rewrite retry_step_rate_limited
      by (rewrite <- (Nat.add_0_r (requests c)); apply Hrl; lia).
    set (c1 := after_sleep ForRetryAfter
                           (retry_after_of (snd (srv (requests c))))
                           (after_get (fst (srv (requests c))) c)).
    destruct (IH (S attempt) c1)
      as [c' [added [Hrun [Hn [Htr [Hr [Hb Hg]]]]]]].
    { intros i Hi. replace (requests c1 + i) with (requests c + S i)
        by (subst c1; cbn; lia).
      apply Hrl. lia. }
    exists c', ([Get (requests c);
                 Sleep ForRetryAfter (retry_after_of (snd (srv (requests c))))]
                  ++ added)%list.
    split; [exact Hrun|]. split.
    { rewrite Hn. subst c1. cbn. lia. }
    split.
    { rewrite Htr. subst c1. cbn [after_sleep after_get trace].
      rewrite <- !app_assoc. reflexivity. }
    rewrite retry_after_delays_app, backoff_delays_app, count_gets_app.
    rewrite Hr, Hb, Hg. repeat split.
    cbn [retry_after_delays flat_map app seq map].
    rewrite Nat.add_0_r. f_equal.
    rewrite <- seq_shift, map_map.
    apply map_ext. intros i. f_equal. f_equal. f_equal.
    subst c1. cbn. lia.
Qed.

(** C2, as the code has it.  A 429 takes one turn of
    [for attempt in range(max_retries)] like any reply that is retried:
    when the first [max_retries] replies are 429, each with a
    [Retry-After] that is absent or an integer from 0 to [sleep_limit]
    (what [time.sleep] takes), the client sleeps what each asks for (60
    when absent), makes exactly [max_retries] requests and returns
    [None]. *)
Theorem rate_limited_replies_use_retry_budget
        (srv : server) (max_retries : Z) (c : JiraAPIClient)
        (Hrl : forall i, i < Z.to_nat max_retries ->
                         is_rate_limited (snd (srv (requests c + i))) = true) :
  exists c' added,
    _make_request srv max_retries c = (Ok PNone, c')
    /\ requests c' = requests c + Z.to_nat max_retries
    /\ trace c' = (trace c ++ added)%list
    /\ count_gets added = Z.to_nat max_retries
    /\ retry_after_delays added
       = map (fun i => retry_after_of (snd (srv (requests c + i))))
             (seq 0 (Z.to_nat max_retries)).
Proof.
  destruct (rate_limit_events_plain c) as [_ [Hr0 [Hg0 _]]].
  rewrite make_request_eq.
  set (c1 := mkJiraAPIClient _ _ _ _ _).
  destruct (retry_loop_rate_limited_only srv max_retries
              (Z.to_nat max_retries) 0 c1 Hrl)
    as [c' [added [Hrun [Hn [Htr [Hr [_ Hg]]]]]]].
  exists c', (rate_limit_events c ++ added)%list.
  split; [exact Hrun|]. split; [exact Hn|]. split.
  { rewrite Htr. cbn [trace c1]. rewrite app_assoc. reflexivity. }
  rewrite count_gets_app, retry_after_delays_app, Hg0, Hr0, Hg, Hr.
  split; reflexivity.
Qed.

Lemma rate_limited_replies_use_retry_budget_witness :
  exists c',
    _make_request (scripted [] (Response 429 (HeaderInt 1) PNone)) 3
                  (fresh_client 1 100) = (Ok PNone, c')
    /\ requests c' = 3.
Proof.
  destruct (rate_limited_replies_use_retry_budget
              (scripted [] (Response 429 (HeaderInt 1) PNone)) 3
              (fresh_client 1 100))
    as [c' [added [Hrun [Hn _]]]].
  - intros i Hi. destruct i as [|[|[|i]]]; reflexivity.
  - exists c'. split; [exact Hrun | exact Hn].
Defined.

(** C2, as the specification has it, fails: under 429 replies without
    end, a call with [max_retries = 5] makes five requests, sleeps the 60
    seconds five times and returns [None]. *)
Lemma sustained_429_returns_failure :
  fst (_make_request (scripted [] (Response 429 HeaderAbsent PNone)) 5
                     (fresh_client 1 100)) = Ok PNone
  /\ requests (snd (_make_request
                      (scripted [] (Response 429 HeaderAbsent PNone)) 5
                      (fresh_client 1 100))) = 5
  /\ retry_after_delays
       (trace (snd (_make_request
                      (scripted [] (Response 429 HeaderAbsent PNone)) 5
                      (fresh_client 1 100))))
     = [inject_Z 60; inject_Z 60; inject_Z 60; inject_Z 60; inject_Z 60].
Proof. vm_compute. repeat split. Qed.

Example unparseable_retry_after_raises :
  fst (_make_request (scripted [] (Response 429 HeaderText PNone)) 5
                     (fresh_client 1 100)) = Raise ValueError.
Proof. vm_compute. reflexivity. Qed.

Example rate_limited_then_success :
  fst (_make_request
         (scripted [Response 429 (HeaderInt 1) PNone]
                   (Response 200 HeaderAbsent (PDict [("success", PBool true)])))
         5 (fresh_client 1 100))
  = Ok (PDict [("success", PBool true)]).
Proof. vm_compute. reflexivity. Qed.

(** *** Where the rate limit is applied *)

Lemma quiet_refl (c : JiraAPIClient) : quiet c c.
Proof.
  repeat split. exists []. split; [now rewrite app_nil_r | reflexivity].
Qed.

Lemma quiet_trans (c1 c2 c3 : JiraAPIClient) :
  quiet c1 c2 -> quiet c2 c3 -> quiet c1 c3.
Proof.
  intros [Hl1 [Hd1 [a1 [Ht1 Hc1]]]] [Hl2 [Hd2 [a2 [Ht2 Hc2]]]].
  split; [congruence|]. split; [congruence|].
  exists (a1 ++ a2)%list. split.
  - rewrite Ht2, Ht1, app_assoc. reflexivity.
  - rewrite count_rate_limits_app. lia.
Qed.

Lemma quiet_ret {A : Type} (a : A) : quiet_run (ret a).
Proof. intros c. apply quiet_refl. Qed.

Lemma quiet_lift {A : Type} (r : res A) : quiet_run (lift r).
Proof. intros c. apply quiet_refl. Qed.

Lemma quiet_bind {A B : Type}
      (m : M JiraAPIClient A) (k : A -> M JiraAPIClient B) :
  quiet_run m -> (forall a, quiet_run (k a)) -> quiet_run (bindM m k).
Proof.
  intros Hm Hk c. unfold bindM. specialize (Hm c).
  destruct (m c) as [[a|e] c1]; cbn [snd] in *.
  - eapply quiet_trans; [exact Hm | apply Hk].
  - exact Hm.
Qed.

Lemma quiet_session_get (srv : server) : quiet_run (session_get srv).
Proof.
  intros c. unfold session_get. destruct (srv (requests c)) as [latency r].
  repeat split. exists [Get (requests c)]. split; reflexivity.
Qed.

Lemma quiet_time_sleep (why : sleep_reason) (d : Q) :
  quiet_run (time_sleep why d).
Proof.
  intros c. unfold time_sleep. destruct (Qltb d 0).
  - apply quiet_refl.
  - repeat split. exists [Sleep why d]. split; reflexivity.
Qed.

Lemma quiet_sleep_retry_after (d : Z) : quiet_run (sleep_retry_after d).
Proof.
  intros c. unfold sleep_retry_after.
  destruct (sleep_limit <? Z.abs d)%Z;
    [apply quiet_refl | apply quiet_time_sleep].
Qed.

Lemma quiet_retry_loop (srv : server) (max_retries : Z) (remaining : nat) :
  forall attempt, quiet_run (retry_loop srv max_retries remaining attempt).
Proof.
  induction remaining as [|remaining IH]; intros attempt; cbn [retry_loop].
  - apply quiet_ret.
  - apply quiet_bind; [apply quiet_session_get|].
    intros [status_code h json| |].
    + destruct (status_code =? 429)%Z.
      { apply quiet_bind; [apply quiet_lift|]. intros d.
        apply quiet_bind; [apply quiet_sleep_retry_after|].
        intros _. apply IH. }
      destruct (status_code >=? 500)%Z.
      { apply quiet_bind; [apply quiet_time_sleep|]. intros _. apply IH. }
      destruct (status_code =? 200)%Z; apply quiet_ret.
    + apply quiet_bind; [apply quiet_time_sleep|]. intros _. apply IH.
    + destruct (Z.of_nat attempt =? max_retries - 1)%Z; [apply quiet_ret|].
      apply quiet_bind; [apply quiet_time_sleep|]. intros _. apply IH.
Qed.

(** C9, as the code has it.  Whatever the server replies and however the
    call ends, [_make_request] applies the rate limit once, on entry,
    before the first attempt: the events it adds are those of [_rate_limit]
    and then events among which there is no rate limit, so no later attempt
    has one; and [last_request_time] is left at the time [_rate_limit]
    returned, the start of the first attempt. *)
Theorem rate_limit_once_per_call
        (srv : server) (max_retries : Z) (c : JiraAPIClient) :
  let c' := snd (_make_request srv max_retries c) in
  exists added,
    trace c' = (trace c ++ rate_limit_events c ++ added)%list
    /\ hd_error (rate_limit_events c ++ added) = Some RateLimit
    /\ count_rate_limits (rate_limit_events c ++ added) = 1
    /\ count_rate_limits added = 0
    /\ last_request_time c' = released c.
Proof.
  cbn zeta. rewrite make_request_eq.
  set (c1 := mkJiraAPIClient _ _ _ _ _).
  destruct (quiet_retry_loop srv max_retries (Z.to_nat max_retries) 0 c1)
    as [Hl [_ [added [Htr Hc]]]].
  exists added. split.
  { rewrite Htr. cbn [trace c1]. rewrite app_assoc. reflexivity. }
  split.
  { unfold rate_limit_events.
    destruct (Qltb (now c - last_request_time c) (rate_limit_delay c));
      reflexivity. }
  destruct (rate_limit_events_plain c) as [_ [_ [_ H1]]].
  rewrite count_rate_limits_app, H1, Hc. repeat split. exact Hl.
Qed.

(** C9, as the specification has it, fails: after a 500 the second
    attempt follows the back-off sleep only; [_rate_limit] ran once, before
    the first. *)
Lemma retry_attempt_without_rate_limit :
  trace (snd (_make_request
                (scripted [Response 500 HeaderAbsent PNone]
                          (Response 200 HeaderAbsent PNone))
                5 (fresh_client 1 100)))
  = [RateLimit; Get 0; Sleep ForBackoff (inject_Z 1); Get 1]
  /\ rate_limited_before_each_get false
       (trace (snd (_make_request
                      (scripted [Response 500 HeaderAbsent PNone]
                                (Response 200 HeaderAbsent PNone))
                      5 (fresh_client 1 100)))) = false.
Proof. vm_compute. split; reflexivity. Qed.

Example first_attempt_is_rate_limited :
  rate_limited_before_each_get false
    (trace (snd (_make_request (scripted [] (Response 200 HeaderAbsent PNone))
                               5 (fresh_client 1 0)))) = true.
Proof. vm_compute. reflexivity. Qed.

(** [last_request_time] is the start of the request, not its end: after a
    request that took 7, it still reads the time the request began. *)
Example last_request_time_is_the_start :
  let c := snd (_make_request
                  (fun _ => (inject_Z 7, Response 200 HeaderAbsent PNone))
                  5 (fresh_client 1 100)) in
  last_request_time c = inject_Z 100 /\ Qeq (now c) (inject_Z 107).
Proof. vm_compute. split; reflexivity. Qed.

(** ** JiraScraper *)

Lemma bindM_ok {S A B : Type} (m : M S A) (k : A -> M S B) s a s' :
  m s = (Ok a, s') -> bindM m k s = k a s'.
Proof. intros H. unfold bindM. rewrite H. reflexivity. Qed.

Lemma bindM_lift {S A B : Type} (r : res A) (k : A -> M S B) (s : S) :
  bindM (lift r) k s
  = match r with Ok a => k a s | Raise e => (Raise e, s) end.
Proof. unfold bindM, lift. destruct r; reflexivity. Qed.

Lemma same_progress_refl (s : JiraScraper) : same_progress s s.
Proof. repeat split. apply Nat.le_refl. Qed.

Lemma same_progress_trans (s1 s2 s3 : JiraScraper) :
  same_progress s1 s2 -> same_progress s2 s3 -> same_progress s1 s3.
Proof.
  intros [A1 [B1 [C1 [D1 E1]]]] [A2 [B2 [C2 [D2 E2]]]].
  repeat split; try congruence. lia.
Qed.

Lemma collect_hashable (jira : api) (cm : comments_map) (key : pyval)
      (s : JiraScraper) :
  hashable key = true ->
  exists s',
    collect jira cm key s
    = (Ok (cm_set cm key
             (match get_issue_comments jira key with
              | Ok cs => cs
              | Raise _ => []
              end)), s')
    /\ same_progress s s'.
Proof.
  intros Hk. unfold collect, try_except, cm_setitem. rewrite Hk.
  rewrite bindM_lift.
  destruct (get_issue_comments jira key) as [cs|e].
  - rewrite bindM_lift. eexists. split; [reflexivity|]. repeat split.
    cbn. lia.
  - rewrite bindM_lift. eexists. split; [reflexivity|]. repeat split.
    cbn. lia.
Qed.

Lemma fetch_comments_hashable (jira : api) (keys : list pyval) :
  forall (cm : comments_map) (s : JiraScraper),
    forallb hashable keys = true ->
    exists s',
      fetch_comments jira keys cm s = (Ok (comments_for jira keys cm), s')
      /\ same_progress s s'.
Proof.
  induction keys as [|key keys IH]; intros cm s Hk; cbn [fetch_comments].
  - exists s. split; [reflexivity | apply same_progress_refl].
  - cbn [forallb] in Hk. apply andb_true_iff in Hk as [Hkey Hk].
    destruct (collect_hashable jira cm key s Hkey) as [s1 [Hc Hs1]].
    rewrite (bindM_ok _ _ _ _ _ Hc).
    destruct (IH (cm_set cm key
                    (match get_issue_comments jira key with
                     | Ok cs => cs
                     | Raise _ => []
                     end)) s1 Hk) as [s' [Hf Hs']].
    exists s'. split; [exact Hf|].
    eapply same_progress_trans; eassumption.
Qed.

Lemma silent_ret {A : Type} (a : A) : silent_run (ret a).
Proof. intros s. reflexivity. Qed.

Lemma silent_lift {A : Type} (r : res A) : silent_run (lift r).
Proof. intros s. reflexivity. Qed.

Lemma silent_bind {A B : Type}
      (m : M JiraScraper A) (k : A -> M JiraScraper B) :
  silent_run m -> (forall a, silent_run (k a)) -> silent_run (bindM m k).
Proof.
  intros Hm Hk s. unfold bindM. specialize (Hm s).
  destruct (m s) as [[a|e] s1]; cbn [snd] in *.
  - rewrite (Hk a s1). exact Hm.
  - exact Hm.
Qed.

Lemma silent_try_except {A : Type}
      (m : M JiraScraper A) (h : exn -> M JiraScraper A) :
  silent_run m -> (forall e, silent_run (h e)) -> silent_run (try_except m h).
Proof.
  intros Hm Hh s. unfold try_except. specialize (Hm s).
  destruct (m s) as [[a|e] s1]; cbn [snd] in *.
  - exact Hm.
  - rewrite (Hh e s1). exact Hm.
Qed.

Lemma silent_add_error : silent_run add_error.
Proof. intros s. reflexivity. Qed.

Lemma silent_add_comments (n : nat) : silent_run (add_comments n).
Proof. intros s. reflexivity. Qed.

Lemma silent_fetch_comments (jira : api) (keys : list pyval) :
  forall cm, silent_run (fetch_comments jira keys cm).
Proof.
  induction keys as [|key keys IH]; intros cm; cbn [fetch_comments].
  - apply silent_ret.
  - apply silent_bind; [|intros cm'; apply IH].
    unfold collect. apply silent_try_except.
    + apply silent_bind; [apply silent_lift|]. intros comments.
      apply silent_bind; [apply silent_lift|]. intros cm'.
      apply silent_bind; [apply silent_add_comments|]. intros _.
      apply silent_ret.
    + intros e. apply silent_bind; [apply silent_lift|]. intros cm'.
      apply silent_bind; [apply silent_add_error|]. intros _.
      apply silent_ret.
Qed.

Lemma process_issue_eq (cm : comments_map) (issue_data : pyval)
      (s : JiraScraper) :
  process_issue cm issue_data s
  = match record_of cm issue_data with
    | Some issue => write_issue issue s
    | None => add_error s
    end.
Proof.
  unfold process_issue, try_except, record_of.
  rewrite bindM_lift.
  destruct (py_get issue_data "key" (PStr "UNKNOWN")) as [k|e];
    cbn [bind]; [|reflexivity].
  rewrite bindM_lift.
  destruct (cm_get cm k) as [cs|e]; cbn [bind]; [|reflexivity].
  rewrite bindM_lift.
  destruct (transform_issue issue_data cs) as [issue|e]; reflexivity.
Qed.

Lemma process_page (cm : comments_map) (items : list pyval) :
  forall s : JiraScraper,
    exists s',
      forM_ items (process_issue cm) s = (Ok tt, s')
      /\ checkpoint_manager s' = checkpoint_manager s
      /\ searches s' = searches s
      /\ output s' = (output s ++ records_of cm items)%list
      /\ total_issues s'
         = total_issues s + List.length (records_of cm items)
      /\ errors s' + List.length (records_of cm items)
         = errors s + List.length items
      /\ journal s'
         = (journal s ++ map Written (records_of cm items))%list.
Proof.
  induction items as [|issue_data items IH]; intros s;
    cbn [forM_ records_of].
  - exists s. cbn. rewrite !app_nil_r. repeat split; lia.
  - unfold bindM. rewrite process_issue_eq.
    destruct (record_of cm issue_data) as [issue|].
    + unfold write_issue, modify.
      destruct (IH (mkJiraScraper (checkpoint_manager s)
                                  (output s ++ [issue])
                                  (S (total_issues s)) (total_comments s)
                                  (errors s) (searches s)
                                  (journal s ++ [Written issue])))
        as [s' [Hrun [Hc [Hs [Ho [Ht [He Hj]]]]]]].
      exists s'. split; [exact Hrun|]. cbn in *.
      rewrite <- app_assoc in Ho, Hj. cbn in Ho, Hj.
      repeat split; try assumption; lia.
    + unfold add_error, modify.
      destruct (IH (mkJiraScraper (checkpoint_manager s) (output s)
                                  (total_issues s) (total_comments s)
                                  (S (errors s)) (searches s) (journal s)))
        as [s' [Hrun [Hc [Hs [Ho [Ht [He Hj]]]]]]].
      exists s'. split; [exact Hrun|]. cbn in *.
      repeat split; try assumption; lia.
Qed.

Lemma records_of_length (cm : comments_map) (items : list pyval) :
  List.length (records_of cm items) <= List.length items.
Proof.
  induction items as [|i items IH]; cbn [records_of]; [simpl; lia|].
  destruct (record_of cm i); simpl; lia.
Qed.

Lemma page_keys (items : list pyval) :
  page_ok items = true ->
  mapM (fun issue => py_get issue "key" (PStr "UNKNOWN")) items
  = Ok (map key_of items)
  /\ forallb hashable (map key_of items) = true.
Proof.
  induction items as [|issue items IH]; cbn [page_ok forallb mapM map].
  - intros _. split; reflexivity.
  - intros H. apply andb_true_iff in H as [Hi H].
    destruct (IH H) as [Hm Hh]. rewrite Hm, Hh.
    destruct issue; try discriminate. cbn [py_get bind key_of].
    rewrite Hi. split; reflexivity.
Qed.

Lemma page_is_truthy (r : list (string * pyval)) (k : string) (v : pyval) :
  Dict.get r k = Some v -> truthy (PDict r) = true.
Proof. destruct r; [discriminate | reflexivity]. Qed.

Lemma items_are_truthy (items : list pyval) :
  items <> [] -> truthy (PList items) = true.
Proof. destruct items; [congruence | reflexivity]. Qed.

(** One turn of the loop on a page that can be processed. *)
Lemma scrape_page_good (jira : api) (project : string) (s : JiraScraper)
      (n : Z) (items : list pyval) (total : Z) :
  well_formed (state (checkpoint_manager s)) = true ->
  is_page (search_reply jira (List.length (searches s))) items total ->
  items <> [] ->
  page_ok items = true ->
  let n' := (n + Z.of_nat (List.length items))%Z in
  let written := records_of (comments_for jira (map key_of items) []) items in
  exists s',
    scrape_page jira project (PInt n) s
    = (Ok (if (n' >=? total)%Z then Break else Continue (PInt n')), s')
    /\ searches s' = (searches s ++ [PInt n])%list
    /\ output s' = (output s ++ written)%list
    /\ total_issues s' = total_issues s + List.length written
    /\ errors s' + List.length written >= errors s + List.length items
    /\ well_formed (state (checkpoint_manager s')) = true
    /\ checkpoint_file (checkpoint_manager s')
       = Stored (state (checkpoint_manager s'))
    /\ persisted (checkpoint_file (checkpoint_manager s')) project
       = Some (PInt n')
    /\ journal s'
       = (journal s ++ map Written written ++ [Saved project (PInt n')])%list.
Proof.
  intros Hwf [r [Hresp [Hissues Htotal]]] Hne Hok n' written.
  destruct (page_keys items Hok) as [Hkeys Hhash].
  destruct (well_formed_inv _ Hwf) as [d [ps [Hst Hps]]].
  assert (Hi : Dict.get_default r "issues" (PList []) = PList items)
    by (unfold Dict.get_default; rewrite Hissues; reflexivity).
  unfold scrape_page, bindM, lift, search_issues.
  rewrite Hresp, (page_is_truthy r _ _ Hissues).
  cbn [negb py_get]. rewrite Hi, Htotal, (items_are_truthy items Hne).
  cbn [negb py_iter py_len py_iadd int_ge]. rewrite Hkeys.
  match goal with |- context [fetch_comments jira _ [] ?s0] =>
    destruct (fetch_comments_hashable jira (map key_of items) [] s0 Hhash)
      as [s1 [Hfetch [Hc1 [Ho1 [Hs1 [Ht1 He1]]]]]];
    pose proof (silent_fetch_comments jira (map key_of items) [] s0) as Hj1
  end.
  rewrite Hfetch in Hj1. rewrite Hfetch.
  destruct (process_page (comments_for jira (map key_of items) []) items s1)
    as [s2 [Hproc [Hc2 [Hs2 [Ho2 [Ht2 [He2 Hj2]]]]]]].
  rewrite Hproc. fold n'. fold written in Ho2, Ht2, He2, Hj2.
  cbn [checkpoint_manager output searches total_issues errors journal
       snd] in *.
  assert (Hst2 : state (checkpoint_manager s2) = PDict d)
    by (rewrite Hc2, Hc1; exact Hst).
  pose proof (update_well_formed (checkpoint_manager s2) project (PInt n')
                                 d ps Hst2 Hps) as Hup.
  cbv zeta in Hup.
  unfold on_checkpoint. rewrite Hup. unfold note, modify.
  eexists. split.
  { destruct (n' >=? total)%Z; reflexivity. }
  cbn [checkpoint_manager output searches total_issues errors state
       checkpoint_file journal].
  split; [congruence|]. split; [congruence|]. split; [congruence|].
  split; [lia|]. split.
  { unfold well_formed. rewrite dict_get_set_eq. reflexivity. }
  split; [reflexivity|]. split.
  { cbn [persisted]. rewrite !dict_get_set_eq. reflexivity. }
  rewrite Hj2, Hj1, <- app_assoc. reflexivity.
Qed.

Lemma scrape_page_empty (jira : api) (project : string) (s : JiraScraper)
      (start_at : pyval) :
  is_empty_page (search_reply jira (List.length (searches s))) ->
  exists s',
    scrape_page jira project start_at s = (Ok Break, s')
    /\ searches s' = (searches s ++ [start_at])%list
    /\ output s' = output s
    /\ checkpoint_manager s' = checkpoint_manager s.
Proof.
  intros [r [Hresp [Htruthy Hnone]]]. rewrite Hresp in Htruthy.
  unfold scrape_page, bindM, lift, search_issues.
  rewrite Hresp, Htruthy. cbn [negb py_get]. rewrite Hnone. cbn [negb].
  eexists. repeat split.
Qed.

(** The loop over pages that go on, up to the reply that ends it. *)
Lemma pagination_runs (jira : api) (project : string) :
  forall (pages : list (list pyval * Z)) (fuel : nat) (s : JiraScraper)
         (n : Z),
    well_formed (state (checkpoint_manager s)) = true ->
    continuing jira (List.length (searches s)) n pages ->
    last_page (search_reply jira (List.length (searches s) + List.length pages))
              (final_offset n pages) ->
    List.length pages < fuel ->
    exists s',
      pagination jira project fuel (PInt n) s = (Ok Completed, s')
      /\ searches s' = (searches s ++ map PInt (offsets n pages))%list.
Proof.
  induction pages as [|[items total] pages IH];
    intros fuel s n Hwf Hcont Hlast Hfuel;
    (destruct fuel as [|fuel]; [cbn in Hfuel; lia|]);
    cbn [pagination].
  - cbn [List.length final_offset offsets map] in *.
    rewrite Nat.add_0_r in Hlast.
    destruct Hlast as [Hempty | [items [total [Hpage [Hne [Hok Hge]]]]]].
    + destruct (scrape_page_empty jira project s (PInt n) Hempty)
        as [s' [Hrun [Hs _]]].
      rewrite (bindM_ok _ _ _ _ _ Hrun). exists s'. split; [reflexivity|].
      exact Hs.
    + destruct (scrape_page_good jira project s n items total
                                 Hwf Hpage Hne Hok) as [s' [Hrun [Hs _]]].
      rewrite (bindM_ok _ _ _ _ _ Hrun).
      replace (n + Z.of_nat (List.length items) >=? total)%Z with true
        by (symmetry; apply Z.geb_le; lia).
      exists s'. split; [reflexivity | exact Hs].
  - cbn [continuing] in Hcont.
    destruct Hcont as [Hpage [Hne [Hok [Hlt Hcont]]]].
    destruct (scrape_page_good jira project s n items total Hwf Hpage Hne Hok)
      as [s1 [Hrun [Hs [_ [_ [_ [Hwf1 _]]]]]]].
    rewrite (bindM_ok _ _ _ _ _ Hrun).
    replace (n + Z.of_nat (List.length items) >=? total)%Z with false
      by (symmetry; rewrite Z.geb_leb; apply Z.leb_gt; lia).
    assert (Hlen : List.length (searches s1) = S (List.length (searches s)))
      by (rewrite Hs, length_app; cbn; lia).
    destruct (IH fuel s1 (n + Z.of_nat (List.length items))%Z Hwf1)
      as [s' [Hrest Hs']].
    + rewrite Hlen. exact Hcont.
    + rewrite Hlen. cbn [List.length final_offset] in Hlast.
      replace (S (List.length (searches s)) + List.length pages)
        with (List.length (searches s) + S (List.length pages)) by lia.
      exact Hlast.
    + cbn [List.length] in Hfuel. lia.
    + exists s'. split; [exact Hrest|].
      rewrite Hs', Hs. cbn [offsets map]. rewrite <- app_assoc. reflexivity.
Qed.

Lemma offsets_head (n : Z) (pages : list (list pyval * Z)) :
  hd_error (map PInt (offsets n pages)) = Some (PInt n)
  /\ List.length (offsets n pages) = S (List.length pages).
Proof.
  revert n. induction pages as [|[items total] pages IH]; intros n.
  - split; reflexivity.
  - split; [reflexivity|]. cbn [offsets List.length].
    now rewrite (proj2 (IH _)).
Qed.

(** *** The searches of a run, whatever the API answers *)

Lemma extends_refl (s : JiraScraper) : extends s s.
Proof. exists []. now rewrite app_nil_r. Qed.

Lemma extends_trans (s1 s2 s3 : JiraScraper) :
  extends s1 s2 -> extends s2 s3 -> extends s1 s3.
Proof.
  intros [a1 H1] [a2 H2]. exists (a1 ++ a2)%list.
  rewrite H2, H1, app_assoc. reflexivity.
Qed.

Lemma extending_ret {A : Type} (a : A) : extending_run (ret a).
Proof. intros s. apply extends_refl. Qed.

Lemma extending_lift {A : Type} (r : res A) : extending_run (lift r).
Proof. intros s. apply extends_refl. Qed.

Lemma extending_bind {A B : Type}
      (m : M JiraScraper A) (k : A -> M JiraScraper B) :
  extending_run m -> (forall a, extending_run (k a)) ->
  extending_run (bindM m k).
Proof.
  intros Hm Hk s. unfold bindM. specialize (Hm s).
  destruct (m s) as [[a|e] s1]; cbn [snd] in *.
  - eapply extends_trans; [exact Hm | apply Hk].
  - exact Hm.
Qed.

Lemma extending_try_except {A : Type}
      (m : M JiraScraper A) (h : exn -> M JiraScraper A) :
  extending_run m -> (forall e, extending_run (h e)) ->
  extending_run (try_except m h).
Proof.
  intros Hm Hh s. unfold try_except. specialize (Hm s).
  destruct (m s) as [[a|e] s1]; cbn [snd] in *.
  - exact Hm.
  - eapply extends_trans; [exact Hm | apply Hh].
Qed.

Lemma extending_add_error : extending_run add_error.
Proof. intros s. exists []. cbn. now rewrite app_nil_r. Qed.

Lemma extending_add_comments (n : nat) : extending_run (add_comments n).
Proof. intros s. exists []. cbn. now rewrite app_nil_r. Qed.

Lemma extending_write_issue (issue : JiraIssue) :
  extending_run (write_issue issue).
Proof. intros s. exists []. cbn. now rewrite app_nil_r. Qed.

Lemma extending_on_checkpoint {A : Type} (c : M CheckpointManager A) :
  extending_run (on_checkpoint c).
Proof.
  intros s. unfold on_checkpoint.
  destruct (c (checkpoint_manager s)) as [r m].
  exists []. cbn. now rewrite app_nil_r.
Qed.

Lemma extending_search_issues (jira : api) (start_at : pyval) :
  extending_run (search_issues jira start_at).
Proof. intros s. exists [start_at]. reflexivity. Qed.

Lemma extending_note (e : effect) : extending_run (note e).
Proof. intros s. exists []. cbn. now rewrite app_nil_r. Qed.

Ltac extending :=
  repeat first
    [ apply extending_ret | apply extending_lift | apply extending_add_error
    | apply extending_add_comments | apply extending_write_issue
    | apply extending_on_checkpoint | apply extending_search_issues
    | apply extending_note
    | apply extending_try_except; [|intros ?]
    | apply extending_bind; [|intros ?] ].

Lemma extending_fetch_comments (jira : api) (keys : list pyval) :
  forall cm, extending_run (fetch_comments jira keys cm).
Proof.
  induction keys as [|key keys IH]; intros cm; cbn [fetch_comments].
  - extending.
  - apply extending_bind; [unfold collect; extending | intros cm'; apply IH].
Qed.

Lemma extending_process_page (cm : comments_map) (items : list pyval) :
  extending_run (forM_ items (process_issue cm)).
Proof.
  induction items as [|issue items IH]; cbn [forM_].
  - extending.
  - apply extending_bind; [unfold process_issue; extending | intros _; exact IH].
Qed.

(** After the search, the rest of a turn of the loop makes no search of
    its own: the turn adds its [start_at], and nothing before it. *)
Lemma scrape_page_searches (jira : api) (project : string)
      (start_at : pyval) (s : JiraScraper) :
  exists added,
    searches (snd (scrape_page jira project start_at s))
    = (searches s ++ start_at :: added)%list.
Proof.
  unfold scrape_page. unfold bindM at 1. unfold search_issues at 1.
  match goal with |- context [snd (?k ?s1)] =>
    assert (Hk : extending_run k)
  end.
  { destruct (negb (truthy _)); [extending|].
    apply extending_bind; [extending|]. intros issues.
    apply extending_bind; [extending|]. intros total.
    destruct (negb (truthy issues)); [extending|].
    apply extending_bind; [extending|]. intros items.
    apply extending_bind; [extending|]. intros issue_keys.
    apply extending_bind; [apply extending_fetch_comments|]. intros cm.
    apply extending_bind; [apply extending_process_page|]. intros _.
    apply extending_bind; [extending|]. intros n.
    apply extending_bind; [extending|]. intros start_at'.
    apply extending_bind; [extending|]. intros _.
    apply extending_bind; [extending|]. intros _.
    apply extending_bind; [extending|]. intros stop.
    destruct stop; extending. }
  match goal with |- context [snd (?k ?s1)] =>
    destruct (Hk s1) as [added Hadded]
  end.
  exists added. rewrite Hadded. cbn [searches].
  rewrite <- app_assoc. reflexivity.
Qed.

Lemma extending_pagination (jira : api) (project : string) (fuel : nat) :
  forall start_at, extending_run (pagination jira project fuel start_at).
Proof.
  induction fuel as [|fuel IH]; intros start_at; cbn [pagination].
  - extending.
  - apply extending_bind.
    + intros s. destruct (scrape_page_searches jira project start_at s)
        as [added H].
      exists (start_at :: added). exact H.
    + intros [|start_at']; [extending | apply IH].
Qed.

(** The first search of the loop is made at the offset it starts from. *)
Lemma pagination_first_search (jira : api) (project : string) (fuel : nat)
      (start_at : pyval) (s : JiraScraper) :
  searches s = [] ->
  hd_error (searches (snd (pagination jira project (S fuel) start_at s)))
  = Some start_at.
Proof.
  intros Hs. cbn [pagination]. unfold bindM.
  destruct (scrape_page_searches jira project start_at s) as [added H].
  destruct (scrape_page jira project start_at s) as [[step|e] s1];
    cbn [snd] in *.
  - assert (Hk : extends s1
                   (snd (match step with
                         | Break => ret Completed
                         | Continue start_at' =>
                             pagination jira project fuel start_at'
                         end s1))).
    { destruct step; [apply extends_refl | apply extending_pagination]. }
    destruct Hk as [more Hmore]. rewrite Hmore, H, Hs. reflexivity.
  - rewrite H, Hs. reflexivity.
Qed.

(** Leaving the block of the output file changes nothing but the
    journal. *)
Lemma with_output_file_eq (block : M JiraScraper outcome) (s : JiraScraper) :
  exists s',
    with_output_file block s = (fst (block s), s')
    /\ checkpoint_manager s' = checkpoint_manager (snd (block s))
    /\ output s' = output (snd (block s))
    /\ searches s' = searches (snd (block s))
    /\ total_issues s' = total_issues (snd (block s))
    /\ total_comments s' = total_comments (snd (block s))
    /\ errors s' = errors (snd (block s)).
Proof.
  unfold with_output_file.
  destruct (block s) as [[[|]|e] s1]; eexists; repeat split.
Qed.

Lemma with_output_file_completed (block : M JiraScraper outcome)
      (s s' : JiraScraper) :
  block s = (Ok Completed, s') ->
  with_output_file block s = (Ok Completed, snd (note Closed s')).
Proof. intros H. unfold with_output_file. rewrite H. reflexivity. Qed.

(** C5. For a project whose checkpoint file holds the offset [n], the
    first [search_issues] of [scrape_project] is made at [n], whatever the
    API answers; while a page has items and leaves the offset short of its
    total, the next search is made at the offset advanced by the length of
    the page; and on the first reply that has no items, or whose page
    brings the offset to its total or beyond, the loop ends:
    [scrape_project] returns after exactly these searches. *)
Theorem pagination_resumes_and_stops
        (jira : api) (project : string) (f : file) (m : CheckpointManager)
        (n : Z)
        (Hload : new_CheckpointManager f = Ok m)
        (Hsaved : persisted f project = Some (PInt n)) :
  (forall fuel,
      hd_error (searches (snd (scrape_project jira project (S fuel)
                                              (new_JiraScraper m))))
      = Some (PInt n))
  /\
  (forall (pages : list (list pyval * Z)) (fuel : nat),
      continuing jira 0 n pages ->
      last_page (search_reply jira (List.length pages))
                (final_offset n pages) ->
      List.length pages < fuel ->
      exists s',
        scrape_project jira project fuel (new_JiraScraper m)
        = (Ok Completed, s')
        /\ searches s' = map PInt (offsets n pages)
        /\ List.length (searches s') = S (List.length pages)).
Proof.
  destruct f as [|v| |]; try discriminate.
  cbn in Hload. injection Hload as <-.
  cbn [persisted] in Hsaved.
  destruct v as [| | | | |d]; try discriminate.
  destruct (Dict.get d "projects") as [p|] eqn:Hps; try discriminate.
  destruct p as [| | | | |ps]; try discriminate.
  unfold scrape_project.
  assert (Hprog :
            on_checkpoint (get_project_progress project)
              (new_JiraScraper
                 (mkCheckpointManager (PDict d) (Stored (PDict d))))
            = (Ok (PInt n),
               new_JiraScraper
                 (mkCheckpointManager (PDict d) (Stored (PDict d))))).
  { unfold on_checkpoint, new_JiraScraper. cbn [checkpoint_manager].
    rewrite (progress_well_formed
               (mkCheckpointManager (PDict d) (Stored (PDict d)))
               project d ps eq_refl Hps).
    unfold Dict.get_default. rewrite Hsaved. reflexivity. }
  split.
  - intros fuel. rewrite (bindM_ok _ _ _ _ _ Hprog).
    match goal with |- context [with_output_file ?b ?s0] =>
      destruct (with_output_file_eq b s0) as [s' [Hw [_ [_ [Hs _]]]]]
    end.
    rewrite Hw. cbn [snd]. rewrite Hs.
    apply pagination_first_search. reflexivity.
  - intros pages fuel Hpages Hlast Hfuel.
    rewrite (bindM_ok _ _ _ _ _ Hprog).
    destruct (pagination_runs jira project pages fuel
                (new_JiraScraper
                   (mkCheckpointManager (PDict d) (Stored (PDict d)))) n)
      as [s' [Hrun Hs]]; try assumption.
    { cbn. rewrite Hps. reflexivity. }
    rewrite (with_output_file_completed _ _ _ Hrun).
    eexists. split; [reflexivity|].
    cbn [note modify snd searches].
    cbn [new_JiraScraper searches app] in Hs. rewrite Hs.
    destruct (offsets_head n pages) as [_ Hlen].
    split; [reflexivity | now rewrite length_map].
Qed.

Lemma pagination_resumes_and_stops_witness :
  exists s',
    scrape_project
      (scripted_api
         [page_of [PDict [("key", PStr "KAFKA-3"); ("fields", PDict [])];
                   PDict [("key", PStr "KAFKA-4"); ("fields", PDict [])]] 10;
          page_of [] 10])
      "KAFKA" 5
      (new_JiraScraper
         (mkCheckpointManager
            (PDict [("projects", PDict [("KAFKA", PInt 2)])])
            (Stored (PDict [("projects", PDict [("KAFKA", PInt 2)])]))))
    = (Ok Completed, s')
    /\ searches s' = [PInt 2; PInt 4].
Proof.
  destruct (pagination_resumes_and_stops
              (scripted_api
                 [page_of [PDict [("key", PStr "KAFKA-3"); ("fields", PDict [])];
                           PDict [("key", PStr "KAFKA-4"); ("fields", PDict [])]]
                          10;
                  page_of [] 10])
              "KAFKA"
              (Stored (PDict [("projects", PDict [("KAFKA", PInt 2)])]))
              (mkCheckpointManager
                 (PDict [("projects", PDict [("KAFKA", PInt 2)])])
                 (Stored (PDict [("projects", PDict [("KAFKA", PInt 2)])])))
              2 eq_refl eq_refl) as [_ H].
  destruct (H [([PDict [("key", PStr "KAFKA-3"); ("fields", PDict [])];
                 PDict [("key", PStr "KAFKA-4"); ("fields", PDict [])]],
                10%Z)] 5)
    as [s' [Hrun [Hs _]]].
  - cbn [continuing]. split.
    + eexists. split; [reflexivity|]. split; reflexivity.
    + split; [discriminate|]. split; [reflexivity|]. split; [|exact I].
      cbn. lia.
  - left. eexists. split; [reflexivity|]. split; reflexivity.
  - cbn. lia.
  - exists s'. split; [exact Hrun | exact Hs].
Defined.

Example resume_after_failed_search :
  searches (snd (scrape_project (scripted_api []) "KAFKA" 5
                   (new_JiraScraper
                      (mkCheckpointManager
                         (PDict [("projects", PDict [("KAFKA", PInt 2)])])
                         Missing))))
  = [PInt 2].
Proof. reflexivity. Qed.

Lemma records_of_all (cm : comments_map) (items : list pyval) :
  Forall (fun issue => record_of cm issue <> None) items ->
  List.length (records_of cm items) = List.length items.
Proof.
  induction 1 as [|issue items Hi _ IH]; cbn [records_of]; [reflexivity|].
  destruct (record_of cm issue); [|congruence].
  cbn [List.length]. now rewrite IH.
Qed.

Lemma records_of_none_skipped (cm : comments_map) (items : list pyval) :
  List.length (records_of cm items) = List.length items ->
  Forall (fun issue => record_of cm issue <> None) items.
Proof.
  induction items as [|issue items IH]; cbn [records_of]; intros H.
  - constructor.
  - destruct (record_of cm issue) as [r|] eqn:E.
    + constructor; [congruence|]. apply IH. cbn [List.length] in H. lia.
    + pose proof (records_of_length cm items). cbn [List.length] in H. lia.
Qed.

Lemma pending_app (j1 j2 : list effect) :
  forall held, pending (j1 ++ j2) held = pending j2 (pending j1 held).
Proof.
  induction j1 as [|[issue|p v|] j1 IH]; intros held; cbn [app pending];
    [reflexivity | apply IH ..].
Qed.

Lemma pending_written (rs : list JiraIssue) :
  forall held, pending (map Written rs) held = (held ++ rs)%list.
Proof.
  induction rs as [|r rs IH]; intros held; cbn [map pending].
  - now rewrite app_nil_r.
  - rewrite IH, <- app_assoc. reflexivity.
Qed.

(** C1, as the code has it.  On a page whose items can be processed, one
    turn of the loop of [scrape_project] first hands to [f.write] the
    records of the items whose processing does not raise, in the order of
    the page, and only then persists the offset advanced by the length of
    the page, [len(issues)]: in this order these are all the turn does to
    the files.  The output file is neither flushed nor closed by the code
    before the checkpoint is saved: the lines of the page are still among
    the pending ones at the end of the turn.  The skipped items count in
    the offset too: the advance is the number of records written if and
    only if no item of the page is skipped. *)
Theorem checkpoint_advances_by_page_length
        (jira : api) (project : string) (s : JiraScraper) (n : Z)
        (items : list pyval) (total : Z)
        (Hwf : well_formed (state (checkpoint_manager s)) = true)
        (Hpage : is_page (search_reply jira (List.length (searches s)))
                         items total)
        (Hitems : items <> [])
        (Hok : page_ok items = true) :
  let cm := comments_for jira (map key_of items) [] in
  let n' := (n + Z.of_nat (List.length items))%Z in
  exists step s',
    scrape_page jira project (PInt n) s = (Ok step, s')
    /\ journal s'
       = (journal s ++ map Written (records_of cm items)
                    ++ [Saved project (PInt n')])%list
    /\ pending (journal s') []
       = (pending (journal s) [] ++ records_of cm items)%list
    /\ persisted (checkpoint_file (checkpoint_manager s')) project
       = Some (PInt n')
    /\ fst (get_project_progress project (checkpoint_manager s'))
       = Ok (PInt n')
    /\ output s' = (output s ++ records_of cm items)%list
    /\ List.length (records_of cm items) <= List.length items
    /\ (List.length (records_of cm items) = List.length items
        <-> Forall (fun issue => record_of cm issue <> None) items).
Proof.
  intros cm n'.
  destruct (scrape_page_good jira project s n items total Hwf Hpage Hitems Hok)
    as [s' [Hrun [_ [Hout [_ [_ [Hwf' [Hfile [Hsaved Hjournal]]]]]]]]].
  do 2 eexists. split; [exact Hrun|]. split; [exact Hjournal|].
  split.
  { rewrite Hjournal, !pending_app, pending_written. reflexivity. }
  split; [exact Hsaved|]. split.
  { destruct (well_formed_inv _ Hwf') as [d [ps [Hst Hps]]].
    rewrite (progress_well_formed _ project d ps Hst Hps). cbn [fst].
    rewrite Hfile, Hst in Hsaved. cbn [persisted] in Hsaved.
    rewrite Hps in Hsaved. unfold Dict.get_default. rewrite Hsaved.
    reflexivity. }
  split; [exact Hout|]. split; [apply records_of_length|].
  split; [apply records_of_none_skipped | apply records_of_all].
Qed.

Lemma checkpoint_advances_by_page_length_witness :
  exists step s',
    scrape_page
      (scripted_api
         [page_of [PDict [("key", PStr "KAFKA-1"); ("fields", PDict [])];
                   PDict [("key", PStr "KAFKA-2"); ("fields", PNone)]] 2])
      "KAFKA" (PInt 0)
      (new_JiraScraper (mkCheckpointManager empty_checkpoint Missing))
    = (Ok step, s')
    /\ journal s'
       = [Written
            (mkJiraIssue (PStr "KAFKA-1") "KAFKA" (PStr "No Title")
               (PStr "No Description") (PStr "Unknown") (PStr "Unknown")
               (PStr "Unknown") (PStr "Unknown") PNone (PStr EmptyString)
               (PStr EmptyString) PNone (PList []) [] [] general);
          Saved "KAFKA" (PInt 2)]
    /\ persisted (checkpoint_file (checkpoint_manager s')) "KAFKA"
       = Some (PInt 2).
Proof.
  destruct (checkpoint_advances_by_page_length
              (scripted_api
                 [page_of [PDict [("key", PStr "KAFKA-1"); ("fields", PDict [])];
                           PDict [("key", PStr "KAFKA-2"); ("fields", PNone)]]
                          2])
              "KAFKA"
              (new_JiraScraper (mkCheckpointManager empty_checkpoint Missing))
              0
              [PDict [("key", PStr "KAFKA-1"); ("fields", PDict [])];
               PDict [("key", PStr "KAFKA-2"); ("fields", PNone)]]
              2)
    as [step [s' [Hrun [Hjournal [_ [Hsaved _]]]]]].
  - reflexivity.
  - eexists. split; [reflexivity|]. split; reflexivity.
  - discriminate.
  - reflexivity.
  - exists step, s'. split; [exact Hrun|]. split; [|exact Hsaved].
    rewrite Hjournal. vm_compute. reflexivity.
Defined.

(** C1, as the specification has it, fails: on a page of one item whose
    processing raises (its ['fields'] is [null]), nothing is written, one
    error is counted, and the persisted offset goes from 0 to 1. *)
Lemma checkpoint_counts_skipped_record :
  let run :=
    scrape_project
      (scripted_api
         [page_of [PDict [("key", PStr "KAFKA-1"); ("fields", PNone)]] 1])
      "KAFKA" 3
      (new_JiraScraper (mkCheckpointManager empty_checkpoint Missing)) in
  fst run = Ok Completed
  /\ output (snd run) = []
  /\ total_issues (snd run) = 0
  /\ errors (snd run) = 1
  /\ persisted (checkpoint_file (checkpoint_manager (snd run))) "KAFKA"
     = Some (PInt 1).
Proof. vm_compute. repeat split. Qed.

(** Two pages of one item: each offset is saved after the line of its
    page was handed to the file, and the file is closed, and so flushed,
    only at the end, after both. *)
Example journal_of_two_pages :
  let run :=
    scrape_project
      (scripted_api
         [page_of [PDict [("key", PStr "KAFKA-1"); ("fields", PDict [])]] 2;
          page_of [PDict [("key", PStr "KAFKA-2"); ("fields", PDict [])]] 2])
      "KAFKA" 3
      (new_JiraScraper (mkCheckpointManager empty_checkpoint Missing)) in
  fst run = Ok Completed
  /\ exists r1 r2,
       journal (snd run)
       = [Written r1; Saved "KAFKA" (PInt 1);
          Written r2; Saved "KAFKA" (PInt 2); Closed]
       /\ issue_id r1 = PStr "KAFKA-1" /\ issue_id r2 = PStr "KAFKA-2".
Proof.
  vm_compute. split; [reflexivity|]. do 2 eexists.
  split; [reflexivity|]. split; reflexivity.
Qed.

(** The run of the specification: two items, a total of 2, no comments. *)
Example end_to_end_two_items :
  let run :=
    scrape_project
      (scripted_api
         [page_of [PDict [("key", PStr "TEST-1"); ("fields", PDict [])];
                   PDict [("key", PStr "TEST-2"); ("fields", PDict [])]] 2])
      "TEST" 3
      (new_JiraScraper (mkCheckpointManager empty_checkpoint Missing)) in
  fst run = Ok Completed
  /\ List.length (output (snd run)) = 2
  /\ searches (snd run) = [PInt 0]
  /\ persisted (checkpoint_file (checkpoint_manager (snd run))) "TEST"
     = Some (PInt 2).
Proof. vm_compute. repeat split. Qed.

(* ===================================================================== *)
(** * More of the code                                                     *)
(* ===================================================================== *)

(** ** JiraAPIClient: the other replies *)

Lemma at_most_ret {A : Type} (a : A) : at_most 0 (ret a).
Proof. intros c. cbn. lia. Qed.

Lemma at_most_lift {A : Type} (r : res A) : at_most 0 (lift r).
Proof. intros c. cbn. lia. Qed.

Lemma at_most_weaken {A : Type} (n n' : nat) (m : M JiraAPIClient A) :
  n <= n' -> at_most n m -> at_most n' m.
Proof. intros Hn Hm c. specialize (Hm c). lia. Qed.

Lemma at_most_bind {A B : Type} (n1 n2 : nat)
      (m : M JiraAPIClient A) (k : A -> M JiraAPIClient B) :
  at_most n1 m -> (forall a, at_most n2 (k a)) ->
  at_most (n1 + n2) (bindM m k).
Proof.
  intros Hm Hk c. unfold bindM. specialize (Hm c).
  destruct (m c) as [[a|e] c1]; cbn [snd] in *.
  - specialize (Hk a c1). lia.
  - lia.
Qed.

Lemma at_most_time_sleep (why : sleep_reason) (d : Q) :
  at_most 0 (time_sleep why d).
Proof.
  intros c. unfold time_sleep. destruct (Qltb d 0); cbn; lia.
Qed.

Lemma at_most_sleep_retry_after (d : Z) : at_most 0 (sleep_retry_after d).
Proof.
  intros c. unfold sleep_retry_after.
  destruct (sleep_limit <? Z.abs d)%Z; [cbn; lia | apply at_most_time_sleep].
Qed.

Lemma at_most_session_get (srv : server) : at_most 1 (session_get srv).
Proof.
  intros c. unfold session_get. destruct (srv (requests c)). cbn. lia.
Qed.

Lemma at_most_rate_limit : at_most 0 _rate_limit.
Proof. intros c. rewrite rate_limit_eq. cbn. lia. Qed.

Lemma at_most_retry_loop (srv : server) (max_retries : Z) (remaining : nat) :
  forall attempt,
    at_most remaining (retry_loop srv max_retries remaining attempt).
Proof.
  induction remaining as [|remaining IH]; intros attempt; cbn [retry_loop].
  - apply at_most_ret.
  - change (S remaining) with (1 + remaining).
    apply at_most_bind; [apply at_most_session_get|].
    assert (Hsleep : forall why d,
               at_most remaining
                 (_ <~ time_sleep why d ;;
                  retry_loop srv max_retries remaining (S attempt))).
    { intros why d. change remaining with (0 + remaining) at 1.
      apply at_most_bind; [apply at_most_time_sleep | intros _; apply IH]. }
    assert (Hnone : at_most remaining (@ret JiraAPIClient pyval PNone))
      by (apply (at_most_weaken 0); [lia | apply at_most_ret]).
    intros [status_code h json| |].
    + destruct (status_code =? 429)%Z.
      { change remaining with (0 + remaining) at 1.
        apply at_most_bind; [apply at_most_lift | intros d].
        change remaining with (0 + remaining) at 1.
        apply at_most_bind;
          [apply at_most_sleep_retry_after | intros _; apply IH]. }
      destruct (status_code >=? 500)%Z; [apply Hsleep|].
      destruct (status_code =? 200)%Z; [|exact Hnone].
      apply (at_most_weaken 0); [lia | apply at_most_ret].
    + apply Hsleep.
    + destruct (Z.of_nat attempt =? max_retries - 1)%Z;
        [exact Hnone | apply Hsleep].
Qed.

(** X1. Whatever the server replies, one call of [_make_request] sends at
    most [max_retries] requests, and none when [max_retries] is zero or
    negative, in which case it returns [None] after the rate limit. *)
Theorem make_request_sends_at_most_max_retries
        (srv : server) (max_retries : Z) (c : JiraAPIClient) :
  requests c <= requests (snd (_make_request srv max_retries c))
  /\ requests (snd (_make_request srv max_retries c))
     <= requests c + Z.to_nat max_retries
  /\ ((max_retries <= 0)%Z ->
      fst (_make_request srv max_retries c) = Ok PNone
      /\ requests (snd (_make_request srv max_retries c)) = requests c).
Proof.
  rewrite make_request_eq.
  set (c1 := mkJiraAPIClient _ _ _ _ _).
  destruct (at_most_retry_loop srv max_retries (Z.to_nat max_retries) 0 c1)
    as [Hlo Hhi].
  change (requests c1) with (requests c) in *.
  split; [exact Hlo|]. split; [exact Hhi|].
  intros Hneg. replace (Z.to_nat max_retries) with 0 by lia.
  split; reflexivity.
Qed.

Lemma make_request_sends_at_most_max_retries_witness :
  fst (_make_request (scripted [] Timeout) 0 (fresh_client 1 100)) = Ok PNone
  /\ requests (snd (_make_request (scripted [] Timeout) 0
                                  (fresh_client 1 100))) = 0.
Proof.
  destruct (make_request_sends_at_most_max_retries
              (scripted [] Timeout) 0 (fresh_client 1 100)) as [_ [_ H]].
  apply H. lia.
Defined.

(** X2. A reply with a status below 500 other than 200 and 429 ends the
    call at once: [_make_request] returns [None] after that one request,
    with no sleep but the one of the rate limit. *)
Theorem client_error_fails_at_once
        (srv : server) (max_retries : Z) (c : JiraAPIClient)
        (Hsome : (0 < max_retries)%Z)
        (Hclient : is_client_error (snd (srv (requests c))) = true) :
  exists c',
    _make_request srv max_retries c = (Ok PNone, c')
    /\ requests c' = S (requests c)
    /\ trace c' = (trace c ++ rate_limit_events c ++ [Get (requests c)])%list.
Proof.
  rewrite make_request_eq.
  destruct (Z.to_nat max_retries) as [|remaining] eqn:Hn; [lia|].
  cbn [retry_loop]. unfold bindM.
  destruct (srv (requests c)) as [latency r] eqn:Es. cbn [snd] in Hclient.
  destruct r as [st h b| |]; try discriminate.
  cbn [is_client_error] in Hclient.
  apply andb_true_iff in Hclient as [Hc H200].
  apply andb_true_iff in Hc as [H429 H500].
  apply negb_true_iff in H429, H200. apply Z.ltb_lt in H500.
  erewrite session_get_eq by (cbn [requests]; exact Es).
  cbv beta iota. rewrite H429.
  replace (st >=? 500)%Z with false
    by (symmetry; rewrite Z.geb_leb; apply Z.leb_gt; lia).
  rewrite H200.
  eexists. split; [reflexivity|]. cbn. rewrite <- app_assoc.
  split; reflexivity.
Qed.

Lemma client_error_fails_at_once_witness :
  exists c',
    _make_request (scripted [] (Response 404 HeaderAbsent PNone)) 5
                  (fresh_client 1 100) = (Ok PNone, c')
    /\ requests c' = 1.
Proof.
  destruct (client_error_fails_at_once
              (scripted [] (Response 404 HeaderAbsent PNone)) 5
              (fresh_client 1 100)) as [c' [Hrun [Hn _]]].
  - lia.
  - reflexivity.
  - exists c'. split; [exact Hrun | exact Hn].
Defined.

Lemma retry_step_backed_off
      (srv : server) (max_retries : Z) (remaining attempt : nat)
      (c : JiraAPIClient) :
  is_backed_off (snd (srv (requests c))) = true ->
  retry_loop srv max_retries (S remaining) attempt c
  = retry_loop srv max_retries remaining (S attempt)
      (after_sleep ForBackoff (backoff attempt)
                   (after_get (fst (srv (requests c))) c)).
Proof.
  intros H. destruct (snd (srv (requests c))) eqn:Er.
  - apply retry_step_server_error. rewrite Er. exact H.
  - destruct (srv (requests c)) as [latency r] eqn:Es. cbn [fst snd] in *.
    subst r. cbn [retry_loop]. unfold bindM at 1.
    rewrite (session_get_eq srv c latency _ Es).
    unfold bindM at 1. rewrite time_sleep_eq by apply backoff_nonneg.
    reflexivity.
  - discriminate.
Qed.

Lemma retry_loop_backed_off_only (srv : server) (max_retries : Z) :
  forall (remaining attempt : nat) (c : JiraAPIClient),
    (forall i, i < remaining ->
               is_backed_off (snd (srv (requests c + i))) = true) ->
    exists c' added,
      retry_loop srv max_retries remaining attempt c = (Ok PNone, c')
      /\ requests c' = requests c + remaining
      /\ trace c' = (trace c ++ added)%list
      /\ backoff_delays added = map backoff (seq attempt remaining)
      /\ count_gets added = remaining.
Proof.
  induction remaining as [|remaining IH]; intros attempt c Hall.
  - exists c, []. cbn. rewrite app_nil_r, Nat.add_0_r. repeat split.
  - rewrite retry_step_backed_off
      by (rewrite <- (Nat.add_0_r (requests c)); apply Hall; lia).
    set (c1 := after_sleep ForBackoff (backoff attempt)
                           (after_get (fst (srv (requests c))) c)).
    destruct (IH (S attempt) c1) as [c' [added [Hrun [Hn [Htr [Hb Hg]]]]]].
    { intros i Hi. replace (requests c1 + i) with (requests c + S i)
        by (subst c1; cbn; lia).
      apply Hall. lia. }
    exists c', ([Get (requests c); Sleep ForBackoff (backoff attempt)]
                  ++ added)%list.
    split; [exact Hrun|]. split.
    { rewrite Hn. subst c1. cbn. lia. }
    split.
    { rewrite Htr. subst c1. cbn [after_sleep after_get trace].
      rewrite <- !app_assoc. reflexivity. }
    rewrite backoff_delays_app, count_gets_app, Hb, Hg. repeat split.
Qed.

(** X3. When every attempt ends in a timeout or a server error, in any
    mix, [_make_request] returns [None] after exactly [max_retries]
    requests and [max_retries] back-off sleeps of 2^0, ..., 2^(max_retries-1):
    it sleeps after the last attempt too, before it gives up. *)
Theorem timeouts_use_every_attempt
        (srv : server) (max_retries : Z) (c : JiraAPIClient)
        (Hall : forall i, i < Z.to_nat max_retries ->
                          is_backed_off (snd (srv (requests c + i))) = true) :
  exists c' added,
    _make_request srv max_retries c = (Ok PNone, c')
    /\ requests c' = requests c + Z.to_nat max_retries
    /\ trace c' = (trace c ++ added)%list
    /\ count_gets added = Z.to_nat max_retries
    /\ backoff_delays added
       = map (fun i => inject_Z (2 ^ Z.of_nat i))
             (seq 0 (Z.to_nat max_retries)).
Proof.
  destruct (rate_limit_events_plain c) as [Hb0 [_ [Hg0 _]]].
  rewrite make_request_eq.
  set (c1 := mkJiraAPIClient _ _ _ _ _).
  destruct (retry_loop_backed_off_only srv max_retries
              (Z.to_nat max_retries) 0 c1 Hall)
    as [c' [added [Hrun [Hn [Htr [Hb Hg]]]]]].
  exists c', (rate_limit_events c ++ added)%list.
  split; [exact Hrun|]. split; [exact Hn|]. split.
  { rewrite Htr. cbn [trace c1]. rewrite app_assoc. reflexivity. }
  rewrite count_gets_app, backoff_delays_app, Hg0, Hb0, Hg, Hb.
  split; reflexivity.
Qed.

Lemma timeouts_use_every_attempt_witness :
  exists c' added,
    _make_request (scripted [Timeout] (Response 503 HeaderAbsent PNone)) 3
                  (fresh_client 1 100) = (Ok PNone, c')
    /\ trace c' = added
    /\ backoff_delays added = [inject_Z 1; inject_Z 2; inject_Z 4].
Proof.
  destruct (timeouts_use_every_attempt
              (scripted [Timeout] (Response 503 HeaderAbsent PNone)) 3
              (fresh_client 1 100))
    as [c' [added [Hrun [_ [Htr [_ Hb]]]]]].
  - intros i Hi. destruct i as [|[|[|i]]]; reflexivity.
  - exists c', added. repeat split; assumption.
Defined.

Lemma retry_loop_transport_errors (srv : server) (max_retries : Z) :
  forall (remaining attempt : nat) (c : JiraAPIClient),
    (Z.of_nat attempt + Z.of_nat remaining = max_retries)%Z ->
    (forall i, i < remaining ->
               snd (srv (requests c + i)) = RequestException) ->
    exists c' added,
      retry_loop srv max_retries remaining attempt c = (Ok PNone, c')
      /\ requests c' = requests c + remaining
      /\ trace c' = (trace c ++ added)%list
      /\ backoff_delays added = map backoff (seq attempt (remaining - 1))
      /\ count_gets added = remaining.
Proof.
  induction remaining as [|remaining IH]; intros attempt c Hsum Hall.
  - exists c, []. cbn. rewrite app_nil_r, Nat.add_0_r. repeat split.
  - assert (H0 : snd (srv (requests c)) = RequestException)
      by (rewrite <- (Nat.add_0_r (requests c)); apply Hall; lia).
    destruct (srv (requests c)) as [latency r] eqn:Es. cbn [snd] in H0.
    subst r. cbn [retry_loop]. unfold bindM at 1.
    rewrite (session_get_eq srv c latency _ Es).
    destruct remaining as [|remaining].
    + replace (Z.of_nat attempt =? max_retries - 1)%Z with true
        by (symmetry; apply Z.eqb_eq; lia).
      exists (after_get latency c), [Get (requests c)].
      cbn. repeat split. lia.
    + replace (Z.of_nat attempt =? max_retries - 1)%Z with false
        by (symmetry; apply Z.eqb_neq; lia).
      unfold bindM at 1. rewrite time_sleep_eq by apply backoff_nonneg.
      set (c1 := after_sleep ForBackoff (backoff attempt)
                             (after_get latency c)).
      destruct (IH (S attempt) c1) as [c' [added [Hrun [Hn [Htr [Hb Hg]]]]]].
      { lia. }
      { intros i Hi. replace (requests c1 + i) with (requests c + S i)
          by (subst c1; cbn; lia).
        apply Hall. lia. }
      exists c', ([Get (requests c); Sleep ForBackoff (backoff attempt)]
                    ++ added)%list.
      split; [exact Hrun|]. split.
      { rewrite Hn. subst c1. cbn. lia. }
      split.
      { rewrite Htr. subst c1. cbn [after_sleep after_get trace].
        rewrite <- !app_assoc. reflexivity. }
      rewrite backoff_delays_app, count_gets_app, Hb, Hg.
      cbn [Nat.sub] in *. rewrite Nat.sub_0_r in *. repeat split.
Qed.

(** X4. When every attempt ends in a transport error that is not a
    timeout, [_make_request] returns [None] after exactly [max_retries]
    requests but only [max_retries - 1] back-off sleeps: on the last attempt
    it returns without sleeping. *)
Theorem transport_errors_skip_the_last_sleep
        (srv : server) (max_retries : Z) (c : JiraAPIClient)
        (Hall : forall i, i < Z.to_nat max_retries ->
                          snd (srv (requests c + i)) = RequestException) :
  exists c' added,
    _make_request srv max_retries c = (Ok PNone, c')
    /\ requests c' = requests c + Z.to_nat max_retries
    /\ trace c' = (trace c ++ added)%list
    /\ count_gets added = Z.to_nat max_retries
    /\ backoff_delays added
       = map (fun i => inject_Z (2 ^ Z.of_nat i))
             (seq 0 (Z.to_nat max_retries - 1)).
Proof.
  destruct (rate_limit_events_plain c) as [Hb0 [_ [Hg0 _]]].
  rewrite make_request_eq.
  destruct (Z_le_gt_dec max_retries 0) as [Hle|Hgt].
  - replace (Z.to_nat max_retries) with 0 by lia.
    cbn [retry_loop]. eexists. exists (rate_limit_events c).
    split; [reflexivity|]. cbn. rewrite Nat.add_0_r, Hg0, Hb0.
    repeat split.
  - set (c1 := mkJiraAPIClient _ _ _ _ _).
    destruct (retry_loop_transport_errors srv max_retries
                (Z.to_nat max_retries) 0 c1 ltac:(lia) Hall)
      as [c' [added [Hrun [Hn [Htr [Hb Hg]]]]]].
    exists c', (rate_limit_events c ++ added)%list.
    split; [exact Hrun|]. split; [exact Hn|]. split.
    { rewrite Htr. cbn [trace c1]. rewrite app_assoc. reflexivity. }
    rewrite count_gets_app, backoff_delays_app, Hg0, Hb0, Hg, Hb.
    split; reflexivity.
Qed.

Lemma transport_errors_skip_the_last_sleep_witness :
  exists c' added,
    _make_request (scripted [] RequestException) 3 (fresh_client 1 100)
    = (Ok PNone, c')
    /\ trace c' = added
    /\ count_gets added = 3
    /\ backoff_delays added = [inject_Z 1; inject_Z 2].
Proof.
  destruct (transport_errors_skip_the_last_sleep
              (scripted [] RequestException) 3 (fresh_client 1 100))
    as [c' [added [Hrun [_ [Htr [Hg Hb]]]]]].
  - intros i Hi. destruct i as [|[|[|i]]]; reflexivity.
  - exists c', added. repeat split; assumption.
Defined.

Lemma retry_loop_raises (srv : server) (max_retries : Z) (remaining : nat) :
  forall attempt,
    only_retry_after_errors srv
      (retry_loop srv max_retries remaining attempt).
Proof.
  induction remaining as [|remaining IH]; intros attempt c e.
  - discriminate.
  - destruct (retry_loop srv max_retries (S remaining) attempt c)
      as [r c'] eqn:Hrun.
    cbn [fst snd]. intros ->.
    assert (Hnext : forall c1 : JiraAPIClient,
               requests c1 = S (requests c) ->
               retry_loop srv max_retries remaining (S attempt) c1
               = (Raise e, c') ->
               exists n, requests c <= n < requests c' /\ refused srv n e).
    { intros c1 Hc1 Hloop. pose proof (IH (S attempt) c1 e) as H.
      rewrite Hloop in H. destruct (H eq_refl) as [n [Hn Href]].
      exists n. cbn [snd] in Hn. split; [lia | exact Href]. }
    cbn [retry_loop] in Hrun. unfold bindM at 1 in Hrun.
    destruct (srv (requests c)) as [latency r] eqn:Es.
    rewrite (session_get_eq srv c latency _ Es) in Hrun.
    assert (Hsleep :
              (_ <~ time_sleep ForBackoff (backoff attempt) ;;
               retry_loop srv max_retries remaining (S attempt))
                (after_get latency c) = (Raise e, c') ->
              exists n, requests c <= n < requests c' /\ refused srv n e).
    { unfold bindM at 1. rewrite time_sleep_eq by apply backoff_nonneg.
      apply Hnext. reflexivity. }
    destruct r as [st h b| |].
    + destruct (st =? 429)%Z eqn:Est.
      { apply Z.eqb_eq in Est. subst st.
        assert (Hhere : forall e0,
                   retry_after_error h = Some e0 ->
                   exists n,
                     requests c <= n < requests (after_get latency c)
                     /\ refused srv n e0).
        { intros e0 Hh. exists (requests c). split; [cbn; lia|].
          exists h, b. rewrite Es. split; [reflexivity | exact Hh]. }
        rewrite bindM_lift in Hrun.
        destruct h as [|z|]; cbn [int_retry_after retry_after_error] in *.
        - unfold bindM at 1 in Hrun.
          rewrite sleep_retry_after_eq in Hrun by (unfold sleep_limit; lia).
          apply (fun H => Hnext _ H Hrun); reflexivity.
        - unfold bindM at 1 in Hrun. unfold sleep_retry_after in Hrun.
          destruct (sleep_limit <? Z.abs z)%Z eqn:Elim.
          { cbn in Hrun. injection Hrun as <- <-. apply Hhere. reflexivity. }
          unfold time_sleep in Hrun.
          destruct (z <? 0)%Z eqn:Eneg.
          + replace (Qltb (inject_Z z) 0) with true in Hrun.
            * cbn in Hrun. injection Hrun as <- <-. apply Hhere. reflexivity.
            * symmetry. unfold Qltb. apply negb_true_iff.
              destruct (Qle_bool 0 (inject_Z z)) eqn:E; [|reflexivity].
              apply Qle_bool_iff in E. unfold Qle in E. simpl in E.
              apply Z.ltb_lt in Eneg. lia.
          + rewrite inject_Z_nonneg in Hrun
              by (apply Z.ltb_ge in Eneg; lia).
            apply (fun H => Hnext _ H Hrun); reflexivity.
        - injection Hrun as <- <-. apply Hhere. reflexivity. }
      destruct (st >=? 500)%Z; [apply Hsleep; exact Hrun|].
      destruct (st =? 200)%Z; discriminate.
    + apply Hsleep. exact Hrun.
    + destruct (Z.of_nat attempt =? max_retries - 1)%Z;
        [discriminate | apply Hsleep; exact Hrun].
Qed.

Lemma retry_loop_returns (srv : server) (max_retries : Z)
      (Hsrv : forall n, acceptable (snd (srv n)) = true) :
  forall (remaining attempt : nat) (c : JiraAPIClient),
    exists v, fst (retry_loop srv max_retries remaining attempt c) = Ok v.
Proof.
  induction remaining as [|remaining IH]; intros attempt c.
  - eexists. reflexivity.
  - destruct (is_rate_limited (snd (srv (requests c)))) eqn:Hrl.
    { rewrite retry_step_rate_limited by exact Hrl. apply IH. }
    destruct (is_backed_off (snd (srv (requests c)))) eqn:Hbo.
    { rewrite retry_step_backed_off by exact Hbo. apply IH. }
    specialize (Hsrv (requests c)).
    destruct (srv (requests c)) as [latency r] eqn:Es. cbn [snd] in *.
    cbn [retry_loop]. unfold bindM at 1.
    rewrite (session_get_eq srv c latency _ Es).
    destruct r as [st h b| |]; try discriminate.
    + cbn [acceptable] in Hsrv. rewrite Hrl, orb_false_r in Hsrv.
      apply negb_true_iff in Hsrv. rewrite Hsrv.
      cbn [is_backed_off is_server_error] in Hbo.
      replace (st >=? 500)%Z with false
        by (symmetry; rewrite Z.geb_leb; apply Z.leb_gt;
            apply Z.leb_gt in Hbo; lia).
      destruct (st =? 200)%Z; eexists; reflexivity.
    + destruct (Z.of_nat attempt =? max_retries - 1)%Z.
      * eexists; reflexivity.
      * unfold bindM at 1. rewrite time_sleep_eq by apply backoff_nonneg.
        apply IH.
Qed.

(** X5. With [max_retries] at most 34 (every back-off is then within what
    [time.sleep] takes), a rate-limit delay within it and a clock not
    behind [last_request_time], an exception that [_make_request] lets out
    is that of the [Retry-After] of a 429 it received: [ValueError] when
    the header is not an integer or is negative, [OverflowError] when it is
    beyond [sleep_limit]; and when no reply of the server is such a 429,
    the call returns.  The replies are those of [reply]: the body of a 200
    is JSON. *)
Theorem make_request_raises_only_on_retry_after
        (srv : server) (max_retries : Z) (c : JiraAPIClient)
        (Hretries : (max_retries <= 34)%Z)
        (Hdelay : (rate_limit_delay c <= inject_Z sleep_limit)%Q)
        (Hclock : (last_request_time c <= now c)%Q) :
  (forall e, fst (_make_request srv max_retries c) = Raise e ->
             (e = ValueError \/ e = OverflowError)
             /\ exists n, requests c <= n
                          < requests (snd (_make_request srv max_retries c))
                          /\ refused srv n e)
  /\ ((forall n, acceptable (snd (srv n)) = true) ->
      exists v, fst (_make_request srv max_retries c) = Ok v).
Proof.
  rewrite make_request_eq. split.
  - intros e Hraise.
    destruct (retry_loop_raises srv max_retries _ _ _ e Hraise)
      as [n [Hn Href]].
    split; [|exists n; split; [exact Hn | exact Href]].
    destruct Href as [h [body [_ Hh]]].
    destruct h as [|z|]; cbn [retry_after_error] in Hh.
    + discriminate.
    + destruct (sleep_limit <? Z.abs z)%Z;
        [|destruct (z <? 0)%Z; [|discriminate]];
        injection Hh as <-; auto.
    + injection Hh as <-. auto.
  - intros Hsrv. apply retry_loop_returns. exact Hsrv.
Qed.

Lemma make_request_raises_only_on_retry_after_witness :
  exists v,
    fst (_make_request (scripted [Timeout; Response 429 (HeaderInt 3) PNone]
                                 (Response 200 HeaderAbsent (PInt 7)))
                       5 (fresh_client 1 100)) = Ok v.
Proof.
  destruct (make_request_raises_only_on_retry_after
              (scripted [Timeout; Response 429 (HeaderInt 3) PNone]
                        (Response 200 HeaderAbsent (PInt 7)))
              5 (fresh_client 1 100)) as [_ H].
  - lia.
  - unfold Qle. cbn. lia.
  - unfold Qle. cbn. lia.
  - apply H. intros n. destruct n as [|[|[|n]]]; reflexivity.
Defined.

Example negative_retry_after_raises :
  fst (_make_request (scripted [] (Response 429 (HeaderInt (-1)) PNone)) 5
                     (fresh_client 1 100)) = Raise ValueError.
Proof. vm_compute. reflexivity. Qed.

Example huge_retry_after_raises :
  let run :=
    _make_request (scripted [] (Response 429 (HeaderInt 99999999999) PNone)) 5
                  (fresh_client 1 100) in
  fst run = Raise OverflowError /\ requests (snd run) = 1.
Proof. vm_compute. split; reflexivity. Qed.

(** ** JiraAPIClient: [get_issue_comments] *)

(** X7. [get_issue_comments] gives the empty list when the request failed
    or gave a falsy body, and when the body is a dictionary without
    ['comments']: a failure reads as an issue without comments. *)
Theorem no_comments_when_request_fails
        (srv : server) (issue_key : pyval) (c : JiraAPIClient) (data : pyval)
        (Hdata : fst (_make_request srv 5 c) = Ok data)
        (Hnone : truthy data = false
                 \/ exists d, data = PDict d
                              /\ Dict.get d "comments" = None) :
  Client.get_issue_comments srv issue_key c
  = (Ok [], snd (_make_request srv 5 c)).
Proof.
  unfold Client.get_issue_comments, bindM, lift.
  destruct (_make_request srv 5 c) as [r c1]. cbn [fst snd] in *. subst r.
  unfold Client.comments_of.
  destruct Hnone as [Hf | [d [-> Hd]]].
  - rewrite Hf. reflexivity.
  - destruct (truthy (PDict d)); [|reflexivity].
    cbn [negb py_contains bind]. rewrite Hd. reflexivity.
Qed.

Lemma no_comments_when_request_fails_witness :
  fst (Client.get_issue_comments
         (scripted [] (Response 404 HeaderAbsent PNone))
         (PStr "KAFKA-1") (fresh_client 1 100)) = Ok [].
Proof.
  rewrite (no_comments_when_request_fails
             (scripted [] (Response 404 HeaderAbsent PNone))
             (PStr "KAFKA-1") (fresh_client 1 100) PNone).
  - reflexivity.
  - reflexivity.
  - left. reflexivity.
Defined.

Lemma comment_of_readable (comment : pyval) :
  readable_comment comment = true ->
  exists d author created body,
    comment = PDict d
    /\ Client.comment_of comment
       = Ok (PDict [("author", author); ("created", created); ("body", body)])
    /\ created = Dict.get_default d "created" (PStr EmptyString)
    /\ body = Dict.get_default d "body" (PStr EmptyString)
    /\ (lookup_path comment ["author"; "displayName"] = None ->
        author = PStr "Unknown").
Proof.
  unfold readable_comment. destruct comment as [| | | | |d]; try discriminate.
  intros H. unfold Client.comment_of. cbn [py_get bind lookup_path].
  unfold Dict.get_default at 1.
  destruct (Dict.get d "author") as [author|].
  - destruct author as [| | | | |a]; try discriminate.
    cbn [py_get bind lookup_path].
    do 4 eexists. split; [reflexivity|]. split; [reflexivity|].
    split; [reflexivity|]. split; [reflexivity|].
    unfold Dict.get_default. destruct (Dict.get a "displayName");
      [discriminate | reflexivity].
  - cbn [py_get bind Dict.get_default Dict.get].
    do 4 eexists. split; [reflexivity|]. split; [reflexivity|].
    split; [reflexivity|]. split; reflexivity.
Qed.

Lemma comment_of_unreadable (comment : pyval) :
  readable_comment comment = false ->
  Client.comment_of comment = Raise AttributeError.
Proof.
  unfold readable_comment, Client.comment_of.
  destruct comment as [| | | | |d]; try reflexivity.
  cbn [py_get bind]. unfold Dict.get_default at 1.
  destruct (Dict.get d "author") as [author|]; [|discriminate].
  destruct author; try discriminate; reflexivity.
Qed.

Lemma mapM_length {A B : Type} (f : A -> res B) (l : list A) (out : list B) :
  mapM f l = Ok out -> List.length out = List.length l.
Proof.
  revert out. induction l as [|x l IH]; cbn [mapM]; intros out H.
  - injection H as <-. reflexivity.
  - destruct (f x) as [y|e]; cbn [bind] in H; [|discriminate].
    destruct (mapM f l) as [ys|e]; cbn [bind] in H; [|discriminate].
    injection H as <-. cbn. now rewrite (IH ys eq_refl).
Qed.

Lemma comments_readable (cs : list pyval) :
  forallb readable_comment cs = true ->
  exists out,
    mapM Client.comment_of cs = Ok out
    /\ Forall2 (fun comment entry =>
                  Client.comment_of comment = Ok entry) cs out.
Proof.
  induction cs as [|comment cs IH]; cbn [forallb mapM]; intros H.
  - exists []. split; [reflexivity | constructor].
  - apply andb_true_iff in H as [Hc H].
    destruct (comment_of_readable comment Hc)
      as [d [a [cr [b [_ [Hcomment _]]]]]].
    destruct (IH H) as [out [Hout Hall]].
    rewrite Hcomment, Hout. cbn [bind].
    eexists. split; [reflexivity|]. constructor; assumption.
Qed.

Lemma comments_unreadable (cs : list pyval) :
  forallb readable_comment cs = false ->
  mapM Client.comment_of cs = Raise AttributeError.
Proof.
  induction cs as [|comment cs IH]; cbn [forallb mapM]; intros H.
  - discriminate.
  - destruct (readable_comment comment) eqn:Hc.
    + destruct (comment_of_readable comment Hc)
        as [d [a [cr [b [_ [Hcomment _]]]]]].
      rewrite Hcomment. cbn [bind]. cbn [andb] in H. rewrite (IH H).
      reflexivity.
    + rewrite (comment_of_unreadable comment Hc). reflexivity.
Qed.

(** X8. For a body whose ['comments'] is a list, [get_issue_comments]
    gives one entry per comment, in the order of the body, each with
    exactly the keys author, created and body, when every comment is a
    dictionary whose ['author'] is absent or a dictionary; and if a single
    comment is not, it raises [AttributeError] and the comments of the whole
    issue are lost. *)
Theorem comments_all_or_nothing
        (d : list (string * pyval)) (cs : list pyval)
        (Hcs : Dict.get d "comments" = Some (PList cs)) :
  (forallb readable_comment cs = true ->
   exists out,
     Client.comments_of (PDict d) = Ok out
     /\ List.length out = List.length cs
     /\ Forall2 (fun comment entry =>
                   exists c author,
                     comment = PDict c
                     /\ entry
                        = PDict [("author", author);
                                 ("created",
                                  Dict.get_default c "created"
                                                   (PStr EmptyString));
                                 ("body",
                                  Dict.get_default c "body"
                                                   (PStr EmptyString))]
                     /\ (lookup_path comment ["author"; "displayName"] = None
                         -> author = PStr "Unknown"))
                cs out)
  /\ (forallb readable_comment cs = false ->
      Client.comments_of (PDict d) = Raise AttributeError).
Proof.
  assert (Hrun : Client.comments_of (PDict d) = mapM Client.comment_of cs).
  { unfold Client.comments_of.
    rewrite (page_is_truthy d _ _ Hcs).
    cbn [negb py_contains bind py_getitem]. rewrite Hcs.
    cbn [negb bind py_iter]. reflexivity. }
  rewrite Hrun. split.
  - intros Hall. destruct (comments_readable cs Hall) as [out [Hout HF]].
    exists out. split; [exact Hout|].
    split; [apply (mapM_length _ _ _ Hout)|].
    clear Hout Hrun Hcs.
    induction HF as [|comment entry cs out Hentry HF IH]; [constructor|].
    cbn [forallb] in Hall. apply andb_true_iff in Hall as [Hc Hall].
    constructor; [|apply IH; exact Hall].
    destruct (comment_of_readable comment Hc)
      as [c [a [cr [b [Hcomment [Hof [Hcr [Hb Ha]]]]]]]].
    rewrite Hof in Hentry. injection Hentry as <-.
    exists c, a. subst cr b. repeat split; assumption.
  - apply comments_unreadable.
Qed.

Lemma comments_all_or_nothing_witness :
  Client.comments_of
    (PDict [("comments",
             PList [PDict [("body", PStr "first")];
                    PDict [("author", PNone); ("body", PStr "second")]])])
  = Raise AttributeError.
Proof.
  destruct (comments_all_or_nothing
              [("comments",
                PList [PDict [("body", PStr "first")];
                       PDict [("author", PNone); ("body", PStr "second")]])]
              [PDict [("body", PStr "first")];
               PDict [("author", PNone); ("body", PStr "second")]]
              eq_refl) as [_ H].
  apply H. reflexivity.
Defined.

(** ** CheckpointManager: updates in sequence *)

Lemma dict_set_set d (k : string) (v1 v2 : pyval) :
  Dict.set (Dict.set d k v1) k v2 = Dict.set d k v2.
Proof.
  induction d as [|[k' v'] rest IH]; cbn [Dict.set].
  - now rewrite String.eqb_refl.
  - destruct (k' =? k) eqn:E; cbn [Dict.set]; rewrite E; [reflexivity|].
    now rewrite IH.
Qed.

Lemma well_formed_false_not_true (st : pyval) :
  well_formed st <> true -> well_formed st = false.
Proof. destruct (well_formed st); congruence. Qed.

(** X9. Writing the progress of a project twice is writing it once with
    the last value: the store and the file after
    [update_project_progress s v1] and then [update_project_progress s v2]
    are those after [update_project_progress s v2] alone, so the file never
    holds two entries for a project. *)
Theorem update_project_progress_last_wins
        (m : CheckpointManager) (s : string) (v1 v2 : pyval) :
  update_project_progress s v2 (snd (update_project_progress s v1 m))
  = update_project_progress s v2 m.
Proof.
  destruct (well_formed (state m)) eqn:Hwf.
  - destruct (well_formed_inv _ Hwf) as [d [ps [Hst Hps]]].
    rewrite (update_well_formed m s v1 d ps Hst Hps). cbn [snd].
    rewrite (update_well_formed m s v2 d ps Hst Hps).
    erewrite update_well_formed;
      [| reflexivity | apply dict_get_set_eq ].
    cbv zeta. rewrite !dict_set_set. reflexivity.
  - destruct (update_ill_formed m s v1 Hwf) as [e He]. rewrite He.
    reflexivity.
Qed.

Lemma progress_after_update (m : CheckpointManager) (s p : string)
      (v : pyval) :
  well_formed (state m) = true ->
  fst (get_project_progress p (snd (update_project_progress s v m)))
  = if s =? p then Ok v else fst (get_project_progress p m).
Proof.
  intros Hwf. destruct (well_formed_inv _ Hwf) as [d [ps [Hst Hps]]].
  rewrite (update_well_formed m s v d ps Hst Hps). cbn [snd].
  erewrite progress_well_formed; [| reflexivity | apply dict_get_set_eq ].
  rewrite (progress_well_formed m p d ps Hst Hps). cbn [fst].
  unfold Dict.get_default. destruct (s =? p) eqn:E.
  - apply String.eqb_eq in E. subst p. now rewrite dict_get_set_eq.
  - apply String.eqb_neq in E. now rewrite dict_get_set_ne.
Qed.

Lemma update_keeps_well_formed (m : CheckpointManager) (s : string)
      (v : pyval) :
  well_formed (state m) = true ->
  fst (update_project_progress s v m) = Ok tt
  /\ well_formed (state (snd (update_project_progress s v m))) = true
  /\ checkpoint_file (snd (update_project_progress s v m))
     = Stored (state (snd (update_project_progress s v m))).
Proof.
  intros Hwf. destruct (well_formed_inv _ Hwf) as [d [ps [Hst Hps]]].
  rewrite (update_well_formed m s v d ps Hst Hps). cbn [fst snd state].
  split; [reflexivity|]. split; [|reflexivity].
  unfold well_formed. now rewrite dict_get_set_eq.
Qed.

(** X10. The store behaves as a map under any sequence of updates: from a
    state of the documented form, every update returns, the state keeps that
    form, the file holds the state after each update, and
    [get_project_progress] answers each project with the last value written
    for it, or with what it answered before when none was. *)
Theorem store_is_a_map
        (us : list (string * pyval)) (m : CheckpointManager)
        (Hwf : well_formed (state m) = true) :
  let m' := snd (run_updates us m) in
  fst (run_updates us m) = Ok tt
  /\ well_formed (state m') = true
  /\ (us <> [] -> checkpoint_file m' = Stored (state m'))
  /\ forall project,
       fst (get_project_progress project m')
       = match last_write us project with
         | Some v => Ok v
         | None => fst (get_project_progress project m)
         end.
Proof.
  revert m Hwf. induction us as [|[s v] us IH]; intros m Hwf; cbv zeta.
  - cbn. repeat split; auto. congruence.
  - cbn [run_updates last_write]. unfold bindM.
    destruct (update_keeps_well_formed m s v Hwf) as [Hok [Hwf1 Hfile1]].
    pose proof (fun p => progress_after_update m s p v Hwf) as Hget.
    destruct (update_project_progress s v m) as [r m1].
    cbn [fst snd] in *. subst r.
    destruct (IH m1 Hwf1) as [Hrun [Hwf' [Hfile' Hprog]]].
    split; [exact Hrun|]. split; [exact Hwf'|]. split.
    + intros _. destruct us as [|u us]; [exact Hfile1|].
      apply Hfile'. discriminate.
    + intros project. rewrite Hprog.
      destruct (last_write us project); [reflexivity|].
      rewrite (Hget project). destruct (s =? project); reflexivity.
Qed.

Lemma store_is_a_map_witness :
  fst (get_project_progress "KAFKA"
         (snd (run_updates [("KAFKA", PInt 50); ("BEAM", PInt 7);
                            ("KAFKA", PInt 100)]
                           (mkCheckpointManager empty_checkpoint Missing))))
  = Ok (PInt 100).
Proof.
  destruct (store_is_a_map
              [("KAFKA", PInt 50); ("BEAM", PInt 7); ("KAFKA", PInt 100)]
              (mkCheckpointManager empty_checkpoint Missing) eq_refl)
    as [_ [_ [_ H]]].
  rewrite (H "KAFKA"). reflexivity.
Defined.

(** ** DataTransformer: [safe_get] and the records *)

Lemma safe_get_lookup (keys : list string) (data default : pyval) :
  safe_get data keys default
  = match lookup_path data keys with
    | Some v => if truthy v then v else default
    | None => default
    end.
Proof.
  revert data. induction keys as [|k rest IH]; intros data;
    cbn [safe_get lookup_path]; [reflexivity|].
  destruct data; try reflexivity.
  unfold Dict.get_default. destruct (Dict.get d k) as [x|]; [apply IH|].
  apply safe_get_empty.
Qed.

Lemma safe_get_truthy (keys : list string) (data default : pyval) :
  truthy default = true -> truthy (safe_get data keys default) = true.
Proof.
  intros Hd. rewrite safe_get_lookup.
  destruct (lookup_path data keys) as [v|]; [|exact Hd].
  destruct (truthy v) eqn:Hv; [exact Hv | exact Hd].
Qed.

(** X11. [safe_get] gives the value the keys lead to through nested
    dictionaries when there is one and it is truthy, and the default in
    every other case: a key that is absent, a value on the way that is not
    a dictionary, and also a value that is there but falsy (null, an empty
    string, 0, an empty list).  So with a truthy default the result is never
    falsy. *)
Theorem safe_get_finds_or_defaults
        (data : pyval) (keys : list string) (default : pyval) :
  safe_get data keys default
  = match lookup_path data keys with
    | Some v => if truthy v then v else default
    | None => default
    end
  /\ (truthy default = true ->
      truthy (safe_get data keys default) = true).
Proof. split; [apply safe_get_lookup | apply safe_get_truthy]. Qed.

Lemma safe_get_finds_or_defaults_witness :
  safe_get (PDict [("status", PDict [("name", PStr EmptyString)])])
           ["status"; "name"] (PStr "Unknown") = PStr "Unknown"
  /\ truthy (safe_get (PDict [("status", PDict [("name", PStr EmptyString)])])
                      ["status"; "name"] (PStr "Unknown")) = true.
Proof.
  destruct (safe_get_finds_or_defaults
              (PDict [("status", PDict [("name", PStr EmptyString)])])
              ["status"; "name"] (PStr "Unknown")) as [H1 H2].
  split; [rewrite H1; reflexivity | apply H2; reflexivity].
Defined.

Lemma split_dash_head_parts (s : string) :
  exists rest,
    s = split_dash_head s ++ rest
    /\ has_no_dash (split_dash_head s) = true
    /\ (rest = EmptyString \/ exists r, rest = String "-"%char r).
Proof.
  induction s as [|c s IH]; cbn [split_dash_head].
  - exists EmptyString. repeat split. left. reflexivity.
  - destruct (Ascii.eqb c "-"%char) eqn:E.
    + apply Ascii.eqb_eq in E. subst c.
      exists (String "-"%char s). repeat split. right. eauto.
    + destruct IH as [rest [Hs [Hd Hr]]].
      exists rest. split; [cbn; now rewrite <- Hs|]. split; [|exact Hr].
      unfold has_no_dash in *. cbn. rewrite E. exact Hd.
Qed.

(** X12. The project of an identifier that is a string is the part of it
    before the first dash: the identifier is the project followed by
    nothing or by a dash and the rest, and the project has no dash; an
    identifier without a dash is its own project. *)
Theorem project_is_the_prefix_before_the_dash (s : string) :
  exists p rest,
    project_of (PStr s) = Ok p
    /\ s = p ++ rest
    /\ has_no_dash p = true
    /\ (rest = EmptyString \/ exists r, rest = String "-"%char r).
Proof.
  destruct (split_dash_head_parts s) as [rest [Hs [Hd Hr]]].
  exists (split_dash_head s), rest.
  split; [|repeat split; assumption].
  unfold project_of. destruct s; reflexivity.
Qed.

Lemma determine_training_task_inv (ty de : pyval) (cs : list pyval) k :
  _determine_training_task ty de cs = Ok k -> is_str ty = true.
Proof. destruct ty; try discriminate. reflexivity. Qed.

Lemma transform_issue_inv (item : pyval) (cs : list pyval) (r : JiraIssue) :
  transform_issue item cs = Ok r ->
  exists d f names,
    item = PDict d
    /\ Dict.get_default d "fields" (PDict []) = PDict f
    /\ project_of (Dict.get_default d "key" (PStr EmptyString))
       = Ok (project r)
    /\ _determine_training_task
         (safe_get (PDict f) ["issuetype"; "name"] (PStr "Unknown"))
         (safe_get (PDict f) ["description"] (PStr "No Description")) cs
       = Ok (task r)
    /\ r = mkJiraIssue
             (Dict.get_default d "key" (PStr EmptyString)) (project r)
             (safe_get (PDict f) ["summary"] (PStr "No Title"))
             (safe_get (PDict f) ["description"] (PStr "No Description"))
             (safe_get (PDict f) ["status"; "name"] (PStr "Unknown"))
             (safe_get (PDict f) ["priority"; "name"] (PStr "Unknown"))
             (safe_get (PDict f) ["issuetype"; "name"] (PStr "Unknown"))
             (safe_get (PDict f) ["reporter"; "displayName"] (PStr "Unknown"))
             (safe_get (PDict f) ["assignee"; "displayName"] PNone)
             (Dict.get_default f "created" (PStr EmptyString))
             (Dict.get_default f "updated" (PStr EmptyString))
             (Dict.get_default f "resolutiondate" PNone)
             (Dict.get_default f "labels" (PList []))
             names cs (task r).
Proof.
  intros H. unfold transform_issue in H.
  destruct item as [| | | | |d]; try discriminate.
  cbn [py_get bind] in H.
  destruct (project_of (Dict.get_default d "key" (PStr EmptyString)))
    as [p|e] eqn:Hp; cbn [bind] in H; [|discriminate].
  destruct (Dict.get_default d "fields" (PDict [])) as [| | | | |f] eqn:Ef;
    try discriminate.
  cbn [py_get bind] in H.
  destruct (py_iter (Dict.get_default f "components" (PList [])))
    as [items|e]; cbn [bind] in H; [|discriminate].
  destruct (mapM (fun c => py_get c "name" (PStr EmptyString)) items)
    as [names|e]; cbn [bind] in H; [|discriminate].
  destruct (_determine_training_task _ _ cs) as [k|e] eqn:Hk;
    cbn [bind] in H; [|discriminate].
  injection H as <-. cbn [project task].
  exists d, f, names. repeat split; assumption.
Qed.

(** X13. Every record [transform_issue] returns is coherent with its
    item: it carries the item's key and the comments it was given; its
    project is the project of its own identifier; its training task is the
    one [_determine_training_task] gives its own type, description and
    comments; its type is a string; and its title, description, status,
    priority, type and reporter are never falsy. *)
Theorem returned_record_is_coherent
        (item : pyval) (cs : list pyval) (r : JiraIssue)
        (Hr : transform_issue item cs = Ok r) :
  py_get item "key" (PStr EmptyString) = Ok (issue_id r)
  /\ comments r = cs
  /\ project_of (issue_id r) = Ok (project r)
  /\ _determine_training_task (issue_type r) (description r) (comments r)
     = Ok (task r)
  /\ is_str (issue_type r) = true
  /\ truthy (title r) = true
  /\ truthy (description r) = true
  /\ truthy (status r) = true
  /\ truthy (priority r) = true
  /\ truthy (issue_type r) = true
  /\ truthy (reporter r) = true.
Proof.
  destruct (transform_issue_inv item cs r Hr)
    as [d [f [names [-> [Ef [Hp [Hk Hrec]]]]]]].
  rewrite Hrec.
  cbn [py_get issue_id comments project task issue_type description title
       status priority reporter].
  split; [reflexivity|]. split; [reflexivity|]. split; [exact Hp|].
  split; [exact Hk|].
  split; [exact (determine_training_task_inv _ _ _ _ Hk)|].
  repeat split; apply safe_get_truthy; reflexivity.
Qed.

Lemma returned_record_is_coherent_witness :
  exists r,
    transform_issue
      (PDict [("key", PStr "KAFKA-9");
              ("fields", PDict [("summary", PStr EmptyString)])]) [] = Ok r
    /\ project_of (issue_id r) = Ok (project r)
    /\ truthy (title r) = true.
Proof.
  eexists. split; [reflexivity|].
  destruct (returned_record_is_coherent
              (PDict [("key", PStr "KAFKA-9");
                      ("fields", PDict [("summary", PStr EmptyString)])])
              [] _ eq_refl) as [_ [_ [Hp [_ [_ [Ht _]]]]]].
  split; [exact Hp | exact Ht].
Defined.

(** X14. An item without an issue type is never labelled
    'question_answering' or 'classification': its type is 'Unknown', and
    its task is 'summarization' when the description is longer than 500 and
    'general' otherwise. *)
Theorem missing_type_is_general_or_summarization
        (item : list (string * pyval)) (cs : list pyval) (r : JiraIssue)
        (Hr : transform_issue (PDict item) cs = Ok r)
        (Hmissing : lookup_path (Dict.get_default item "fields" (PDict []))
                                ["issuetype"; "name"] = None) :
  issue_type r = PStr "Unknown"
  /\ exists n, py_len (description r) = Ok n
               /\ task r = if (500 <? n)%nat then summarization else general.
Proof.
  destruct (transform_issue_inv _ cs r Hr)
    as [d [f [names [Hd [Ef [Hp [Hk Hrec]]]]]]].
  injection Hd as <-. rewrite Ef in Hmissing.
  rewrite (safe_get_missing _ _ (PStr "Unknown") Hmissing) in Hk, Hrec.
  rewrite Hrec. cbn [issue_type description task]. split; [reflexivity|].
  unfold _determine_training_task in Hk. cbn [py_lower bind] in Hk.
  change (lower "Unknown" =? "bug") with false in Hk. cbn [andb] in Hk.
  destruct (py_len (safe_get (PDict f) ["description"]
                             (PStr "No Description"))) as [n|e];
    cbn [bind] in Hk; [|discriminate].
  exists n. split; [reflexivity|].
  destruct (500 <? n)%nat; [congruence|].
  change (existsb (String.eqb (lower "Unknown")) clear_types) with false in Hk.
  congruence.
Qed.

Lemma missing_type_is_general_or_summarization_witness :
  exists r,
    transform_issue (PDict [("key", PStr "KAFKA-9")])
                    [PNone; PNone; PNone] = Ok r
    /\ issue_type r = PStr "Unknown".
Proof.
  eexists. split; [reflexivity|].
  destruct (missing_type_is_general_or_summarization
              [("key", PStr "KAFKA-9")] [PNone; PNone; PNone] _
              eq_refl eq_refl) as [H _].
  exact H.
Defined.

Lemma returns_project_of (item : list (string * pyval)) :
  returns (project_of (Dict.get_default item "key" (PStr EmptyString)))
  = match Dict.get item "key" with
    | None => true
    | Some k => is_str k || negb (truthy k)
    end.
Proof.
  unfold Dict.get_default. destruct (Dict.get item "key") as [k|];
    [|reflexivity].
  unfold project_of. destruct (truthy k) eqn:Ht.
  - destruct k; reflexivity.
  - now rewrite orb_true_r.
Qed.

Lemma returns_names_of_list (l : list pyval) :
  returns (mapM (fun c => py_get c "name" (PStr EmptyString)) l)
  = forallb is_dict l.
Proof.
  induction l as [|c l IH]; cbn [mapM forallb]; [reflexivity|].
  destruct c; try reflexivity. cbn [py_get bind is_dict andb].
  rewrite <- IH.
  destruct (mapM (fun c => py_get c "name" (PStr EmptyString)) l); reflexivity.
Qed.

Lemma returns_component_names (v : pyval) :
  returns (items <- py_iter v ;;
           mapM (fun c => py_get c "name" (PStr EmptyString)) items)
  = components_ok v.
Proof.
  destruct v as [| | |s|l|d]; try reflexivity.
  - destruct s; reflexivity.
  - cbn [py_iter bind components_ok]. apply returns_names_of_list.
  - destruct d as [|[k x] d]; reflexivity.
Qed.

Lemma returns_determine_training_task (ty de : pyval) (cs : list pyval) :
  returns (_determine_training_task ty de cs)
  = match ty with
    | PStr t =>
        ((lower t =? "bug") && (2 <? List.length cs)%nat) || is_sized de
    | _ => false
    end.
Proof.
  destruct ty as [| | |t| |]; try reflexivity.
  unfold _determine_training_task. cbn [py_lower bind].
  destruct ((lower t =? "bug") && (2 <? List.length cs)%nat); [reflexivity|].
  cbn [orb].
  destruct de; try reflexivity; cbn [py_len bind is_sized];
    match goal with |- context [(500 <? ?n)%nat] =>
      destruct (500 <? n)%nat end; try reflexivity;
    destruct (existsb (String.eqb (lower t)) clear_types); reflexivity.
Qed.

(** X15. [transform_issue] raises on exactly the items that are not
    [transformable]: it returns when, and only when, ['key'] is absent,
    falsy or a string; ['fields'] is absent or a dictionary; ['components']
    is absent, a list of dictionaries, or an empty dictionary or string; the
    type name [safe_get] finds is a string; and either the item is a bug
    with more than 2 comments or the description [safe_get] finds has a
    length. *)
Theorem transform_issue_returns_iff
        (item : list (string * pyval)) (cs : list pyval) :
  returns (transform_issue (PDict item) cs) = transformable item cs.
Proof.
  unfold transform_issue, transformable. cbn [py_get bind].
  rewrite <- returns_project_of.
  destruct (project_of (Dict.get_default item "key" (PStr EmptyString)))
    as [p|e]; cbn [bind returns andb]; [|reflexivity].
  destruct (Dict.get_default item "fields" (PDict [])) as [| | | | |f];
    try reflexivity.
  cbn [py_get bind].
  rewrite <- returns_component_names.
  destruct (py_iter (Dict.get_default f "components" (PList [])))
    as [items|e]; cbn [bind returns andb]; [|reflexivity].
  destruct (mapM (fun c => py_get c "name" (PStr EmptyString)) items)
    as [names|e]; cbn [bind returns andb]; [|reflexivity].
  rewrite <- returns_determine_training_task.
  destruct (_determine_training_task _ _ cs); reflexivity.
Qed.

Example bug_with_numeric_description_and_comments :
  returns (transform_issue
             (PDict [("fields",
                      PDict [("issuetype", PDict [("name", PStr "Bug")]);
                             ("description", PInt 7)])])
             [PNone; PNone; PNone]) = true
  /\ returns (transform_issue
                (PDict [("fields",
                         PDict [("issuetype", PDict [("name", PStr "Bug")]);
                                ("description", PInt 7)])])
                []) = false.
Proof. split; reflexivity. Qed.

(** ** JiraScraper: the ends of the loop *)

(** X16. The two replies that end the loop without a page leave output and
    checkpoint as they are: a falsy reply ([None], an empty body) counts one
    error; a reply without items counts none.  In both cases
    [scrape_project]'s loop is over after this one search. *)
Theorem loop_ends_without_a_page
        (jira : api) (project : string) (fuel : nat) (start_at : pyval)
        (s : JiraScraper)
        (Hend : truthy (search_reply jira (List.length (searches s))) = false
                \/ is_empty_page
                     (search_reply jira (List.length (searches s)))) :
  exists s',
    pagination jira project (S fuel) start_at s = (Ok Completed, s')
    /\ searches s' = (searches s ++ [start_at])%list
    /\ output s' = output s
    /\ total_issues s' = total_issues s
    /\ checkpoint_manager s' = checkpoint_manager s
    /\ errors s'
       = if truthy (search_reply jira (List.length (searches s)))
         then errors s else S (errors s).
Proof.
  cbn [pagination]. unfold bindM at 1.
  destruct Hend as [Hfalsy | [r [Hresp [Htruthy Hnone]]]].
  - unfold scrape_page, bindM, search_issues. rewrite Hfalsy.
    cbn [negb]. eexists. split; [reflexivity|]. repeat split.
  - rewrite Htruthy. rewrite Hresp in Htruthy.
    unfold scrape_page, bindM, lift, search_issues.
    rewrite Hresp, Htruthy. cbn [negb py_get]. rewrite Hnone. cbn [negb].
    eexists. split; [reflexivity|]. repeat split.
Qed.

Lemma loop_ends_without_a_page_witness :
  exists s',
    pagination (scripted_api [PDict []]) "KAFKA" 1 (PInt 0)
               (new_JiraScraper (mkCheckpointManager empty_checkpoint Missing))
    = (Ok Completed, s')
    /\ errors s' = 1
    /\ checkpoint_manager s' = mkCheckpointManager empty_checkpoint Missing.
Proof.
  destruct (loop_ends_without_a_page
              (scripted_api [PDict []]) "KAFKA" 0 (PInt 0)
              (new_JiraScraper (mkCheckpointManager empty_checkpoint Missing)))
    as [s' [Hrun [_ [_ [_ [Hc He]]]]]].
  - left. reflexivity.
  - exists s'. split; [exact Hrun|]. split; [exact He | exact Hc].
Defined.

(** ** JiraScraper: what every run keeps *)

Lemma counted_refl (s : JiraScraper) : counted s s.
Proof. exists []. rewrite app_nil_r. cbn. repeat split; lia. Qed.

Lemma counted_trans (s1 s2 s3 : JiraScraper) :
  counted s1 s2 -> counted s2 s3 -> counted s1 s3.
Proof.
  intros [a1 [Ho1 [Ht1 [He1 Hc1]]]] [a2 [Ho2 [Ht2 [He2 Hc2]]]].
  exists (a1 ++ a2)%list. rewrite Ho2, Ho1, Ht2, Ht1, length_app, app_assoc.
  repeat split; lia.
Qed.

Lemma counting_ret {A : Type} (a : A) : counting_run (ret a).
Proof. intros s. apply counted_refl. Qed.

Lemma counting_lift {A : Type} (r : res A) : counting_run (lift r).
Proof. intros s. apply counted_refl. Qed.

Lemma counting_bind {A B : Type}
      (m : M JiraScraper A) (k : A -> M JiraScraper B) :
  counting_run m -> (forall a, counting_run (k a)) ->
  counting_run (bindM m k).
Proof.
  intros Hm Hk s. unfold bindM. specialize (Hm s).
  destruct (m s) as [[a|e] s1]; cbn [snd] in *.
  - eapply counted_trans; [exact Hm | apply Hk].
  - exact Hm.
Qed.

Lemma counting_try_except {A : Type}
      (m : M JiraScraper A) (h : exn -> M JiraScraper A) :
  counting_run m -> (forall e, counting_run (h e)) ->
  counting_run (try_except m h).
Proof.
  intros Hm Hh s. unfold try_except. specialize (Hm s).
  destruct (m s) as [[a|e] s1]; cbn [snd] in *.
  - exact Hm.
  - eapply counted_trans; [exact Hm | apply Hh].
Qed.

Lemma counting_add_error : counting_run add_error.
Proof.
  intros s. exists []. cbn. rewrite app_nil_r. repeat split; lia.
Qed.

Lemma counting_add_comments (n : nat) : counting_run (add_comments n).
Proof.
  intros s. exists []. cbn. rewrite app_nil_r. repeat split; lia.
Qed.

Lemma counting_write_issue (issue : JiraIssue) :
  counting_run (write_issue issue).
Proof. intros s. exists [issue]. cbn. repeat split; lia. Qed.

Lemma counting_on_checkpoint {A : Type} (c : M CheckpointManager A) :
  counting_run (on_checkpoint c).
Proof.
  intros s. unfold on_checkpoint.
  destruct (c (checkpoint_manager s)) as [r m].
  exists []. cbn. rewrite app_nil_r. repeat split; lia.
Qed.

Lemma counting_search_issues (jira : api) (start_at : pyval) :
  counting_run (search_issues jira start_at).
Proof.
  intros s. exists []. cbn. rewrite app_nil_r. repeat split; lia.
Qed.

Lemma counting_note (e : effect) : counting_run (note e).
Proof.
  intros s. exists []. cbn. rewrite app_nil_r. repeat split; lia.
Qed.

Lemma counting_with_output_file (block : M JiraScraper outcome) :
  counting_run block -> counting_run (with_output_file block).
Proof.
  intros Hb s. specialize (Hb s).
  destruct (with_output_file_eq block s)
    as [s' [Hw [_ [Ho [_ [Ht [Hc He]]]]]]].
  rewrite Hw. cbn [snd]. destruct Hb as [added [Ho1 [Ht1 [He1 Hc1]]]].
  exists added. rewrite Ho, Ht, Hc, He. repeat split; assumption.
Qed.

Ltac counting :=
  repeat first
    [ apply counting_ret | apply counting_lift | apply counting_add_error
    | apply counting_note
    | apply counting_add_comments | apply counting_write_issue
    | apply counting_on_checkpoint | apply counting_search_issues
    | apply counting_try_except; [|intros ?]
    | apply counting_bind; [|intros ?]
    | match goal with
      | |- counting_run (if ?b then _ else _) => destruct b
      end ].

Lemma counting_fetch_comments (jira : api) (keys : list pyval) :
  forall cm, counting_run (fetch_comments jira keys cm).
Proof.
  induction keys as [|key keys IH]; intros cm; cbn [fetch_comments].
  - counting.
  - apply counting_bind; [unfold collect; counting | intros cm'; apply IH].
Qed.

Lemma counting_process_page (cm : comments_map) (items : list pyval) :
  counting_run (forM_ items (process_issue cm)).
Proof.
  induction items as [|issue items IH]; cbn [forM_].
  - counting.
  - apply counting_bind; [unfold process_issue; counting | intros _; exact IH].
Qed.

Lemma counting_scrape_page (jira : api) (project : string)
      (start_at : pyval) :
  counting_run (scrape_page jira project start_at).
Proof.
  unfold scrape_page.
  apply counting_bind; [counting|]. intros response.
  destruct (negb (truthy response)); [counting|].
  apply counting_bind; [counting|]. intros issues.
  apply counting_bind; [counting|]. intros total.
  destruct (negb (truthy issues)); [counting|].
  apply counting_bind; [counting|]. intros items.
  apply counting_bind; [counting|]. intros issue_keys.
  apply counting_bind; [apply counting_fetch_comments|]. intros cm.
  apply counting_bind; [apply counting_process_page|]. intros _.
  counting.
Qed.

Lemma counting_pagination (jira : api) (project : string) (fuel : nat) :
  forall start_at, counting_run (pagination jira project fuel start_at).
Proof.
  induction fuel as [|fuel IH]; intros start_at; cbn [pagination].
  - counting.
  - apply counting_bind; [apply counting_scrape_page|].
    intros [|start_at']; [counting | apply IH].
Qed.

Lemma counting_scrape_project (jira : api) (project : string) (fuel : nat) :
  counting_run (scrape_project jira project fuel).
Proof.
  unfold scrape_project.
  apply counting_bind; [counting | intros start_at].
  apply counting_with_output_file. apply counting_pagination.
Qed.


(** X17. Whatever the API answers and however it ends (completed, out of
    pages to try, or with an exception), [scrape_project] only appends to
    the output; [total_issues] grows by exactly the number of lines
    appended; and the counters of errors and comments never go down. *)
Theorem scrape_project_only_appends
        (jira : api) (project : string) (fuel : nat) (s : JiraScraper) :
  let s' := snd (scrape_project jira project fuel s) in
  exists added,
    output s' = (output s ++ added)%list
    /\ total_issues s' = total_issues s + List.length added
    /\ errors s <= errors s'
    /\ total_comments s <= total_comments s'.
Proof. apply counting_scrape_project. Qed.

(** *** The checkpoint over a run *)

Lemma keeps_ret {A : Type} (a : A) : keeps_checkpoint (ret a).
Proof. intros s. reflexivity. Qed.

Lemma keeps_lift {A : Type} (r : res A) : keeps_checkpoint (lift r).
Proof. intros s. reflexivity. Qed.

Lemma keeps_bind {A B : Type}
      (m : M JiraScraper A) (k : A -> M JiraScraper B) :
  keeps_checkpoint m -> (forall a, keeps_checkpoint (k a)) ->
  keeps_checkpoint (bindM m k).
Proof.
  intros Hm Hk s. unfold bindM. specialize (Hm s).
  destruct (m s) as [[a|e] s1]; cbn [snd] in *.
  - rewrite (Hk a s1). exact Hm.
  - exact Hm.
Qed.

Lemma keeps_try_except {A : Type}
      (m : M JiraScraper A) (h : exn -> M JiraScraper A) :
  keeps_checkpoint m -> (forall e, keeps_checkpoint (h e)) ->
  keeps_checkpoint (try_except m h).
Proof.
  intros Hm Hh s. unfold try_except. specialize (Hm s).
  destruct (m s) as [[a|e] s1]; cbn [snd] in *.
  - exact Hm.
  - rewrite (Hh e s1). exact Hm.
Qed.

Lemma keeps_add_error : keeps_checkpoint add_error.
Proof. intros s. reflexivity. Qed.

Lemma keeps_add_comments (n : nat) : keeps_checkpoint (add_comments n).
Proof. intros s. reflexivity. Qed.

Lemma keeps_write_issue (issue : JiraIssue) :
  keeps_checkpoint (write_issue issue).
Proof. intros s. reflexivity. Qed.

Lemma keeps_search_issues (jira : api) (start_at : pyval) :
  keeps_checkpoint (search_issues jira start_at).
Proof. intros s. reflexivity. Qed.

Lemma keeps_note (e : effect) : keeps_checkpoint (note e).
Proof. intros s. reflexivity. Qed.

Ltac keeping :=
  repeat first
    [ apply keeps_ret | apply keeps_lift | apply keeps_add_error
    | apply keeps_note
    | apply keeps_add_comments | apply keeps_write_issue
    | apply keeps_search_issues
    | apply keeps_try_except; [|intros ?]
    | apply keeps_bind; [|intros ?] ].

Lemma keeps_fetch_comments (jira : api) (keys : list pyval) :
  forall cm, keeps_checkpoint (fetch_comments jira keys cm).
Proof.
  induction keys as [|key keys IH]; intros cm; cbn [fetch_comments].
  - keeping.
  - apply keeps_bind; [unfold collect; keeping | intros cm'; apply IH].
Qed.

Lemma keeps_process_page (cm : comments_map) (items : list pyval) :
  keeps_checkpoint (forM_ items (process_issue cm)).
Proof.
  induction items as [|issue items IH]; cbn [forM_].
  - keeping.
  - apply keeps_bind; [unfold process_issue; keeping | intros _; exact IH].
Qed.

Lemma advances_stay (project : string) (z : Z) (s s' : JiraScraper)
      (r : res flow) :
  at_offset project z s ->
  checkpoint_manager s' = checkpoint_manager s ->
  (forall v, r <> Ok (Continue v)) ->
  advances project z s r s'.
Proof.
  intros Hat Hsame Hr. unfold advances, at_offset in *. rewrite Hsame.
  split; [reflexivity|]. split; [left; reflexivity|].
  exists z. split; [lia|]. split; [exact Hat|].
  intros v Hv. destruct (Hr v Hv).
Qed.

Lemma advancing_bind_keeps {A : Type} (project : string) (z : Z)
      (m : M JiraScraper A) (k : A -> M JiraScraper flow) :
  keeps_checkpoint m -> (forall a, advancing project z (k a)) ->
  advancing project z (bindM m k).
Proof.
  intros Hm Hk s Hat. unfold bindM. specialize (Hm s).
  destruct (m s) as [[a|e] s1]; cbn [fst snd] in *.
  - assert (Hat1 : at_offset project z s1)
      by (unfold at_offset in *; rewrite Hm; exact Hat).
    specialize (Hk a s1 Hat1). unfold advances in *. rewrite Hm in Hk.
    exact Hk.
  - apply advances_stay; [exact Hat | exact Hm | discriminate].
Qed.

Lemma advancing_break (project : string) (z : Z) :
  advancing project z (ret Break).
Proof.
  intros s Hat. apply advances_stay; [exact Hat | reflexivity | discriminate].
Qed.

Lemma advancing_tail (project : string) (z : Z) (issues total : pyval) :
  advancing project z
    (n <~ lift (py_len issues) ;;
     start_at' <~ lift (py_iadd (PInt z) n) ;;
     _ <~ on_checkpoint (update_project_progress project (PInt start_at')) ;;
     _ <~ note (Saved project (PInt start_at')) ;;
     stop <~ lift (int_ge start_at' total) ;;
     if stop then ret Break else ret (Continue (PInt start_at'))).
Proof.
  intros s Hat.
  match goal with |- advances _ _ _ (fst ?x) (snd ?x) =>
    destruct x as [r s'] eqn:Hrun
  end.
  cbn [fst snd]. rewrite bindM_lift in Hrun.
  destruct (py_len issues) as [n|e].
  2:{ injection Hrun as <- <-.
      apply advances_stay; [exact Hat | reflexivity | discriminate]. }
  rewrite bindM_lift in Hrun. cbn [py_iadd] in Hrun.
  destruct Hat as [Hwf Hprog].
  destruct (update_keeps_well_formed (checkpoint_manager s) project
              (PInt (z + Z.of_nat n)) Hwf) as [Hok [Hwf1 Hfile1]].
  pose proof (fun p => progress_after_update (checkpoint_manager s) project p
                         (PInt (z + Z.of_nat n)) Hwf) as Hget.
  unfold bindM at 1 in Hrun. unfold on_checkpoint in Hrun.
  destruct (update_project_progress project (PInt (z + Z.of_nat n))
                                    (checkpoint_manager s)) as [r1 m1].
  cbn [fst snd] in *. subst r1.
  unfold bindM at 1 in Hrun. unfold note, modify in Hrun.
  rewrite bindM_lift in Hrun.
  assert (Hadv : forall s1 : JiraScraper,
             checkpoint_manager s1 = m1 ->
             (forall v, r = Ok (Continue v) -> v = PInt (z + Z.of_nat n)) ->
             advances project z s r s1).
  { intros s1 Hs1 Hr. unfold advances, at_offset. rewrite Hs1. split.
    - intros p Hp. rewrite (Hget p).
      destruct (project =? p) eqn:E; [|reflexivity].
      apply String.eqb_eq in E. congruence.
    - split; [right; exact Hfile1|].
      exists (z + Z.of_nat n)%Z. split; [lia|]. split; [|exact Hr].
      split; [exact Hwf1|]. rewrite (Hget project), String.eqb_refl.
      reflexivity. }
  destruct (int_ge (z + Z.of_nat n) total) as [stop|e];
    [destruct stop|]; cbn [ret] in Hrun; injection Hrun as <- <-;
    (apply Hadv; [reflexivity | intros v Hv; congruence]).
Qed.

Lemma advancing_scrape_page (jira : api) (project : string) (z : Z) :
  advancing project z (scrape_page jira project (PInt z)).
Proof.
  unfold scrape_page.
  apply advancing_bind_keeps; [keeping|]. intros response.
  destruct (negb (truthy response)).
  { apply advancing_bind_keeps; [keeping|]. intros _. apply advancing_break. }
  apply advancing_bind_keeps; [keeping|]. intros issues.
  apply advancing_bind_keeps; [keeping|]. intros total.
  destruct (negb (truthy issues)); [apply advancing_break|].
  apply advancing_bind_keeps; [keeping|]. intros items.
  apply advancing_bind_keeps; [keeping|]. intros issue_keys.
  apply advancing_bind_keeps; [apply keeps_fetch_comments|]. intros cm.
  apply advancing_bind_keeps; [apply keeps_process_page|]. intros _.
  apply advancing_tail.
Qed.

Lemma pagination_advances (jira : api) (project : string) (fuel : nat) :
  forall (z : Z) (s : JiraScraper),
    at_offset project z s ->
    let s' := snd (pagination jira project fuel (PInt z) s) in
    (forall p, p <> project ->
               fst (get_project_progress p (checkpoint_manager s'))
               = fst (get_project_progress p (checkpoint_manager s)))
    /\ (checkpoint_manager s' = checkpoint_manager s
        \/ checkpoint_file (checkpoint_manager s')
           = Stored (state (checkpoint_manager s')))
    /\ exists z', (z <= z')%Z /\ at_offset project z' s'.
Proof.
  induction fuel as [|fuel IH]; intros z s Hat; cbn [pagination]; cbv zeta.
  - cbn. split; [reflexivity|]. split; [left; reflexivity|].
    exists z. split; [lia | exact Hat].
  - unfold bindM.
    pose proof (advancing_scrape_page jira project z s Hat) as Hpage.
    destruct (scrape_page jira project (PInt z) s) as [[step|e] s1];
      cbn [fst snd] in *;
      destruct Hpage as [Hothers [Hfile [z1 [Hz1 [Hat1 Hcont]]]]].
    + destruct step as [|v].
      * cbn. split; [exact Hothers|]. split; [exact Hfile|].
        exists z1. split; assumption.
      * rewrite (Hcont v eq_refl).
        destruct (IH z1 s1 Hat1) as [Hothers' [Hfile' [z' [Hz' Hat']]]].
        split.
        { intros p Hp. rewrite (Hothers' p Hp). apply Hothers. exact Hp. }
        split.
        { destruct Hfile' as [Hsame|Hsync]; [|right; exact Hsync].
          rewrite Hsame. exact Hfile. }
        exists z'. split; [lia | exact Hat'].
    + split; [exact Hothers|]. split; [exact Hfile|].
      exists z1. split; assumption.
Qed.

Lemma scrape_project_start (project : string) (z : Z) (s : JiraScraper) :
  at_offset project z s ->
  on_checkpoint (get_project_progress project) s = (Ok (PInt z), s).
Proof.
  intros [_ Hn]. unfold on_checkpoint.
  pose proof (progress_pure (checkpoint_manager s) project) as Hpure.
  destruct (get_project_progress project (checkpoint_manager s)) as [r m].
  cbn [fst snd] in *. subst r m. destruct s; reflexivity.
Qed.

Lemma scrape_project_advances (jira : api) (project : string) (fuel : nat)
      (s : JiraScraper) (n : Z) :
  at_offset project n s ->
  let s' := snd (scrape_project jira project fuel s) in
  (forall p, p <> project ->
             fst (get_project_progress p (checkpoint_manager s'))
             = fst (get_project_progress p (checkpoint_manager s)))
  /\ (checkpoint_manager s' = checkpoint_manager s
      \/ checkpoint_file (checkpoint_manager s')
         = Stored (state (checkpoint_manager s')))
  /\ exists z', (n <= z')%Z /\ at_offset project z' s'.
Proof.
  intros Hat. cbv zeta. unfold scrape_project.
  rewrite (bindM_ok _ _ _ _ _ (scrape_project_start project n s Hat)).
  match goal with |- context [with_output_file ?b s] =>
    destruct (with_output_file_eq b s) as [s' [Hw [Hc _]]]
  end.
  rewrite Hw. cbn [snd]. unfold at_offset. rewrite Hc.
  apply pagination_advances. exact Hat.
Qed.

(** X19. Whatever the API answers and however the run ends, a run of
    [scrape_project] that starts on a store of the documented form, with
    the project at the offset [n], never moves the offset backwards: at the
    end the store still has that form, the project is at an offset not below
    [n], every other project is where it was, and the file is untouched or
    holds the state. *)
Theorem checkpoint_never_goes_back
        (jira : api) (project : string) (fuel : nat) (s : JiraScraper)
        (n : Z)
        (Hwf : well_formed (state (checkpoint_manager s)) = true)
        (Hn : fst (get_project_progress project (checkpoint_manager s))
              = Ok (PInt n)) :
  let s' := snd (scrape_project jira project fuel s) in
  well_formed (state (checkpoint_manager s')) = true
  /\ (exists z, (n <= z)%Z
                /\ fst (get_project_progress project (checkpoint_manager s'))
                   = Ok (PInt z))
  /\ (forall p, p <> project ->
                fst (get_project_progress p (checkpoint_manager s'))
                = fst (get_project_progress p (checkpoint_manager s)))
  /\ (checkpoint_manager s' = checkpoint_manager s
      \/ checkpoint_file (checkpoint_manager s')
         = Stored (state (checkpoint_manager s'))).
Proof.
  cbv zeta.
  destruct (scrape_project_advances jira project fuel s n (conj Hwf Hn))
    as [Hothers [Hfile [z [Hz [Hwf' Hz']]]]].
  split; [exact Hwf'|]. split; [exists z; split; assumption|].
  split; [exact Hothers | exact Hfile].
Qed.

Lemma checkpoint_never_goes_back_witness :
  let s' :=
    snd (scrape_project
           (scripted_api
              [page_of [PDict [("key", PStr "KAFKA-3")]] 10; PInt 5])
           "KAFKA" 5
           (new_JiraScraper
              (mkCheckpointManager
                 (PDict [("projects", PDict [("KAFKA", PInt 2)])]) Missing)))
  in
  exists z, (2 <= z)%Z
            /\ fst (get_project_progress "KAFKA" (checkpoint_manager s'))
               = Ok (PInt z).
Proof.
  destruct (checkpoint_never_goes_back
              (scripted_api
                 [page_of [PDict [("key", PStr "KAFKA-3")]] 10; PInt 5])
              "KAFKA" 5
              (new_JiraScraper
                 (mkCheckpointManager
                    (PDict [("projects", PDict [("KAFKA", PInt 2)])])
                    Missing))
              2 eq_refl eq_refl) as [_ [H _]].
  exact H.
Defined.

(** *** The end of a run *)










Example run_goes_on_after_a_broken_checkpoint :
  let s := snd (run (scripted_api [page_of [] 0; page_of [] 0])
                    ["KAFKA"; "BEAM"] 3
                    (new_JiraScraper
                       (mkCheckpointManager (PDict []) (Stored (PDict []))))) in
  errors s = 2 /\ searches s = [].
Proof. vm_compute. split; reflexivity. Qed.

(** A loop that is still going stops the run there: with one page of fuel
    and a first page short of its total, the second project is not
    started. *)
Example run_stops_where_a_loop_goes_on :
  let r := run (scripted_api [page_of [PDict [("key", PStr "KAFKA-1")]] 2])
               ["KAFKA"; "BEAM"] 1
               (new_JiraScraper (mkCheckpointManager empty_checkpoint Missing))
  in
  fst r = Ok OutOfFuel /\ searches (snd r) = [PInt 0].
Proof. vm_compute. split; reflexivity. Qed.

(** ** JiraScraper: the comments of a page *)

Lemma cm_find_set_same (cm : comments_map) (k : string) (v : list pyval) :
  cm_find (cm_set cm (PStr k) v) (PStr k) = Some v.
Proof.
  induction cm as [|[k0 v0] cm IH]; cbn [cm_set cm_find].
  - cbn. now rewrite String.eqb_refl.
  - destruct (key_eqb k0 (PStr k)) eqn:E; cbn [cm_find]; rewrite E; auto.
Qed.

Lemma cm_find_set_other (cm : comments_map) (k k' : string)
      (v : list pyval) :
  k <> k' ->
  cm_find (cm_set cm (PStr k) v) (PStr k') = cm_find cm (PStr k').
Proof.
  intros Hne. induction cm as [|[k0 v0] cm IH]; cbn [cm_set cm_find].
  - cbn. destruct (k =? k') eqn:E; [|reflexivity].
    apply String.eqb_eq in E. contradiction.
  - destruct (key_eqb k0 (PStr k)) eqn:E; cbn [cm_find].
    + destruct k0; try discriminate. cbn in E. apply String.eqb_eq in E.
      subst s. cbn. destruct (k =? k') eqn:E'; [|reflexivity].
      apply String.eqb_eq in E'. contradiction.
    + now rewrite IH.
Qed.

Lemma comments_for_other (jira : api) (ks : list string) (k : string) :
  forall cm,
    ~ In k ks ->
    cm_find (comments_for jira (map PStr ks) cm) (PStr k)
    = cm_find cm (PStr k).
Proof.
  induction ks as [|k0 ks IH]; intros cm Hk; cbn [map comments_for].
  - reflexivity.
  - rewrite IH by (intros H; apply Hk; right; exact H).
    apply cm_find_set_other. intros ->. apply Hk. left. reflexivity.
Qed.

Lemma comments_for_key (jira : api) (ks : list string) (k : string) :
  forall cm,
    In k ks ->
    cm_find (comments_for jira (map PStr ks) cm) (PStr k)
    = Some (fetched jira (PStr k)).
Proof.
  induction ks as [|k0 ks IH]; intros cm Hk; cbn [map comments_for].
  - destruct Hk.
  - destruct (in_dec string_dec k ks) as [Hin|Hout].
    + apply IH. exact Hin.
    + destruct Hk as [->|Hin]; [|contradiction].
      rewrite comments_for_other by exact Hout.
      apply cm_find_set_same.
Qed.

Lemma fetch_comments_counts (jira : api) (ks : list string) :
  forall (cm : comments_map) (s : JiraScraper),
    exists s',
      fetch_comments jira (map PStr ks) cm s
      = (Ok (comments_for jira (map PStr ks) cm), s')
      /\ errors s' = errors s + failed_fetches jira ks
      /\ output s' = output s
      /\ checkpoint_manager s' = checkpoint_manager s.
Proof.
  induction ks as [|k ks IH]; intros cm s;
    cbn [map fetch_comments comments_for].
  - exists s. cbn. repeat split. lia.
  - unfold bindM at 1. unfold collect, try_except, cm_setitem.
    cbn [hashable]. rewrite bindM_lift.
    unfold failed_fetches. cbn [filter].
    destruct (get_issue_comments jira (PStr k)) as [cs|e];
      rewrite bindM_lift; cbn [returns negb].
    + destruct (IH (cm_set cm (PStr k) cs)
                   (mkJiraScraper (checkpoint_manager s) (output s)
                                  (total_issues s)
                                  (total_comments s + List.length cs)
                                  (errors s) (searches s) (journal s)))
        as [s' [Hrun [He [Ho Hc]]]].
      exists s'. split; [exact Hrun|]. cbn in He, Ho, Hc.
      repeat split; assumption.
    + destruct (IH (cm_set cm (PStr k) [])
                   (mkJiraScraper (checkpoint_manager s) (output s)
                                  (total_issues s) (total_comments s)
                                  (S (errors s)) (searches s) (journal s)))
        as [s' [Hrun [He [Ho Hc]]]].
      exists s'. split; [exact Hrun|]. cbn in He, Ho, Hc.
      unfold failed_fetches in He. cbn [List.length].
      repeat split; try assumption. lia.
Qed.

(** X20. The pool leaves a complete map: for a page whose keys are
    strings, the comments map has, for every key of the page, the comments
    [get_issue_comments] gave for that key, and the empty list when the
    fetch raised; a key that is not of the page reads as the empty list;
    one error is counted per fetch that raised, and nothing is written. *)
Theorem pool_maps_every_key
        (jira : api) (ks : list string) (s : JiraScraper) :
  exists cm s',
    fetch_comments jira (map PStr ks) [] s = (Ok cm, s')
    /\ (forall k, In k ks ->
                  cm_get cm (PStr k) = Ok (fetched jira (PStr k)))
    /\ (forall k, ~ In k ks -> cm_get cm (PStr k) = Ok [])
    /\ errors s' = errors s + failed_fetches jira ks
    /\ output s' = output s.
Proof.
  destruct (fetch_comments_counts jira ks [] s) as [s' [Hrun [He [Ho _]]]].
  exists (comments_for jira (map PStr ks) []), s'.
  split; [exact Hrun|]. split.
  { intros k Hk. unfold cm_get. cbn [hashable].
    now rewrite (comments_for_key jira ks k [] Hk). }
  split; [|split; assumption].
  intros k Hk. unfold cm_get. cbn [hashable].
  now rewrite (comments_for_other jira ks k [] Hk).
Qed.

Lemma pool_maps_every_key_witness :
  exists cm s',
    fetch_comments
      (mkApi (fun _ => PNone)
             (fun key => match key with
                         | PStr "A-1" => Ok [PStr "hello"]
                         | _ => Raise TypeError
                         end))
      (map PStr ["A-1"; "A-2"]) []
      (new_JiraScraper (mkCheckpointManager empty_checkpoint Missing))
    = (Ok cm, s')
    /\ cm_get cm (PStr "A-2") = Ok []
    /\ errors s' = 1.
Proof.
  destruct (pool_maps_every_key
              (mkApi (fun _ => PNone)
                     (fun key => match key with
                                 | PStr "A-1" => Ok [PStr "hello"]
                                 | _ => Raise TypeError
                                 end))
              ["A-1"; "A-2"]
              (new_JiraScraper (mkCheckpointManager empty_checkpoint Missing)))
    as [cm [s' [Hrun [Hin [_ [He _]]]]]].
  exists cm, s'. split; [exact Hrun|]. split.
  - rewrite (Hin "A-2"); [reflexivity | right; left; reflexivity].
  - exact He.
Defined.

(** ** The output validator *)

Lemma counter_total_incr (c : Validator.counter) (key : pyval) :
  Validator.counter_total (Validator.incr c key)
  = S (Validator.counter_total c).
Proof.
  unfold Validator.counter_total.
  induction c as [|[k n] c IH]; cbn; [reflexivity|].
  destruct (key_eqb k key); cbn; lia.
Qed.

Lemma counter_positive_incr (c : Validator.counter) (key : pyval) :
  Forall (fun kn => 1 <= snd kn) c ->
  Forall (fun kn => 1 <= snd kn) (Validator.incr c key).
Proof.
  induction 1 as [|[k n] c Hk Hc IH]; cbn.
  - repeat constructor.
  - destruct (key_eqb k key); constructor; cbn in *; auto; lia.
Qed.

Lemma counter_positive_total (c : Validator.counter) :
  Forall (fun kn => 1 <= snd kn) c -> c <> [] ->
  1 <= Validator.counter_total c.
Proof.
  intros H Hne. destruct H as [|[k n] c Hk Hc]; [congruence|].
  unfold Validator.counter_total. cbn in *. lia.
Qed.

Lemma check_fields_frame (fields : list string) (data : pyval) :
  forall (missing : list string) (st : Validator.stats),
    let st' := snd (Validator.check_fields fields data missing st) in
    Validator.total_lines st' = Validator.total_lines st
    /\ Validator.valid_lines st' = Validator.valid_lines st
    /\ Validator.invalid_lines st' = Validator.invalid_lines st
    /\ Validator.training_tasks st' = Validator.training_tasks st
    /\ Validator.projects st' = Validator.projects st
    /\ Validator.errors st' = Validator.errors st.
Proof.
  induction fields as [|field fields IH]; intros missing st;
    cbn [Validator.check_fields]; cbv zeta.
  - cbn. repeat split.
  - rewrite bindM_lift.
    destruct (py_contains field data) as [present|e];
      [|cbn; repeat split].
    destruct present; [apply IH|].
    unfold bindM, Validator.count_missing, modify.
    specialize (IH (missing ++ [field])%list
                   (Validator.mkStats
                      (Validator.total_lines st) (Validator.valid_lines st)
                      (Validator.invalid_lines st)
                      (Validator.incr (Validator.missing_fields st)
                                      (PStr field))
                      (Validator.training_tasks st) (Validator.projects st)
                      (Validator.errors st))).
    cbv zeta in IH. cbn in IH. exact IH.
Qed.

(** What a line does to the accounts: it is counted, and then counted
    invalid, or valid, or, when an exception follows the count of a valid
    line, both. *)
Lemma check_line_effect (line_num : nat) (l : Validator.line)
      (st : Validator.stats) :
  let st' := snd (Validator.check_line line_num l st) in
  fst (Validator.check_line line_num l st) = Ok tt
  /\ Validator.total_lines st' = S (Validator.total_lines st)
  /\ ((Validator.valid_lines st' = Validator.valid_lines st
       /\ Validator.invalid_lines st' = S (Validator.invalid_lines st)
       /\ List.length (Validator.errors st')
          = S (List.length (Validator.errors st))
       /\ Validator.training_tasks st' = Validator.training_tasks st
       /\ Validator.projects st' = Validator.projects st)
      \/ (Validator.valid_lines st' = S (Validator.valid_lines st)
          /\ Validator.invalid_lines st' = Validator.invalid_lines st
          /\ Validator.errors st' = Validator.errors st
          /\ (exists task,
                 Validator.training_tasks st'
                 = Validator.incr (Validator.training_tasks st) task)
          /\ (exists project,
                 Validator.projects st'
                 = Validator.incr (Validator.projects st) project))
      \/ (Validator.is_object_line l = false
          /\ Validator.valid_lines st' = S (Validator.valid_lines st)
          /\ Validator.invalid_lines st' = S (Validator.invalid_lines st)
          /\ List.length (Validator.errors st')
             = S (List.length (Validator.errors st))
          /\ (Validator.training_tasks st' = Validator.training_tasks st
              \/ exists task,
                   Validator.training_tasks st'
                   = Validator.incr (Validator.training_tasks st) task)
          /\ Validator.projects st' = Validator.projects st)).
Proof.
  cbv zeta.
  destruct (Validator.check_line line_num l st) as [r st'] eqn:Hrun.
  cbn [fst snd].
  unfold Validator.check_line, bindM at 1, Validator.count_line, modify
    in Hrun.
  destruct l as [data|].
  2:{ cbn in Hrun. injection Hrun as <- <-. cbn.
      split; [reflexivity|]. split; [reflexivity|]. left.
      rewrite length_app. cbn. repeat split. lia. }
  set (st1 := Validator.mkStats _ _ _ _ _ _ _) in Hrun.
  unfold try_except, Validator.check_data in Hrun.
  unfold bindM at 1 in Hrun.
  pose proof (check_fields_frame Validator.required_fields data [] st1)
    as Hframe. cbv zeta in Hframe.
  destruct (Validator.check_fields Validator.required_fields data [] st1)
    as [[missing|e] st2]; cbn [snd] in Hframe;
    destruct Hframe as [Ht [Hv [Hi [Hta [Hp He]]]]];
    subst st1; cbn [Validator.total_lines Validator.valid_lines
                    Validator.invalid_lines Validator.training_tasks
                    Validator.projects Validator.errors] in *.
  2:{ cbn in Hrun. injection Hrun as <- <-. cbn.
      split; [reflexivity|]. split; [exact Ht|]. left.
      rewrite length_app, He. cbn. repeat split; try assumption; lia. }
  destruct missing as [|field missing].
  2:{ cbn in Hrun. injection Hrun as <- <-. cbn.
      split; [reflexivity|]. split; [exact Ht|]. left.
      rewrite length_app, He. cbn. repeat split; try assumption; lia. }
  unfold bindM at 1, Validator.count_valid, modify in Hrun.
  rewrite bindM_lift in Hrun.
  destruct data as [| | | | |d];
    try (cbn in Hrun; injection Hrun as <- <-; cbn;
         split; [reflexivity|]; split; [exact Ht|]; right; right;
         rewrite length_app, He; cbn;
         repeat split; try assumption; try lia; left; assumption).
  cbn [py_get] in Hrun.
  unfold bindM at 1, Validator.count_task, Validator.counter_add in Hrun.
  cbn [Validator.training_tasks] in Hrun. cbn [Validator.is_object_line].
  destruct (hashable (Dict.get_default d "training_task" (PStr "unknown")));
    cbn [andb].
  2:{ cbn in Hrun. injection Hrun as <- <-. cbn.
      split; [reflexivity|]. split; [exact Ht|]. right; right.
      rewrite length_app, He. cbn.
      repeat split; try assumption; try lia. left; assumption. }
  rewrite bindM_lift in Hrun.
  unfold Validator.count_project, Validator.counter_add in Hrun.
  cbn [Validator.projects] in Hrun.
  destruct (hashable (Dict.get_default d "project" (PStr "unknown"))).
  - cbn in Hrun. injection Hrun as <- <-. cbn.
    split; [reflexivity|]. split; [exact Ht|]. right; left.
    rewrite Hta, Hp. repeat split; try assumption; try lia; eauto.
  - cbn in Hrun. injection Hrun as <- <-. cbn.
    split; [reflexivity|]. split; [exact Ht|]. right; right.
    rewrite length_app, He, Hta. cbn.
    repeat split; try assumption; try lia. right. eauto.
Qed.

Lemma check_lines_accounted (lines : list Validator.line) :
  forall (line_num : nat) (st : Validator.stats),
    Validator.accounted st ->
    Forall (fun kn => 1 <= snd kn) (Validator.training_tasks st) ->
    let st' := snd (Validator.check_lines line_num lines st) in
    fst (Validator.check_lines line_num lines st) = Ok tt
    /\ Validator.total_lines st'
       = Validator.total_lines st + List.length lines
    /\ Validator.accounted st'
    /\ Forall (fun kn => 1 <= snd kn) (Validator.training_tasks st')
    /\ (forallb Validator.is_object_line lines = true ->
        Validator.valid_lines st' + Validator.invalid_lines st'
        = Validator.valid_lines st + Validator.invalid_lines st
          + List.length lines).
Proof.
  induction lines as [|l lines IH]; intros line_num st Hacc Hpos; cbv zeta;
    cbn [Validator.check_lines].
  - cbn. repeat split; try assumption; try apply Hacc; lia.
  - unfold bindM.
    pose proof (check_line_effect line_num l st) as Heff. cbv zeta in Heff.
    destruct (Validator.check_line line_num l st) as [r st1].
    cbn [fst snd] in Heff. destruct Heff as [-> [Ht Hcases]].
    destruct Hacc as [A1 [A2 [A3 [A4 [A5 A6]]]]].
    assert (Hacc1 : Validator.accounted st1
                    /\ Forall (fun kn => 1 <= snd kn)
                              (Validator.training_tasks st1)
                    /\ (Validator.is_object_line l = true ->
                        Validator.valid_lines st1
                        + Validator.invalid_lines st1
                        = S (Validator.valid_lines st
                             + Validator.invalid_lines st))).
    { unfold Validator.accounted.
      destruct Hcases
        as [[Hv [Hi [He [Hta Hp]]]]
           |[[Hv [Hi [He [[task Hta] [project Hp]]]]]
            |[Hobj [Hv [Hi [He [Hta Hp]]]]]]].
      - rewrite Ht, Hv, Hi, He, Hta, Hp.
        repeat split; try assumption; lia.
      - rewrite Ht, Hv, Hi, He, Hta, Hp, !counter_total_incr.
        repeat split; try lia. apply counter_positive_incr. exact Hpos.
      - rewrite Ht, Hv, Hi, He, Hp, Hobj.
        destruct Hta as [Hta|[task Hta]]; rewrite Hta;
          rewrite ?counter_total_incr;
          repeat split; try lia; try assumption; try discriminate.
        apply counter_positive_incr. exact Hpos. }
    destruct Hacc1 as [Hacc1 [Hpos1 Hobj1]].
    destruct (IH (S line_num) st1 Hacc1 Hpos1)
      as [Hrun [Ht' [Hacc' [Hpos' Hobj']]]].
    split; [exact Hrun|]. split; [rewrite Ht'; cbn; lia|].
    split; [exact Hacc'|]. split; [exact Hpos'|].
    intros Hall. cbn [forallb] in Hall.
    apply andb_true_iff in Hall as [Hl Hall].
    rewrite (Hobj' Hall), (Hobj1 Hl). cbn. lia.
Qed.

(** X21. The accounts of [validate_jsonl_file] add up: every line of the
    file is counted once in [total_lines]; valid and invalid lines are each
    at most the total and together at least the total; there is one error
    entry per invalid line; and a task is counted only for a line counted
    valid.  So [print_statistics] never divides by zero: there is a line
    when a line is valid, and a valid line when a task was counted.  A path
    that does not exist gives the empty accounts. *)
Theorem validated_lines_are_accounted (file : option (list Validator.line)) :
  let st := Validator.validate_jsonl_file file in
  Validator.total_lines st
  = match file with None => 0 | Some lines => List.length lines end
  /\ Validator.valid_lines st <= Validator.total_lines st
  /\ Validator.invalid_lines st <= Validator.total_lines st
  /\ Validator.total_lines st
     <= Validator.valid_lines st + Validator.invalid_lines st
  /\ List.length (Validator.errors st) = Validator.invalid_lines st
  /\ Validator.counter_total (Validator.training_tasks st)
     <= Validator.valid_lines st
  /\ (0 < Validator.valid_lines st -> 0 < Validator.total_lines st)
  /\ (Validator.training_tasks st <> [] -> 0 < Validator.valid_lines st).
Proof.
  assert (Hempty : Validator.accounted Validator.empty_stats)
    by (unfold Validator.accounted; cbn; repeat split; lia).
  destruct file as [lines|]; cbv zeta; cbn [Validator.validate_jsonl_file].
  - destruct (check_lines_accounted lines 1 Validator.empty_stats Hempty
                                    (Forall_nil _))
      as [_ [Ht [[A1 [A2 [A3 [A4 [A5 A6]]]]] [Hpos _]]]].
    split; [exact Ht|]. repeat split; try assumption; try lia.
    intros Hne. pose proof (counter_positive_total _ Hpos Hne). lia.
  - cbn. repeat split; try lia. congruence.
Qed.

Lemma validated_lines_are_accounted_witness :
  0 < Validator.total_lines
        (Validator.validate_jsonl_file
           (Some [Validator.Parsed
                    (to_dict (all_defaults []))])).
Proof.
  destruct (validated_lines_are_accounted
              (Some [Validator.Parsed (to_dict (all_defaults []))]))
    as [_ [_ [_ [_ [_ [_ [H _]]]]]]].
  apply H. vm_compute. lia.
Defined.

(** X22. Valid and invalid lines are a partition of the file when every
    line is unparseable or an object whose task and project can be counted:
    then [valid_lines + invalid_lines = total_lines]. *)
Theorem object_lines_are_partitioned
        (lines : list Validator.line)
        (Hobjects : forallb Validator.is_object_line lines = true) :
  let st := Validator.validate_jsonl_file (Some lines) in
  Validator.valid_lines st + Validator.invalid_lines st
  = Validator.total_lines st
  /\ Validator.total_lines st = List.length lines.
Proof.
  assert (Hempty : Validator.accounted Validator.empty_stats)
    by (unfold Validator.accounted; cbn; repeat split; lia).
  cbv zeta. cbn [Validator.validate_jsonl_file].
  destruct (check_lines_accounted lines 1 Validator.empty_stats Hempty
                                  (Forall_nil _))
    as [_ [Ht [_ [_ Hobj]]]].
  rewrite (Hobj Hobjects), Ht. cbn. split; reflexivity.
Qed.

Lemma object_lines_are_partitioned_witness :
  let st := Validator.validate_jsonl_file
              (Some [Validator.Unparseable;
                     Validator.Parsed (PDict [("issue_id", PStr "A-1")])]) in
  Validator.valid_lines st + Validator.invalid_lines st
  = Validator.total_lines st.
Proof.
  apply (object_lines_are_partitioned
           [Validator.Unparseable;
            Validator.Parsed (PDict [("issue_id", PStr "A-1")])]).
  reflexivity.
Defined.

(** A line that is a JSON list naming the ten required fields has no
    field missing, is counted valid, and then fails at [data.get]: it is
    counted invalid too. *)
Example list_line_is_counted_twice :
  let st := Validator.validate_jsonl_file
              (Some [Validator.Parsed
                       (PList (map PStr Validator.required_fields))]) in
  Validator.total_lines st = 1
  /\ Validator.valid_lines st = 1
  /\ Validator.invalid_lines st = 1
  /\ Validator.errors st = [Validator.UnexpectedError 1].
Proof. vm_compute. repeat split. Qed.

Lemma check_line_of_record (line_num : nat) (r : JiraIssue)
      (st : Validator.stats) :
  Validator.check_line line_num (Validator.Parsed (to_dict r)) st
  = (Ok tt,
     Validator.mkStats
       (S (Validator.total_lines st)) (S (Validator.valid_lines st))
       (Validator.invalid_lines st) (Validator.missing_fields st)
       (Validator.incr (Validator.training_tasks st)
                       (PStr (task_name (task r))))
       (Validator.incr (Validator.projects st) (PStr (project r)))
       (Validator.errors st)).
Proof. reflexivity. Qed.

Lemma check_lines_of_records (rs : list JiraIssue) :
  forall (line_num : nat) (st : Validator.stats),
    let st' := snd (Validator.check_lines line_num
                      (map (fun r => Validator.Parsed (to_dict r)) rs) st) in
    Validator.total_lines st' = Validator.total_lines st + List.length rs
    /\ Validator.valid_lines st' = Validator.valid_lines st + List.length rs
    /\ Validator.invalid_lines st' = Validator.invalid_lines st
    /\ Validator.errors st' = Validator.errors st
    /\ Validator.missing_fields st' = Validator.missing_fields st
    /\ Validator.counter_total (Validator.training_tasks st')
       = Validator.counter_total (Validator.training_tasks st)
         + List.length rs
    /\ Validator.counter_total (Validator.projects st')
       = Validator.counter_total (Validator.projects st) + List.length rs.
Proof.
  induction rs as [|r rs IH]; intros line_num st; cbv zeta;
    cbn [map Validator.check_lines].
  - cbn. repeat split; lia.
  - unfold bindM. rewrite check_line_of_record.
    specialize (IH (S line_num)
                   (Validator.mkStats
                      (S (Validator.total_lines st))
                      (S (Validator.valid_lines st))
                      (Validator.invalid_lines st)
                      (Validator.missing_fields st)
                      (Validator.incr (Validator.training_tasks st)
                                      (PStr (task_name (task r))))
                      (Validator.incr (Validator.projects st)
                                      (PStr (project r)))
                      (Validator.errors st))).
    cbv zeta in IH.
    cbn [Validator.total_lines Validator.valid_lines Validator.invalid_lines
         Validator.errors Validator.missing_fields Validator.training_tasks
         Validator.projects] in IH.
    rewrite !counter_total_incr in IH.
    destruct IH as [H1 [H2 [H3 [H4 [H5 [H6 H7]]]]]].
    cbn [List.length]. repeat split; try assumption; lia.
Qed.

(** X23. What the scraper writes passes the validator: for any records,
    the file of their [to_dict] lines has every line valid, no line
    invalid, no error, no missing field, and one task and one project
    counted per line; and a directory holding such a file validates. *)
Theorem scraper_records_validate (rs : list JiraIssue) :
  let file := map (fun r => Validator.Parsed (to_dict r)) rs in
  let st := Validator.validate_jsonl_file (Some file) in
  Validator.total_lines st = List.length rs
  /\ Validator.valid_lines st = List.length rs
  /\ Validator.invalid_lines st = 0
  /\ Validator.errors st = []
  /\ Validator.missing_fields st = []
  /\ Validator.counter_total (Validator.training_tasks st) = List.length rs
  /\ Validator.counter_total (Validator.projects st) = List.length rs
  /\ Validator.validate_all_outputs (Some [file]) = true.
Proof.
  cbv zeta.
  destruct (check_lines_of_records rs 1 Validator.empty_stats)
    as [H1 [H2 [H3 [H4 [H5 [H6 H7]]]]]].
  cbn [Validator.validate_jsonl_file Validator.validate_all_outputs
       Validator.validate_files fst].
  rewrite H3. cbn in *.
  repeat split; assumption.
Qed.

Lemma validate_files_all (files : list (list Validator.line)) :
  forall (all_valid : bool) (t : Validator.totals),
    fst (Validator.validate_files files all_valid t)
    = all_valid
      && forallb (fun file =>
                    Validator.invalid_lines
                      (Validator.validate_jsonl_file (Some file)) =? 0)%nat
                 files.
Proof.
  induction files as [|file files IH]; intros all_valid t;
    cbn [Validator.validate_files forallb].
  - now rewrite andb_true_r.
  - rewrite IH.
    destruct (Validator.invalid_lines
                (Validator.validate_jsonl_file (Some file))) as [|n];
      cbn; [reflexivity|].
    now rewrite andb_false_r.
Qed.

(** X24. [validate_all_outputs] answers [True] exactly when the output
    directory exists, holds at least one file, and no file has an invalid
    line; a directory without files is a failure, and an empty file is
    not. *)
Theorem validate_all_outputs_iff
        (dir : option (list (list Validator.line))) :
  Validator.validate_all_outputs dir = true
  <-> exists files,
        dir = Some files
        /\ files <> []
        /\ Forall (fun file =>
                     Validator.invalid_lines
                       (Validator.validate_jsonl_file (Some file)) = 0)
                  files.
Proof.
  destruct dir as [files|]; cbn [Validator.validate_all_outputs].
  2:{ split; [discriminate | intros [files [H _]]; discriminate]. }
  destruct files as [|file files].
  { split; [discriminate | intros [files [H [Hne _]]]].
    injection H as <-. congruence. }
  rewrite validate_files_all. cbn [andb].
  rewrite forallb_forall. split.
  - intros H. exists (file :: files). split; [reflexivity|].
    split; [discriminate|]. apply Forall_forall.
    intros f Hf. apply Nat.eqb_eq. apply H. exact Hf.
  - intros [files' [Heq [_ H]]]. injection Heq as <-.
    rewrite Forall_forall in H.
    intros f Hf. apply Nat.eqb_eq. apply H. exact Hf.
Qed.

Example empty_file_validates :
  Validator.validate_all_outputs (Some [[]]) = true
  /\ Validator.validate_all_outputs (Some []) = false.
Proof. split; reflexivity. Qed.

(** ** config.py *)

(** X25. [validate_config] accepts exactly the settings with at least one
    project, a delay that is not negative (0 is accepted), and at least one
    retry and one second of timeout; on any other it raises [ValueError],
    after collecting one message for every setting out of range rather
    than stopping at the first.  The settings of the file are accepted. *)
Theorem validate_config_accepts (c : Config.settings) :
  (Config.validate_config c = Ok true
   <-> Config.PROJECTS c <> []
       /\ (0 <= Config.RATE_LIMIT_DELAY c)%Q
       /\ (1 <= Config.MAX_RETRIES c)%Z
       /\ (1 <= Config.REQUEST_TIMEOUT c)%Z)
  /\ (Config.validate_config c <> Ok true ->
      Config.validate_config c = Raise ValueError)
  /\ List.length (Config.config_errors c) = Config.broken c
  /\ Config.validate_config Config.shipped = Ok true.
Proof.
  assert (Hlen : List.length (Config.config_errors c) = Config.broken c).
  { unfold Config.config_errors, Config.broken.
    rewrite !length_app.
    destruct (Config.PROJECTS c);
      destruct (Qltb (Config.RATE_LIMIT_DELAY c) 0);
      destruct (Config.MAX_RETRIES c <? 1)%Z;
      destruct (Config.REQUEST_TIMEOUT c <? 1)%Z; reflexivity. }
  assert (Hq : Qltb (Config.RATE_LIMIT_DELAY c) 0 = false
               <-> (0 <= Config.RATE_LIMIT_DELAY c)%Q).
  { unfold Qltb. rewrite negb_false_iff. apply Qle_bool_iff. }
  split; [|split; [|split; [exact Hlen | reflexivity]]].
  - unfold Config.validate_config.
    destruct (Config.config_errors c) as [|msg msgs] eqn:E.
    + split; [intros _ | reflexivity].
      cbn in Hlen. unfold Config.broken in Hlen.
      destruct (Config.PROJECTS c); [cbn in Hlen; lia|].
      destruct (Qltb (Config.RATE_LIMIT_DELAY c) 0) eqn:Eq;
        [cbn in Hlen; lia|].
      destruct (Config.MAX_RETRIES c <? 1)%Z eqn:Er; [cbn in Hlen; lia|].
      destruct (Config.REQUEST_TIMEOUT c <? 1)%Z eqn:Et; [cbn in Hlen; lia|].
      apply Z.ltb_ge in Er, Et.
      split; [discriminate|]. split; [apply Hq; reflexivity|].
      split; assumption.
    + split; [discriminate|]. intros [Hp [Hd [Hr Ht]]].
      apply Hq in Hd. apply Z.ltb_ge in Hr, Ht.
      unfold Config.config_errors in E. rewrite Hd, Hr, Ht in E.
      destruct (Config.PROJECTS c); [congruence | discriminate].
  - unfold Config.validate_config.
    destruct (Config.config_errors c); [congruence | reflexivity].
Qed.

Lemma validate_config_accepts_witness :
  Config.validate_config (Config.mkSettings [] (-1) 0 0) = Raise ValueError
  /\ List.length (Config.config_errors (Config.mkSettings [] (-1) 0 0)) = 4.
Proof.
  destruct (validate_config_accepts (Config.mkSettings [] (-1) 0 0))
    as [_ [H [Hlen _]]].
  split; [apply H; discriminate | rewrite Hlen; reflexivity].
Defined.

(** ** JiraScraper: a whole run over good pages *)

Lemma pagination_writes (jira : api) (project : string)
      (items : list pyval) (total : Z) :
  forall (pages : list (list pyval * Z)) (fuel : nat) (s : JiraScraper)
         (n : Z),
    well_formed (state (checkpoint_manager s)) = true ->
    continuing jira (List.length (searches s)) n pages ->
    is_page (search_reply jira (List.length (searches s) + List.length pages))
            items total ->
    items <> [] ->
    page_ok items = true ->
    (final_offset n pages + Z.of_nat (List.length items) >= total)%Z ->
    List.length pages < fuel ->
    exists s',
      pagination jira project fuel (PInt n) s = (Ok Completed, s')
      /\ output s'
         = (output s
            ++ List.concat (map (page_records jira) (map fst pages ++ [items])%list))%list
      /\ total_issues s'
         = total_issues s
           + List.length
               (List.concat (map (page_records jira) (map fst pages ++ [items])%list))
      /\ persisted (checkpoint_file (checkpoint_manager s')) project
         = Some (PInt (final_offset n pages + Z.of_nat (List.length items))).
Proof.
  induction pages as [|[items0 total0] pages IH];
    intros fuel s n Hwf Hcont Hpage Hne Hok Hge Hfuel;
    (destruct fuel as [|fuel]; [cbn in Hfuel; lia|]);
    cbn [pagination].
  - cbn [List.length final_offset map app List.concat] in *.
    rewrite Nat.add_0_r in Hpage.
    destruct (scrape_page_good jira project s n items total
                               Hwf Hpage Hne Hok)
      as [s' [Hrun [_ [Ho [Ht [_ [_ [_ [Hsaved _]]]]]]]]].
    rewrite (bindM_ok _ _ _ _ _ Hrun).
    replace (n + Z.of_nat (List.length items) >=? total)%Z with true
      by (symmetry; apply Z.geb_le; lia).
    exists s'. split; [reflexivity|]. rewrite app_nil_r.
    unfold page_records. repeat split; assumption.
  - cbn [continuing] in Hcont.
    destruct Hcont as [Hpage0 [Hne0 [Hok0 [Hlt Hcont]]]].
    destruct (scrape_page_good jira project s n items0 total0
                               Hwf Hpage0 Hne0 Hok0)
      as [s1 [Hrun [Hs [Ho [Ht [_ [Hwf1 _]]]]]]].
    rewrite (bindM_ok _ _ _ _ _ Hrun).
    replace (n + Z.of_nat (List.length items0) >=? total0)%Z with false
      by (symmetry; rewrite Z.geb_leb; apply Z.leb_gt; lia).
    assert (Hlen : List.length (searches s1) = S (List.length (searches s)))
      by (rewrite Hs, length_app; cbn; lia).
    destruct (IH fuel s1 (n + Z.of_nat (List.length items0))%Z Hwf1)
      as [s' [Hrest [Ho' [Ht' Hsaved]]]]; try assumption.
    + rewrite Hlen. exact Hcont.
    + rewrite Hlen. cbn [List.length] in Hpage.
      replace (S (List.length (searches s)) + List.length pages)
        with (List.length (searches s) + S (List.length pages)) by lia.
      exact Hpage.
    + cbn [List.length] in Hfuel. lia.
    + exists s'. split; [exact Hrest|].
      cbn [map fst app List.concat final_offset].
      rewrite Ho', Ho, Ht', Ht, length_app, <- app_assoc.
      unfold page_records at 3 5.
      repeat split; try assumption; lia.
Qed.

(** X26. A run over good pages writes them all, in order: from a
    checkpoint file that holds the offset [n], over pages that can be
    processed, the last of which brings the offset to its total,
    [scrape_project] returns, having written the records of the first page,
    then those of the second, and so on, each page in the order of its
    items; [total_issues] is the number of lines written; and the file holds
    the offset [n] plus the lengths of all the pages. *)
Theorem scrape_project_writes_pages_in_order
        (jira : api) (project : string) (f : file) (m : CheckpointManager)
        (n : Z) (pages : list (list pyval * Z)) (items : list pyval)
        (total : Z) (fuel : nat)
        (Hload : new_CheckpointManager f = Ok m)
        (Hsaved : persisted f project = Some (PInt n))
        (Hpages : continuing jira 0 n pages)
        (Hlast : is_page (search_reply jira (List.length pages)) items total)
        (Hitems : items <> [])
        (Hok : page_ok items = true)
        (Hend : (final_offset n pages + Z.of_nat (List.length items)
                 >= total)%Z)
        (Hfuel : List.length pages < fuel) :
  exists s',
    scrape_project jira project fuel (new_JiraScraper m) = (Ok Completed, s')
    /\ output s'
       = List.concat (map (page_records jira) (map fst pages ++ [items])%list)
    /\ total_issues s' = List.length (output s')
    /\ persisted (checkpoint_file (checkpoint_manager s')) project
       = Some (PInt (final_offset n pages + Z.of_nat (List.length items))).
Proof.
  destruct f as [|v| |]; try discriminate.
  cbn in Hload. injection Hload as <-.
  cbn [persisted] in Hsaved.
  destruct v as [| | | | |d]; try discriminate.
  destruct (Dict.get d "projects") as [p|] eqn:Hps; try discriminate.
  destruct p as [| | | | |ps]; try discriminate.
  unfold scrape_project.
  assert (Hprog :
            on_checkpoint (get_project_progress project)
              (new_JiraScraper
                 (mkCheckpointManager (PDict d) (Stored (PDict d))))
            = (Ok (PInt n),
               new_JiraScraper
                 (mkCheckpointManager (PDict d) (Stored (PDict d))))).
  { unfold on_checkpoint, new_JiraScraper. cbn [checkpoint_manager].
    rewrite (progress_well_formed
               (mkCheckpointManager (PDict d) (Stored (PDict d)))
               project d ps eq_refl Hps).
    unfold Dict.get_default. rewrite Hsaved. reflexivity. }
  rewrite (bindM_ok _ _ _ _ _ Hprog).
  destruct (pagination_writes jira project items total pages fuel
              (new_JiraScraper
                 (mkCheckpointManager (PDict d) (Stored (PDict d)))) n)
    as [s' [Hrun [Ho [Ht Hfile]]]]; try assumption.
  { cbn. rewrite Hps. reflexivity. }
  rewrite (with_output_file_completed _ _ _ Hrun).
  eexists. split; [reflexivity|].
  cbn [note modify snd output total_issues checkpoint_manager].
  cbn [new_JiraScraper output total_issues app] in Ho, Ht.
  rewrite Ht, Ho. repeat split. exact Hfile.
Qed.

Lemma scrape_project_writes_pages_in_order_witness :
  exists s',
    scrape_project
      (scripted_api
         [page_of [PDict [("key", PStr "KAFKA-3"); ("fields", PDict [])]] 4;
          page_of [PDict [("key", PStr "KAFKA-4"); ("fields", PDict [])]] 4])
      "KAFKA" 5
      (new_JiraScraper
         (mkCheckpointManager
            (PDict [("projects", PDict [("KAFKA", PInt 2)])])
            (Stored (PDict [("projects", PDict [("KAFKA", PInt 2)])]))))
    = (Ok Completed, s')
    /\ map issue_id (output s') = [PStr "KAFKA-3"; PStr "KAFKA-4"]
    /\ persisted (checkpoint_file (checkpoint_manager s')) "KAFKA"
       = Some (PInt 4).
Proof.
  destruct (scrape_project_writes_pages_in_order
              (scripted_api
                 [page_of [PDict [("key", PStr "KAFKA-3");
                                  ("fields", PDict [])]] 4;
                  page_of [PDict [("key", PStr "KAFKA-4");
                                  ("fields", PDict [])]] 4])
              "KAFKA"
              (Stored (PDict [("projects", PDict [("KAFKA", PInt 2)])]))
              (mkCheckpointManager
                 (PDict [("projects", PDict [("KAFKA", PInt 2)])])
                 (Stored (PDict [("projects", PDict [("KAFKA", PInt 2)])])))
              2
              [([PDict [("key", PStr "KAFKA-3"); ("fields", PDict [])]], 4%Z)]
              [PDict [("key", PStr "KAFKA-4"); ("fields", PDict [])]]
              4 5 eq_refl eq_refl)
    as [s' [Hrun [Ho [_ Hfile]]]].
  - cbn [continuing]. split.
    + eexists. split; [reflexivity|]. split; reflexivity.
    + split; [discriminate|]. split; [reflexivity|]. split; [|exact I].
      cbn. lia.
  - eexists. split; [reflexivity|]. split; reflexivity.
  - discriminate.
  - reflexivity.
  - cbn. lia.
  - cbn. lia.
  - exists s'. split; [exact Hrun|]. split; [|exact Hfile].
    rewrite Ho. reflexivity.
Defined.
